(** * DPR bi-encoder training pipeline (train_dense_encoder.py)

    A shallow embedding of the coordination logic of the trainer: the
    distributed loss coordinator [_calc_loss], the validation and
    best-checkpoint state machine ([validate_and_save], [validate_nll],
    [validate_average_rank], [_save_checkpoint]), the epoch loop
    ([run_train], [_train_epoch]), checkpoint resumption
    ([_load_saved_state]) and the entry point [main].

    Conventions.
    - Python ints are [Z]; Python floats are modelled as exact rationals
      [Q] (only their order and a few quotients matter here).
    - A Python exception is the [Raise] case of [result].
    - Methods of [BiEncoderTrainer] run in the monad [M], which threads
      the trainer object and the log of externally visible effects.
    - What the neural model, the data iterators and the collective
      transport deliver is an explicit input of the function that
      consumes it. *)

From Stdlib Require Import ZArith QArith Lia.
From stdpp Require Import base option list gmap strings pretty sorting.

Local Open Scope Z_scope.

(** ** Exceptions and results *)

Inductive Exn : Type :=
| ValueError (msg : string)
| KeyError (key : string)
| IndexError
| TypeError
| ZeroDivisionError
| AssertionError
| RuntimeError (msg : string).

Inductive result (A : Type) : Type :=
| Ok (a : A)
| Raise (e : Exn).
Arguments Ok {A} a.
Arguments Raise {A} e.

Definition is_ok {A} (r : result A) : bool :=
  match r with Ok _ => true | Raise _ => false end.

(** Pure computations that may raise. *)
Definition rbind {A B} (r : result A) (k : A -> result B) : result B :=
  match r with Ok a => k a | Raise e => Raise e end.

Notation "'let?' x ':=' c 'in' k" := (rbind c (fun x => k))
  (at level 10, x pattern, c at level 100, k at level 200).

(** Python's [a % b] and [a // b] on ints: sign of the divisor, floor
    quotient, [ZeroDivisionError] on [b = 0]. *)
Definition py_mod (a b : Z) : result Z :=
  if decide (b = 0) then Raise ZeroDivisionError else Ok (a mod b).

Definition py_floordiv (a b : Z) : result Z :=
  if decide (b = 0) then Raise ZeroDivisionError else Ok (a / b).

(** [math.ceil(a / b)] for ints [a], [b]. *)
Definition py_ceil_div (a b : Z) : result Z :=
  if decide (b = 0) then Raise ZeroDivisionError else Ok (- ((- a) / b)).

(** True division of two numbers, as a float. *)
Definition py_truediv (a b : Q) : result Q :=
  if Qeq_bool b 0 then Raise ZeroDivisionError else Ok (a / b)%Q.

(** Truthiness of a float-or-None attribute: [None] and [0] are falsy. *)
Definition truthy (o : option Q) : bool :=
  match o with
  | None => false
  | Some v => negb (Qeq_bool v 0)
  end.

(** [o or d]. *)
Definition py_or (o : option Q) (d : Q) : Q :=
  match o with
  | Some v => if truthy o then v else d
  | None => d
  end.

Definition Qltb (a b : Q) : bool := negb (Qle_bool b a).

(** [str(n)] for an int. *)
Definition str (n : Z) : string := pretty n.

(** ** Configuration (the fields of [cfg] the trainer reads) *)

Record TrainCfg : Type := {
  batch_size : Z;
  dev_batch_size : Z;
  gradient_accumulation_steps : Z;
  num_train_epochs : Z;
  warmup_steps : Z;
  eval_per_epoch : Z;
  eval_during_epoch : bool;
  log_batch_step : Z;
  train_rolling_loss_step : Z;
  higher_is_better : bool;
  save_best_only : bool;
  save_separate_models : bool
}.

Record Cfg : Type := {
  local_rank : Z;
  distributed_world_size : option Z;
  val_av_rank_start_epoch : Z;
  train_datasets : list string;
  dev_datasets : list string;
  customer_chunks : option string;
  model_file : option string;
  output_dir : option string;
  checkpoint_file_name : string;
  ignore_checkpoint_offset : bool;
  ignore_checkpoint_optimizer : bool;
  train : TrainCfg
}.

(** [cfg.distributed_world_size or 1]: [None] and [0] give [1]. *)
Definition world_size_or_1 (cfg : Cfg) : Z :=
  match distributed_world_size cfg with
  | Some k => if decide (k = 0) then 1 else k
  | None => 1
  end.

(** [cfg.local_rank in [-1, 0]]. *)
Definition rank_in_m1_0 (cfg : Cfg) : bool :=
  bool_decide (local_rank cfg = -1) || bool_decide (local_rank cfg = 0).

(** ** Tensors and the loss coordinator [_calc_loss] *)

Inductive Device : Type := Cpu | Cuda (n : nat).

Section LossCoordinator.
(** [V] is the type of one row (one query or passage vector). *)
Context {V : Type}.

(** A 2-d tensor: its rows, whether autograd tracks it for the calling
    worker, and where it lives. *)
Record Tensor : Type := mkTensor {
  rows : list V;
  requires_grad : bool;
  device : Device
}.

(** [t.size(0)]. *)
Definition size0 (t : Tensor) : nat := length (rows t).

(** [torch.empty_like(x).cpu().copy_(x).detach_()]. *)
Definition detached_cpu_copy (x : Tensor) : Tensor :=
  mkTensor (rows x) false Cpu.

(** [x.to(d)]. *)
Definition to_device (d : Device) (x : Tensor) : Tensor :=
  mkTensor (rows x) (requires_grad x) d.

(** [torch.cat(ts, dim=0)]; an empty list of tensors is refused. *)
Definition cat (ts : list Tensor) : result Tensor :=
  match ts with
  | [] => Raise (RuntimeError "torch.cat(): expected a non-empty list of Tensors")
  | t :: _ =>
      Ok (mkTensor (concat (rows <$> ts)) (existsb requires_grad ts) (device t))
  end.

(** Which rows of [torch.cat(ts)] carry gradient back in the calling
    worker's backward pass: those that come from a tracked tensor. *)
Definition grad_rows (ts : list Tensor) : list bool :=
  concat ((fun t => replicate (size0 t) (requires_grad t)) <$> ts).

(** What a worker holds locally for one step, and what travels through
    the collective: query vectors, passage vectors, positive indices,
    hard-negative indices. *)
Record Payload : Type := mkPayload {
  p_q_vector : Tensor;
  p_ctx_vectors : Tensor;
  p_positive_idx : list nat;
  p_hard_negatives_idxs : list (list nat)
}.

(** The four arguments handed to [loss_function.calc]. *)
Record LossInputs : Type := mkLossInputs {
  global_q_vector : Tensor;
  global_ctxs_vector : Tensor;
  positive_idx_per_question : list nat;
  hard_negatives_per_question : list (list nat)
}.

(** The accumulators of the loop over the gathered items. *)
Record Pool : Type := mkPool {
  pool_q : list Tensor;
  pool_ctxs : list Tensor;
  pool_positive : list nat;
  pool_hard_negatives : list (list nat);
  total_ctxs : nat
}.

Definition empty_pool : Pool := mkPool [] [] [] [] 0%nat.

(** [[v + total_ctxs for v in l]]. *)
Definition shift_by (total_ctxs : nat) (l : list nat) : list nat :=
  (fun v => v + total_ctxs)%nat <$> l.

Section WithLocals.
Variable cfg : Cfg.
Variables local_q_vector local_ctx_vectors : Tensor.
Variable local_positive_idxs : list nat.
Variable local_hard_negatives_idxs : list (list nat).

(** One pass of the body of
    [for i, item in enumerate(global_question_ctx_vectors)]. *)
Definition pool_step (i : nat) (item : Payload) (acc : Pool) : Pool :=
  let q_vector := p_q_vector item in
  let ctx_vectors := p_ctx_vectors item in
  let positive_idx := p_positive_idx item in
  let hard_negatives_idxs := p_hard_negatives_idxs item in
  let base := total_ctxs acc in
  if decide (Z.of_nat i ≠ local_rank cfg) then
    mkPool
      (pool_q acc ++ [to_device (device local_q_vector) q_vector])
      (pool_ctxs acc ++ [to_device (device local_q_vector) ctx_vectors])
      (pool_positive acc ++ shift_by base positive_idx)
      (pool_hard_negatives acc ++ (shift_by base <$> hard_negatives_idxs))
      (base + size0 ctx_vectors)%nat
  else
    mkPool
      (pool_q acc ++ [local_q_vector])
      (pool_ctxs acc ++ [local_ctx_vectors])
      (pool_positive acc ++ shift_by base local_positive_idxs)
      (pool_hard_negatives acc ++ (shift_by base <$> local_hard_negatives_idxs))
      (base + size0 ctx_vectors)%nat.

Fixpoint pool_loop (i : nat) (items : list Payload) (acc : Pool) : Pool :=
  match items with
  | [] => acc
  | item :: rest => pool_loop (S i) rest (pool_step i item acc)
  end.

(** The payload this worker submits to the collective. *)
Definition payload_to_send : Payload :=
  mkPayload (detached_cpu_copy local_q_vector)
            (detached_cpu_copy local_ctx_vectors)
            local_positive_idxs local_hard_negatives_idxs.

(** The lists [global_q_vector], [global_ctxs_vector] (before
    [torch.cat]) and the index lists, as the distributed branch
    builds them.  [all_gather_list] is the collective of
    dpr.utils.dist_utils: it maps the submitted payload to the list
    of every worker's payload in rank order. *)
Definition _calc_loss_pool (all_gather_list : Payload -> list Payload) : Pool :=
  let global_question_ctx_vectors := all_gather_list payload_to_send in
  pool_loop 0 global_question_ctx_vectors empty_pool.

(** [_calc_loss] up to the call of [loss_function.calc]: the
    arguments that call receives. *)
Definition _calc_loss_inputs (all_gather_list : Payload -> list Payload)
  : result LossInputs :=
  let distributed_world_size := world_size_or_1 cfg in
  if decide (distributed_world_size > 1) then
    let pool := _calc_loss_pool all_gather_list in
    let? gq := cat (pool_q pool) in
    let? gc := cat (pool_ctxs pool) in
    Ok (mkLossInputs gq gc (pool_positive pool) (pool_hard_negatives pool))
  else
    Ok (mkLossInputs local_q_vector local_ctx_vectors
                     local_positive_idxs local_hard_negatives_idxs).

(** [_calc_loss]: [calc] is [loss_function.calc] with its
    [loss_scale] keyword. *)
Definition _calc_loss {L : Type}
    (calc : Tensor -> Tensor -> list nat -> list (list nat) -> option Q -> L)
    (all_gather_list : Payload -> list Payload)
    (loss_scale : option Q) : result L :=
  let? a := _calc_loss_inputs all_gather_list in
  Ok (calc (global_q_vector a) (global_ctxs_vector a)
           (positive_idx_per_question a) (hard_negatives_per_question a)
           loss_scale).
End WithLocals.

(** *** Specification-side notions for the pooled batch *)

(** The payload a worker with local batch [w] submits. *)
Definition sent (w : Payload) : Payload :=
  payload_to_send (p_q_vector w) (p_ctx_vectors w)
                  (p_positive_idx w) (p_hard_negatives_idxs w).

(** Passages contributed by the workers of rank below [i]. *)
Definition offset (world : list Payload) (i : nat) : nat :=
  sum_list_with (fun w => size0 (p_ctx_vectors w)) (take i world).

(** Queries contributed by the workers of rank below [i]. *)
Definition q_offset (world : list Payload) (i : nat) : nat :=
  sum_list_with (fun w => size0 (p_q_vector w)) (take i world).

(** Every worker's positive indices in rank order, those of worker [i]
    shifted by the passages of the workers before it. *)
Definition rebased_positive (world : list Payload) : list nat :=
  concat (imap (fun i w => shift_by (offset world i) (p_positive_idx w)) world).

Definition rebased_hard_negatives (world : list Payload) : list (list nat) :=
  concat (imap (fun i w => shift_by (offset world i) <$> p_hard_negatives_idxs w)
               world).

(** The same lists, built from the first worker on with a running base. *)
Fixpoint rebase_positive_from (base : nat) (world : list Payload) : list nat :=
  match world with
  | [] => []
  | w :: rest =>
      shift_by base (p_positive_idx w)
        ++ rebase_positive_from (base + size0 (p_ctx_vectors w)) rest
  end.

Fixpoint rebase_hard_negatives_from (base : nat) (world : list Payload)
  : list (list nat) :=
  match world with
  | [] => []
  | w :: rest =>
      (shift_by base <$> p_hard_negatives_idxs w)
        ++ rebase_hard_negatives_from (base + size0 (p_ctx_vectors w)) rest
  end.
End LossCoordinator.

Arguments Tensor V : clear implicits.
Arguments Payload V : clear implicits.
Arguments LossInputs V : clear implicits.
Arguments Pool V : clear implicits.

(** ** Validation measures *)

Local Open Scope Q_scope.

(** Sum of a list of floats, of a list of ints. *)
Definition Qsum (l : list Q) : Q := foldr Qplus 0 l.

Definition Zsum (l : list Z) : Z := foldr Z.add 0%Z l.

(** [validate_nll]: [batches] holds, for each batch of the dev iterator,
    the [loss.item()] and [correct_cnt] of its forward pass. *)
Definition validate_nll (cfg : Cfg) (batches : list (Q * Z))
  : result (gmap string Q) :=
  let total_loss := Qsum (fst <$> batches) in
  let total_correct_predictions := Zsum (snd <$> batches) in
  let n_batches := Z.of_nat (length batches) in
  let? total_loss := py_truediv total_loss (inject_Z n_batches) in
  let total_samples :=
    (n_batches * dev_batch_size (train cfg) * world_size_or_1 cfg)%Z in
  let? correct_ratio :=
    py_truediv (inject_Z total_correct_predictions) (inject_Z total_samples) in
  Ok (<["Dev NLL loss" := total_loss]>
      (<["Dev Total Samples" := inject_Z total_samples]>
       (<["Dev Total Correct Predictions" := inject_Z total_correct_predictions]>
        (<["Dev Correct Predictions Ratio" := correct_ratio]> ∅)))).

(** The columns of the IR report of [validate_ask_ai_metrics], each
    already averaged over the samples, scaled and rounded. *)
Record IRReport : Type := {
  p_at_1 : Q; p_at_2 : Q; p_at_5 : Q; p_at_30 : Q;
  url_rank : Q; section_rank : Q;
  p1_Url : Q; p2_Url : Q; p5_Url : Q; p30_Url : Q;
  p1_Section : Q; p2_Section : Q; p5_Section : Q; p30_Section : Q
}.

(** The dict [validate_ask_ai_metrics] returns. *)
Definition validate_ask_ai_metrics (r : IRReport) : gmap string Q :=
  list_to_map
    [("p@1", p_at_1 r); ("p@2", p_at_2 r); ("p@5", p_at_5 r);
     ("p@30", p_at_30 r); ("url_rank", url_rank r);
     ("section_rank", section_rank r);
     ("p1_Url", p1_Url r); ("p2_Url", p2_Url r); ("p5_Url", p5_Url r);
     ("p30_Url", p30_Url r);
     ("p1_Section", p1_Section r); ("p2_Section", p2_Section r);
     ("p5_Section", p5_Section r); ("p30_Section", p30_Section r)].

(** [d[k]] on a dict. *)
Definition getitem (d : gmap string Q) (k : string) : result Q :=
  match d !! k with
  | Some v => Ok v
  | None => Raise (KeyError k)
  end.

(** [t.nonzero()] on a 1-d boolean tensor: the positions holding [True]. *)
Fixpoint nonzero_from (j : nat) (mask : list bool) : list nat :=
  match mask with
  | [] => []
  | b :: rest => if b then j :: nonzero_from (S j) rest else nonzero_from (S j) rest
  end.

Definition nonzero (mask : list bool) : list nat := nonzero_from 0 mask.

(** [t.item()]: defined on one-element tensors only. *)
Definition item (t : list nat) : result nat :=
  match t with
  | [j] => Ok j
  | _ => Raise (RuntimeError "a Tensor with several or no elements cannot be converted to Scalar")
  end.

(** [(indices_i == idx).nonzero().item()]. *)
Definition gold_idx (indices_i : list nat) (idx : nat) : result nat :=
  item (nonzero ((fun v => bool_decide (v = idx)) <$> indices_i)).

(** [for i, idx in enumerate(positive_idx_per_question): rank += ...],
    with [indices] from row [i] on. *)
Fixpoint rank_loop (indices : list (list nat)) (positive_idx : list nat)
    (rank : Z) : result Z :=
  match positive_idx with
  | [] => Ok rank
  | idx :: rest =>
      match indices with
      | [] => Raise IndexError
      | indices_i :: indices' =>
          let? g := gold_idx indices_i idx in
          rank_loop indices' rest (rank + Z.of_nat g)%Z
      end
  end.

(** The loop over the gathered [[rank, q_num]] pairs. *)
Fixpoint stats_loop (cfg : Cfg) (i : nat) (eval_stats : list (Z * Z))
    (rank q_num : Z) : Z * Z :=
  match eval_stats with
  | [] => (rank, q_num)
  | (remote_rank, remote_q_num) :: rest =>
      if decide (Z.of_nat i ≠ local_rank cfg)
      then stats_loop cfg (S i) rest (rank + remote_rank)%Z (q_num + remote_q_num)%Z
      else stats_loop cfg (S i) rest rank q_num
  end.

(** [validate_average_rank].  [scores] is the query x passage similarity
    matrix of the locally encoded dev questions and passages;
    [torch_sort row] is the [indices] row that
    [torch.sort(scores, dim=1, descending=True)] yields for [row];
    [all_gather_list] is the collective for the [[rank, q_num]] pair. *)
Definition validate_average_rank (cfg : Cfg)
    (torch_sort : list Q -> list nat)
    (all_gather_list : Z * Z -> list (Z * Z))
    (scores : list (list Q)) (positive_idx_per_question : list nat)
  : result Q :=
  let q_num := Z.of_nat (length scores) in
  if negb (bool_decide (q_num = Z.of_nat (length positive_idx_per_question)))
  then Raise AssertionError
  else
    let indices := torch_sort <$> scores in
    let? rank := rank_loop indices positive_idx_per_question 0%Z in
    let '(rank, q_num) :=
      if decide (world_size_or_1 cfg > 1)%Z then
        let eval_stats := all_gather_list (rank, q_num) in
        stats_loop cfg 0 eval_stats rank q_num
      else (rank, q_num) in
    py_truediv (inject_Z rank) (inject_Z q_num).

(** What this file expects of [torch.sort(..., descending=True)] on one
    row: the indices are a rearrangement of the row's positions, and the
    scores they point at never increase along them. *)
Definition argsort_desc (row : list Q) (indices_i : list nat) : Prop :=
  indices_i ≡ₚ seq 0 (length row)
  ∧ StronglySorted
      (fun ia ib => ∀ sa sb, row !! ia = Some sa → row !! ib = Some sb → sb <= sa)
      indices_i.

(** What the dev data and the current model deliver during one call of
    [validate_and_save]. *)
Record DevRun : Type := {
  nll_batches : list (Q * Z);
  ir_report : IRReport;
  rank_scores : list (list Q);
  rank_positive_idx : list nat;
  rank_gather : Z * Z -> list (Z * Z)
}.

Local Close Scope Q_scope.

(** ** The trainer object and its effects *)

(** Externally visible effects, in the order they happen. *)
Inductive Event : Type :=
| WandbLogin
| WandbInit
| WandbLog (metrics : gmap string Q)
| MakeDirs (dir : string)
| LogWarning (msg : string)
| LogInfo (msg : string)
| TrainerConstructed
| SchedulerBuilt (warmup total_updates steps_shift : Z)
| EpochStarted (epoch : Z)
| TrainStep (epoch data_iteration : Z)
| OptimizerStep
| ValidationRun (epoch iteration : Z) (save : bool)
| EncoderSaved (path : string)
| TokenizerSaved
| CheckpointSaved (cp : string) (epoch offset : Z).

(** A state dict (model weights, optimizer state, scheduler state). *)
Abbreviation StateDict := (gmap string Z).

(** [CheckpointState]. *)
Record CheckpointState : Type := {
  model_dict : StateDict;
  optimizer_dict : StateDict;
  scheduler_dict : StateDict;
  cp_offset : Z;
  cp_epoch : Z
}.

(** The attributes of [BiEncoderTrainer] that the pipeline reads and
    writes, the states held by its model and optimizer, and the log of
    effects. *)
Record Trainer : Type := mkTrainer {
  start_epoch : Z;
  start_batch : Z;
  scheduler_state : option StateDict;
  best_validation_result : option Q;
  best_cp_name : option string;
  biencoder_state : StateDict;
  optimizer_state : StateDict;
  validations_run : nat;
  trace : list Event
}.

(** Trainer methods: state passing, with exceptions. *)
Definition M (A : Type) : Type := Trainer -> result A * Trainer.

Definition ret {A} (a : A) : M A := fun t => (Ok a, t).

Definition bind {A B} (m : M A) (k : A -> M B) : M B :=
  fun t => match m t with
           | (Ok a, t') => k a t'
           | (Raise e, t') => (Raise e, t')
           end.

Definition raise {A} (e : Exn) : M A := fun t => (Raise e, t).

Definition lift {A} (r : result A) : M A := fun t => (r, t).

Definition get : M Trainer := fun t => (Ok t, t).

Definition modify (f : Trainer -> Trainer) : M unit := fun t => (Ok tt, f t).

Notation "x <- c ;; k" := (bind c (fun x => k))
  (at level 100, c at next level, right associativity).
Notation "c ;;; k" := (bind c (fun _ => k))
  (at level 100, right associativity).

(** The trainer after one more effect. *)
Definition log_event (e : Event) (t : Trainer) : Trainer :=
  mkTrainer (start_epoch t) (start_batch t) (scheduler_state t)
            (best_validation_result t) (best_cp_name t)
            (biencoder_state t) (optimizer_state t)
            (validations_run t) (trace t ++ [e]).

Definition emit (e : Event) : M unit := modify (log_event e).

Definition when (b : bool) (m : M unit) : M unit := if b then m else ret tt.

Definition set_best_validation_result (v : option Q) : M unit :=
  modify (fun t => mkTrainer (start_epoch t) (start_batch t) (scheduler_state t)
                     v (best_cp_name t)
                     (biencoder_state t) (optimizer_state t)
                     (validations_run t) (trace t)).

Definition set_best_cp_name (n : option string) : M unit :=
  modify (fun t => mkTrainer (start_epoch t) (start_batch t) (scheduler_state t)
                     (best_validation_result t) n
                     (biencoder_state t) (optimizer_state t)
                     (validations_run t) (trace t)).

(** [os.path.join(a, b)] for a relative or absolute [b]. *)
Definition path_join (a b : string) : string :=
  if String.prefix "/" b then b
  else if bool_decide (a = "") then b
  else if String.prefix "/" (String.rev a) then a +:+ b
  else a +:+ "/" +:+ b.

(** [os.path.join(cfg.output_dir, name)]; [None] is no path. *)
Definition in_output_dir (cfg : Cfg) (name : string) : result string :=
  match output_dir cfg with
  | Some d => Ok (path_join d name)
  | None => Raise TypeError
  end.

(** [_save_checkpoint]. *)
Definition _save_checkpoint (cfg : Cfg) (epoch offset : Z)
    (save_separate_models best_model_found : bool) : M string :=
  (if save_separate_models then
     question_encoder_cp <-
       lift (in_output_dir cfg ("dpr_question_encoder_epoch_" +:+ str epoch)) ;;
     emit (EncoderSaved question_encoder_cp) ;;;
     passage_encoder_cp <-
       lift (in_output_dir cfg ("dpr_passage_encoder_epoch_" +:+ str epoch)) ;;
     emit (EncoderSaved passage_encoder_cp)
   else ret tt) ;;;
  cp <- lift (if negb best_model_found
              then in_output_dir cfg (checkpoint_file_name cfg +:+ "." +:+ str epoch)
              else in_output_dir cfg (checkpoint_file_name cfg +:+ "_best.cp")) ;;
  emit TokenizerSaved ;;;
  emit (CheckpointSaved cp epoch offset) ;;;
  ret cp.

(** Truthiness of a str-or-None value. *)
Definition truthy_str (o : option string) : bool :=
  match o with
  | Some s => negb (bool_decide (s = ""))
  | None => false
  end.

(** The scalar [validation_loss] of [validate_and_save] and the metrics
    dict it returns. *)
Definition validation_measures (cfg : Cfg) (torch_sort : list Q -> list nat)
    (dev : DevRun) (epoch : Z) (all_passages : list (Z * string))
  : result (gmap string Q * Q) :=
  if bool_decide (dev_datasets cfg = []) then Ok (∅, 0%Q)
  else
    let? metrics := validate_nll cfg (nll_batches dev) in
    let? (metrics, p_at_30) :=
      match all_passages with
      | _ :: _ =>
          let ask_ai_ir_metrics := validate_ask_ai_metrics (ir_report dev) in
          let? p := getitem ask_ai_ir_metrics "p@30" in
          Ok (ask_ai_ir_metrics ∪ metrics, Some p)
      | [] => Ok (metrics, None)
      end in
    let? average_rank_loss :=
      validate_average_rank cfg torch_sort (rank_gather dev)
                            (rank_scores dev) (rank_positive_idx dev) in
    let metrics := <["Dev Average Rank" := average_rank_loss]> metrics in
    if decide (epoch >= val_av_rank_start_epoch cfg) then
      match p_at_30 with
      | Some p => Ok (metrics, p)
      | None => Ok (metrics, average_rank_loss)
      end
    else
      let? nll := getitem metrics "Dev NLL loss" in
      Ok (metrics, nll).

(** The condition under which [best_model_found] is set. *)
Definition best_model_found_cond (cfg : Cfg) (validation_loss : Q)
    (best : option Q) : bool :=
  (negb (higher_is_better (train cfg))
     && Qltb validation_loss (py_or best (validation_loss + 1)%Q))
  || (higher_is_better (train cfg)
     && Qltb (py_or best (validation_loss - 1)%Q) validation_loss).

(** [validate_and_save]. *)
Definition validate_and_save (cfg : Cfg) (torch_sort : list Q -> list nat)
    (dev : DevRun) (epoch iteration : Z) (all_passages : list (Z * string))
    (save : bool) : M (gmap string Q) :=
  emit (ValidationRun epoch iteration save) ;;;
  let save_cp := rank_in_m1_0 cfg in
  when (bool_decide (epoch = val_av_rank_start_epoch cfg))
       (set_best_validation_result None) ;;;
  mv <- lift (validation_measures cfg torch_sort dev epoch all_passages) ;;
  let '(metrics, validation_loss) := mv in
  (if save_cp && save then
     t <- get ;;
     let best_model_found :=
       best_model_found_cond cfg validation_loss (best_validation_result t) in
     cp_name <-
       (if negb (save_best_only (train cfg))
           || (save_best_only (train cfg) && best_model_found)
        then
          cp <- _save_checkpoint cfg epoch iteration
                  (save_separate_models (train cfg))
                  (save_best_only (train cfg) && best_model_found) ;;
          ret (Some cp)
        else ret None) ;;
     when (best_model_found && truthy_str cp_name)
          (set_best_validation_result (Some validation_loss) ;;;
           set_best_cp_name cp_name ;;;
           emit (LogInfo ("New Best validation checkpoint " +:+ default "" cp_name)))
   else ret tt) ;;;
  ret metrics.

(** Truthiness of a dict. *)
Definition truthy_dict (d : StateDict) : bool := negb (bool_decide (d = ∅)).

(** [_load_saved_state]. *)
Definition _load_saved_state (cfg : Cfg) (saved_state : CheckpointState) : M unit :=
  let epoch := cp_epoch saved_state in
  let offset := cp_offset saved_state in
  let epoch := if bool_decide (offset = 0) then epoch + 1 else epoch in
  modify (fun t =>
    let '(new_start_epoch, new_start_batch) :=
      if ignore_checkpoint_offset cfg then (0, 0) else (epoch, 0) in
    mkTrainer new_start_epoch new_start_batch (scheduler_state t)
              (best_validation_result t) (best_cp_name t)
              (model_dict saved_state) (optimizer_state t)
              (validations_run t) (trace t)) ;;;
  when (negb (ignore_checkpoint_optimizer cfg))
    (when (truthy_dict (optimizer_dict saved_state))
       (modify (fun t =>
          mkTrainer (start_epoch t) (start_batch t) (scheduler_state t)
                    (best_validation_result t) (best_cp_name t)
                    (biencoder_state t) (optimizer_dict saved_state)
                    (validations_run t) (trace t))) ;;;
     when (truthy_dict (scheduler_dict saved_state))
       (modify (fun t =>
          mkTrainer (start_epoch t) (start_batch t)
                    (Some (scheduler_dict saved_state))
                    (best_validation_result t) (best_cp_name t)
                    (biencoder_state t) (optimizer_state t)
                    (validations_run t) (trace t)))).

(** One batch of the training iterator as the epoch loop sees it: the
    iterator's [get_iteration()] after yielding it, and the [loss.item()]
    and [correct_cnt] of its forward pass. *)
Record Step : Type := {
  data_iteration : Z;
  step_loss : Q;
  step_correct : Z
}.

(** Everything the process receives from outside the trainer. *)
Record Env : Type := {
  wandb_api_key : option string;
  saved_state : option CheckpointState;
  init_biencoder_state : StateDict;
  init_optimizer_state : StateDict;
  customer_chunk_files : list string;
  customer_passages : list (Z * string);
  source_batches : list Z;
  epoch_steps : Z -> list Step;
  dev_runs : nat -> DevRun;
  torch_sort : list Q -> list nat
}.

(** [BiEncoderTrainer.__init__]; [log] is what the process did before. *)
Definition BiEncoderTrainer_init (cfg : Cfg) (env : Env) (log : list Event) : Trainer :=
  let t := mkTrainer 0 0 None None None
                     (init_biencoder_state env) (init_optimizer_state env)
                     0%nat (log ++ [TrainerConstructed]) in
  match saved_state env with
  | Some s => snd (_load_saved_state cfg s t)
  | None => t
  end.

(** Modelled from the spec: [MultiSetDataIterator.get_max_iterations] of
    dpr.utils.data_utils, which is not part of this file.  The spec gives
    it as the sum of the per-source batch counts. *)
Definition get_max_iterations (source_batches : list Z) : Z :=
  Zsum source_batches.

(** The dev results of the next validation call. *)
Definition next_dev_run (env : Env) : M DevRun :=
  fun t => (Ok (dev_runs env (validations_run t)),
            mkTrainer (start_epoch t) (start_batch t) (scheduler_state t)
                      (best_validation_result t) (best_cp_name t)
                      (biencoder_state t) (optimizer_state t)
                      (S (validations_run t)) (trace t)).

(** The running values of the batch loop of [_train_epoch]. *)
Record EpochVars : Type := mkEpochVars {
  rolling_train_loss : Q;
  epoch_loss : Q;
  epoch_correct_predictions : Z;
  last_data_iteration : Z
}.

(** The body of [for i, samples_batch in enumerate(...)], from batch [i]
    on. *)
Fixpoint train_loop (cfg : Cfg) (env : Env) (epoch eval_step : Z)
    (all_passages : list (Z * string)) (i : Z) (steps : list Step)
    (vars : EpochVars) : M EpochVars :=
  match steps with
  | [] => ret vars
  | s :: rest =>
      let d := data_iteration s in
      emit (TrainStep epoch d) ;;;
      let epoch_correct_predictions' :=
        epoch_correct_predictions vars + step_correct s in
      let epoch_loss' := (epoch_loss vars + step_loss s)%Q in
      let rolling' := (rolling_train_loss vars + step_loss s)%Q in
      r1 <- lift (py_mod (i + 1) (gradient_accumulation_steps (train cfg))) ;;
      when (bool_decide (r1 = 0)) (emit OptimizerStep) ;;;
      r2 <- lift (py_mod i (log_batch_step (train cfg))) ;;
      when (bool_decide (r2 = 0)) (emit (LogInfo "Epoch step")) ;;;
      r3 <- lift (py_mod (i + 1) (train_rolling_loss_step (train cfg))) ;;
      let rolling'' := if bool_decide (r3 = 0) then 0%Q else rolling' in
      when (bool_decide (r3 = 0)) (emit (LogInfo "Avg. loss per last batches")) ;;;
      r4 <- lift (py_mod d eval_step) ;;
      when (bool_decide (r4 = 0) && eval_during_epoch (train cfg))
        (dev <- next_dev_run env ;;
         validate_and_save cfg (torch_sort env) dev epoch d all_passages false ;;;
         ret tt) ;;;
      train_loop cfg env epoch eval_step all_passages (i + 1) rest
        (mkEpochVars rolling'' epoch_loss' epoch_correct_predictions' d)
  end.

(** [_train_epoch]. *)
Definition _train_epoch (cfg : Cfg) (env : Env) (epoch eval_step : Z)
    (all_passages : list (Z * string)) : M (gmap string Q) :=
  let epoch_batches := get_max_iterations (source_batches env) in
  vars <- train_loop cfg env epoch eval_step all_passages 0
            (epoch_steps env epoch) (mkEpochVars 0 0 0 0) ;;
  emit (LogInfo "Epoch finished") ;;;
  dev <- next_dev_run env ;;
  val_metrics <- validate_and_save cfg (torch_sort env) dev epoch
                   (last_data_iteration vars) all_passages true ;;
  let epoch_loss :=
    if decide (epoch_batches > 0)
    then (epoch_loss vars / inject_Z epoch_batches)%Q else 0%Q in
  ret (<["Train loss" := epoch_loss]>
       (<["Epoch" := inject_Z epoch]>
        (<["Iteration" := inject_Z (last_data_iteration vars)]> val_metrics))).

(** [for epoch in range(...)] of [run_train]. *)
Fixpoint epoch_loop (cfg : Cfg) (env : Env) (eval_step : Z)
    (all_passages : list (Z * string)) (epochs : list Z) : M unit :=
  match epochs with
  | [] => ret tt
  | epoch :: rest =>
      emit (EpochStarted epoch) ;;;
      epoch_metrics <- _train_epoch cfg env epoch eval_step all_passages ;;
      emit (WandbLog epoch_metrics) ;;;
      epoch_loop cfg env eval_step all_passages rest
  end.

(** [d[k]] on a state dict. *)
Definition getitemZ (d : StateDict) (k : string) : result Z :=
  match d !! k with
  | Some v => Ok v
  | None => Raise (KeyError k)
  end.

(** [run_train]. *)
Definition run_train (cfg : Cfg) (env : Env) : M unit :=
  all_passages <-
    (if truthy_str (customer_chunks cfg) then
       emit (LogInfo "Reading customer chunks") ;;;
       if bool_decide (customer_chunk_files env = [])
       then raise (ValueError ("File descriptor " +:+ default "" (customer_chunks cfg)
                                 +:+ " is not configured."))
       else ret (customer_passages env)
     else ret []) ;;
  let max_iterations := get_max_iterations (source_batches env) in
  emit (LogInfo ("  Total iterations per epoch=" +:+ str max_iterations)) ;;;
  if bool_decide (max_iterations = 0) then
    emit (LogWarning "No data found for training.")
  else
    updates_per_epoch <-
      lift (py_floordiv max_iterations (gradient_accumulation_steps (train cfg))) ;;
    let total_updates := updates_per_epoch * num_train_epochs (train cfg) in
    t <- get ;;
    (match scheduler_state t with
     | Some st =>
         if truthy_dict st then
           shift <- lift (getitemZ st "last_epoch") ;;
           emit (SchedulerBuilt (warmup_steps (train cfg)) total_updates shift)
         else emit (SchedulerBuilt (warmup_steps (train cfg)) total_updates 0)
     | None => emit (SchedulerBuilt (warmup_steps (train cfg)) total_updates 0)
     end) ;;;
    eval_step <- lift (py_ceil_div updates_per_epoch (eval_per_epoch (train cfg))) ;;
    epoch_loop cfg env eval_step all_passages
      (seqZ (start_epoch t) (num_train_epochs (train cfg) - start_epoch t)) ;;;
    when (rank_in_m1_0 cfg)
      (t <- get ;;
       emit (LogInfo ("Training finished. Best validation checkpoint "
                        +:+ default "None" (best_cp_name t)))).

(** [main]: the effects of the run and how it ends. *)
Definition main (cfg : Cfg) (env : Env) : list Event * result unit :=
  match wandb_api_key env with
  | None => ([], Raise (KeyError "WANDB_API_KEY"))
  | Some _ =>
      let log := [WandbLogin; WandbInit] in
      if decide (gradient_accumulation_steps (train cfg) < 1) then
        (log, Raise (ValueError
                 ("Invalid gradient_accumulation_steps parameter: "
                    +:+ str (gradient_accumulation_steps (train cfg))
                    +:+ ", should be >= 1")))
      else
        let log := match output_dir cfg with
                   | Some d => log ++ [MakeDirs d]
                   | None => log
                   end in
        let trainer := BiEncoderTrainer_init cfg env log in
        let '(r, t) :=
          if negb (bool_decide (train_datasets cfg = [])) then
            run_train cfg env trainer
          else if truthy_str (model_file cfg)
                  && negb (bool_decide (dev_datasets cfg = [])) then
            let dev := dev_runs env 0 in
            (let? _ := validate_nll cfg (nll_batches dev) in
             let? _ := validate_average_rank cfg (torch_sort env) (rank_gather dev)
                         (rank_scores dev) (rank_positive_idx dev) in
             Ok tt, trainer)
          else
            emit (LogWarning "Neither train_file or (model_file & dev_file) parameters are specified. Nothing to do.") trainer in
        (trace t, r)
  end.

(** ** Observations on a run *)

(** The calls of [validate_and_save] recorded in a log, as
    [(epoch, iteration, save)]. *)
Definition validation_runs (log : list Event) : list (Z * Z * bool) :=
  omap (fun e => match e with
                 | ValidationRun epoch iteration save => Some (epoch, iteration, save)
                 | _ => None
                 end) log.

(** The iteration counter [_train_epoch] holds when its loop is over. *)
Definition final_iteration (steps : list Step) : Z :=
  default 0 (last (data_iteration <$> steps)).

(** The validation calls expected inside the batch loop: one for every
    batch whose iteration counter is a multiple of [eval_step], when
    [eval_during_epoch] is set. *)
Definition loop_validations (cfg : Cfg) (eval_step epoch : Z) (steps : list Step)
  : list (Z * Z * bool) :=
  if eval_during_epoch (train cfg)
  then (fun d => (epoch, d, false))
         <$> filter (fun d => d mod eval_step = 0) (data_iteration <$> steps)
  else [].

(** The validation calls one epoch is expected to make: those of the
    batch loop, then the one at the end of the epoch. *)
Definition epoch_validations (cfg : Cfg) (env : Env) (eval_step epoch : Z)
  : list (Z * Z * bool) :=
  loop_validations cfg eval_step epoch (epoch_steps env epoch)
  ++ [(epoch, final_iteration (epoch_steps env epoch), true)].

(** Effects other than a validation call. *)
Definition quiet (e : Event) : Prop :=
  match e with ValidationRun _ _ _ => False | _ => True end.

(** [returns m t runs Q]: from [t], [m] returns normally, having made
    exactly the validation calls [runs], and [Q] holds of its result. *)
Definition returns {A} (m : M A) (t : Trainer) (runs : list (Z * Z * bool))
    (Q : A -> Trainer -> Prop) : Prop :=
  ∃ a t', m t = (Ok a, t')
          ∧ validation_runs (trace t') = validation_runs (trace t) ++ runs
          ∧ Q a t'.

(** A log only ever grows under a trainer method. *)
Definition grows {A} (m : M A) : Prop :=
  ∀ t, trace t `prefix_of` trace (snd (m t)).

(** A trainer with the tracked best value forgotten. *)
Definition reset_best (t : Trainer) : Trainer :=
  mkTrainer (start_epoch t) (start_batch t) (scheduler_state t) None
            (best_cp_name t) (biencoder_state t) (optimizer_state t)
            (validations_run t) (trace t).

(** The two resume switches of the configuration. *)
Inductive ResumeFlag : Type := IgnoreCheckpointOffset | IgnoreCheckpointOptimizer.

Definition flag_value (f : ResumeFlag) (cfg : Cfg) : bool :=
  match f with
  | IgnoreCheckpointOffset => ignore_checkpoint_offset cfg
  | IgnoreCheckpointOptimizer => ignore_checkpoint_optimizer cfg
  end.

(** Log messages, as opposed to the other effects. *)
Definition is_log_message (e : Event) : Prop :=
  match e with
  | LogInfo _ | LogWarning _ => True
  | _ => False
  end.

(** The slot the loop of [_calc_loss] fills for the gathered item of rank
    [i], seen from the worker holding [me]. *)
Definition q_slot {V} (cfg : Cfg) (me : Payload V) (i : nat) (it : Payload V)
  : Tensor V :=
  if decide (Z.of_nat i ≠ local_rank cfg)
  then to_device (device (p_q_vector me)) (p_q_vector it)
  else p_q_vector me.

Definition ctx_slot {V} (cfg : Cfg) (me : Payload V) (i : nat) (it : Payload V)
  : Tensor V :=
  if decide (Z.of_nat i ≠ local_rank cfg)
  then to_device (device (p_q_vector me)) (p_ctx_vectors it)
  else p_ctx_vectors me.

(** ** Sample data *)

(** A descending argsort by insertion, stable on ties. *)
Definition score_at (row : list Q) (i : nat) : Q := default 0%Q (row !! i).

Fixpoint insert_desc (row : list Q) (i : nat) (sorted : list nat) : list nat :=
  match sorted with
  | [] => [i]
  | j :: rest =>
      if Qltb (score_at row i) (score_at row j)
      then j :: insert_desc row i rest
      else i :: sorted
  end.

Definition argsort (row : list Q) : list nat :=
  foldr (insert_desc row) [] (seq 0 (length row)).

Module Sample.

Definition train_cfg (accumulation : Z) (during_epoch : bool) : TrainCfg :=
  {| batch_size := 2; dev_batch_size := 1;
     gradient_accumulation_steps := accumulation;
     num_train_epochs := 2; warmup_steps := 0;
     eval_per_epoch := 2; eval_during_epoch := during_epoch;
     log_batch_step := 1; train_rolling_loss_step := 1;
     higher_is_better := false; save_best_only := false;
     save_separate_models := false |}.

Definition cfg_with (rank : Z) (world : option Z) (rank_epoch : Z)
    (dev : list string) (ignore_offset ignore_optimizer : bool)
    (tc : TrainCfg) : Cfg :=
  {| local_rank := rank; distributed_world_size := world;
     val_av_rank_start_epoch := rank_epoch;
     train_datasets := ["nq_train"]; dev_datasets := dev;
     customer_chunks := None; model_file := None;
     output_dir := Some "out"; checkpoint_file_name := "dpr_biencoder";
     ignore_checkpoint_offset := ignore_offset;
     ignore_checkpoint_optimizer := ignore_optimizer;
     train := tc |}.

(** One worker, a dev set, NLL as the measure for the first 30 epochs. *)
Definition cfg : Cfg :=
  cfg_with 0 None 30 ["nq_dev"] false false (train_cfg 1 true).

(** The same without a dev set. *)
Definition cfg_no_dev : Cfg :=
  cfg_with 0 None 30 [] false false (train_cfg 1 true).

(** The same with validation inside the epoch switched off. *)
Definition cfg_end_of_epoch_only : Cfg :=
  cfg_with 0 None 30 ["nq_dev"] false false (train_cfg 1 false).

(** Average rank as the measure from epoch 1 on. *)
Definition cfg_rank : Cfg :=
  cfg_with 0 None 1 ["nq_dev"] false false (train_cfg 1 true).

(** Rank 1 of two workers. *)
Definition cfg_two_workers : Cfg :=
  cfg_with 1 (Some 2) 30 ["nq_dev"] false false (train_cfg 1 true).

Definition ir : IRReport :=
  {| p_at_1 := 10; p_at_2 := 20; p_at_5 := 30; p_at_30 := 40;
     url_rank := 1; section_rank := 1;
     p1_Url := 0; p2_Url := 0; p5_Url := 0; p30_Url := 0;
     p1_Section := 0; p2_Section := 0; p5_Section := 0; p30_Section := 0 |}.

(** A dev run with one NLL batch of loss [nll] and one query whose
    passages score [row], the gold one being passage 0. *)
Definition dev_run (nll : Q) (row : list Q) : DevRun :=
  {| nll_batches := [(nll, 1)]; ir_report := ir;
     rank_scores := [row]; rank_positive_idx := [0%nat];
     rank_gather := fun own => [own] |}.

Definition steps : list Step :=
  [ {| data_iteration := 1; step_loss := 2; step_correct := 1 |};
    {| data_iteration := 2; step_loss := 1; step_correct := 2 |} ].

Definition env (sources : list Z) (dev : nat -> DevRun) : Env :=
  {| wandb_api_key := Some "key"; saved_state := None;
     init_biencoder_state := ∅; init_optimizer_state := ∅;
     customer_chunk_files := []; customer_passages := [];
     source_batches := sources;
     epoch_steps := fun _ => steps;
     dev_runs := dev; torch_sort := argsort |}.

Definition trainer : Trainer := mkTrainer 0 0 None None None ∅ ∅ 0 [].

Definition checkpoint : CheckpointState :=
  {| model_dict := {[ "encoder.weight" := 7 ]};
     optimizer_dict := {[ "step" := 100 ]};
     scheduler_dict := {[ "last_epoch" := 100 ]};
     cp_offset := 0; cp_epoch := 3 |}.

(** Successive end-of-epoch validations, from epoch [epoch] on: the
    tracked best value and checkpoint after each. *)
Fixpoint best_after (c : Cfg) (epoch : Z) (devs : list DevRun) (t : Trainer)
  : list (option Q * option string) :=
  match devs with
  | [] => []
  | dev :: rest =>
      let t' := snd (validate_and_save c argsort dev epoch 2 [] true t) in
      (best_validation_result t', best_cp_name t')
        :: best_after c (epoch + 1) rest t'
  end.

(** Two workers' local batches, rows numbered. *)
Definition w0 : Payload nat :=
  mkPayload (mkTensor [100; 101]%nat true (Cuda 0))
            (mkTensor [10; 11; 12]%nat true (Cuda 0)) [0; 2]%nat [[1]; []]%nat.

Definition w1 : Payload nat :=
  mkPayload (mkTensor [200]%nat true (Cuda 1))
            (mkTensor [20; 21]%nat true (Cuda 1)) [1]%nat [[0]]%nat.

Definition world : list (Payload nat) := [w0; w1].

Definition gather (_ : Payload nat) : list (Payload nat) := sent <$> world.

End Sample.

(** ** Flattening the configuration for experiment tracking *)

(** A configuration value: a scalar, or a mapping from keys to values in
    the order of its items. *)
#[warnings="-register-all"]
Inductive CfgValue : Type :=
| Scalar (v : Z)
| Mapping (items : list (string * CfgValue)).

(** [parent_key + sep + k if parent_key else k]. *)
Definition new_key (parent_key sep k : string) : string :=
  if bool_decide (parent_key = "") then k else parent_key +:+ sep +:+ k.

(** [dict(items)]: a later item replaces an earlier one with its key. *)
Definition dict (items : list (string * Z)) : gmap string Z :=
  foldl (fun m kv => <[kv.1 := kv.2]> m) ∅ items.

(** What one pass of the loop of [flatten_dict] adds to [items] for the
    value [v] found under the key that makes [key]. *)
Fixpoint flatten_value (sep key : string) (v : CfgValue) : list (string * Z) :=
  match v with
  | Scalar x => [(key, x)]
  | Mapping d =>
      map_to_list
        (dict (flat_map (fun kv => flatten_value sep (new_key key sep kv.1) kv.2) d))
  end.

(** [flatten_dict(d, parent_key, sep)]. *)
Definition flatten_dict (d : list (string * CfgValue)) (parent_key sep : string)
  : gmap string Z :=
  dict (flat_map (fun kv => flatten_value sep (new_key parent_key sep kv.1) kv.2) d).

(** The scalars of a value with the keys on the way to them joined, from
    left to right. *)
Fixpoint leaves_value (sep key : string) (v : CfgValue) : list (string * Z) :=
  match v with
  | Scalar x => [(key, x)]
  | Mapping d => flat_map (fun kv => leaves_value sep (new_key key sep kv.1) kv.2) d
  end.

Definition leaves (d : list (string * CfgValue)) (parent_key sep : string)
  : list (string * Z) :=
  flat_map (fun kv => leaves_value sep (new_key parent_key sep kv.1) kv.2) d.

(** ** Command-line arguments *)

(** [arg[len("--"):] if arg.startswith("--") else arg]. *)
Definition hydra_formatted_arg (arg : string) : string :=
  if String.prefix "--" arg
  then String.substring (String.length "--")
                        (String.length arg - String.length "--") arg
  else arg.

(** The loop over [sys.argv] of the [__main__] block. *)
Definition hydra_formatted_args (argv : list string) : list string :=
  hydra_formatted_arg <$> argv.

(** ** Encoding the dev questions and passages *)

(** The fields of [cfg] read by [_encode_questions_and_passages] besides
    those of [Cfg]: [cfg.train.val_av_rank_bsz], [..._hard_neg],
    [..._other_neg], [..._max_qs] and [cfg.n_gpu]. *)
Record RankCfg : Type := {
  val_av_rank_bsz : Z;
  val_av_rank_hard_neg : Z;
  val_av_rank_other_neg : Z;
  val_av_rank_max_qs : Z;
  n_gpu : Z
}.

(** [range(0, stop, step)] for [stop >= 0]. *)
Definition py_range0 (stop step : Z) : result (list Z) :=
  if decide (step = 0) then Raise (ValueError "range() arg 3 must not be zero")
  else if decide (step < 0) then Ok []
  else Ok ((fun i => i * step) <$> seqZ 0 ((stop + step - 1) / step)).

(** [l[start : start + n]] for [start >= 0]. *)
Definition py_slice {A} (l : list A) (start n : Z) : list A :=
  take (Z.to_nat n) (drop (Z.to_nat start) l).

Section Encode.
(** Samples, tokenised questions, tokenised passages, vectors. *)
Context {Smp Qn Cx V : Type}.

(** The fields of a [BiEncoderBatch] the function reads. *)
Record Batch : Type := mkBatch {
  question_ids : list Qn;
  context_ids : list Cx;
  is_positive : list nat
}.

(** What the function accumulates and returns. *)
Record Encoded : Type := mkEncoded {
  enc_q : list V;
  enc_ctx : list V;
  enc_positive_idx : list nat;
  enc_samples : list Smp
}.

(** [BiEncoder.create_biencoder_input2] with its two negative counts, and
    the two encoders of the model in evaluation mode, each working row by
    row with the encoder type and token positions of the dataset. *)
Variable create_biencoder_input2 : list Smp -> Z -> Z -> Batch.
Variable question_encoder : nat -> Qn -> V.
Variable ctx_encoder : nat -> Cx -> V.

Variable cfg : Cfg.
Variable rcfg : RankCfg.

(** One pass of
    [for j, batch_start in enumerate(range(0, bsz, sub_batch_size))]. *)
Definition encode_sub_batch (dataset : nat) (b : Batch)
    (acc : list V * list V) (j : nat) (batch_start : Z) : list V * list V :=
  let q_ids := if bool_decide (j = 0%nat) then Some (question_ids b) else None in
  if bool_decide (j = 0%nat) && bool_decide (n_gpu rcfg > 1)
     && bool_decide (length (question_ids b) = 1%nat)
  then acc
  else
    let ctx_ids_batch := py_slice (context_ids b) batch_start (val_av_rank_bsz rcfg) in
    let q_dense := fmap (M := list) (question_encoder dataset) <$> q_ids in
    let ctx_dense := ctx_encoder dataset <$> ctx_ids_batch in
    (match q_dense with
     | Some q => acc.1 ++ q
     | None => acc.1
     end, acc.2 ++ ctx_dense).

Fixpoint encode_sub_batches (dataset : nat) (b : Batch) (acc : list V * list V)
    (j : nat) (starts : list Z) : list V * list V :=
  match starts with
  | [] => acc
  | batch_start :: rest =>
      encode_sub_batches dataset b (encode_sub_batch dataset b acc j batch_start)
                         (S j) rest
  end.

(** The loop over the batches of the dev iterator, each with the index of
    its dataset. *)
Fixpoint encode_loop (without_negatives return_samples : bool)
    (batches : list (list Smp * nat)) (st : Encoded) : result Encoded :=
  match batches with
  | [] => Ok st
  | (samples_batch, dataset) :: rest =>
      if Qltb (inject_Z (val_av_rank_max_qs rcfg) / inject_Z (world_size_or_1 cfg))
              (inject_Z (Z.of_nat (length (enc_q st))))
      then Ok st
      else
        let all_samples :=
          if return_samples then enc_samples st ++ samples_batch else enc_samples st in
        let num_hard_negatives :=
          if without_negatives then 0 else val_av_rank_hard_neg rcfg in
        let num_other_negatives :=
          if without_negatives then 0 else val_av_rank_other_neg rcfg in
        let biencoder_input :=
          create_biencoder_input2 samples_batch num_hard_negatives num_other_negatives in
        let total_ctxs := length (enc_ctx st) in
        let bsz := Z.of_nat (length (context_ids biencoder_input)) in
        if bool_decide (length (dev_datasets cfg) <= dataset)%nat
        then Raise IndexError
        else
          let? starts := py_range0 bsz (val_av_rank_bsz rcfg) in
          let '(qs, ctxs) :=
            encode_sub_batches dataset biencoder_input (enc_q st, enc_ctx st) 0 starts in
          encode_loop without_negatives return_samples rest
            (mkEncoded qs ctxs
               (enc_positive_idx st
                  ++ ((fun v => total_ctxs + v)%nat <$> is_positive biencoder_input))
               all_samples)
  end.

(** [_encode_questions_and_passages]; [batches] is what the dev iterator
    yields. *)
Definition _encode_questions_and_passages (without_negatives return_samples : bool)
    (batches : list (list Smp * nat)) : result Encoded :=
  let? st := encode_loop without_negatives return_samples batches
               (mkEncoded [] [] [] []) in
  if bool_decide (enc_ctx st = []) || bool_decide (enc_q st = [])
  then Raise (RuntimeError "torch.cat(): expected a non-empty list of Tensors")
  else Ok st.
End Encode.

Arguments Batch Qn Cx : clear implicits.
Arguments Encoded Smp V : clear implicits.

Section EncodeOutcome.
Context {Qn Cx V : Type}.
Variable question_encoder : nat -> Qn -> V.
Variable ctx_encoder : nat -> Cx -> V.
Variable cfg : Cfg.
Variable rcfg : RankCfg.

(** A batch that the data-parallel guard of the sub-batch loop skips in
    its first pass: several GPUs and exactly one question. *)
Definition dp_single_question (b : Batch Qn Cx) : bool :=
  bool_decide (n_gpu rcfg > 1) && bool_decide (length (question_ids b) = 1%nat).

(** The question vectors one batch of dataset [ds] contributes. *)
Definition q_part (b : Batch Qn Cx) (ds : nat) : list V :=
  if bool_decide (context_ids b = []) || dp_single_question b
  then []
  else question_encoder ds <$> question_ids b.

(** The passage vectors one batch contributes. *)
Definition ctx_part (b : Batch Qn Cx) (ds : nat) : list V :=
  if dp_single_question b
  then ctx_encoder ds <$> drop (Z.to_nat (val_av_rank_bsz rcfg)) (context_ids b)
  else ctx_encoder ds <$> context_ids b.

(** The batches reached before the number of encoded questions exceeds
    [val_av_rank_max_qs / distributed_factor], [n] questions being encoded
    already. *)
Fixpoint within_cap (n : nat) (bs : list (Batch Qn Cx * nat)) : list (Batch Qn Cx * nat) :=
  match bs with
  | [] => []
  | (b, ds) :: rest =>
      if Qltb (inject_Z (val_av_rank_max_qs rcfg) / inject_Z (world_size_or_1 cfg))
              (inject_Z (Z.of_nat n))
      then []
      else (b, ds) :: within_cap (n + length (q_part b ds)) rest
  end.

(** The positive indices of the batches, each shifted by the passage
    vectors encoded before its batch, [total] at the start. *)
Fixpoint positives_from (total : nat) (bs : list (Batch Qn Cx * nat)) : list nat :=
  match bs with
  | [] => []
  | (b, ds) :: rest =>
      ((fun v => total + v)%nat <$> is_positive b)
        ++ positives_from (total + length (ctx_part b ds)) rest
  end.

(** The batches of the iterator, tensorised as the loop does. *)
Definition built_batches {Smp : Type}
    (create_biencoder_input2 : list Smp -> Z -> Z -> Batch Qn Cx)
    (without_negatives : bool) (batches : list (list Smp * nat))
  : list (Batch Qn Cx * nat) :=
  (fun sb => (create_biencoder_input2 sb.1
                (if without_negatives then 0 else val_av_rank_hard_neg rcfg)
                (if without_negatives then 0 else val_av_rank_other_neg rcfg),
              sb.2)) <$> batches.

(** The outcome of the loop of [_encode_questions_and_passages] over
    [batches] when the slice size is positive and the dataset indices are
    those of configured datasets. *)
Definition encode_outcome {Smp : Type}
    (create_biencoder_input2 : list Smp -> Z -> Z -> Batch Qn Cx)
    (without_negatives return_samples : bool) (batches : list (list Smp * nat))
  : Encoded Smp V :=
  let P := within_cap 0 (built_batches create_biencoder_input2 without_negatives batches) in
  mkEncoded (flat_map (fun bd => q_part bd.1 bd.2) P)
            (flat_map (fun bd => ctx_part bd.1 bd.2) P)
            (positives_from 0 P)
            (if return_samples then concat (fst <$> take (length P) batches) else []).
End EncodeOutcome.


(** Sample data for the encoding of dev questions: a sample is a question
    with its passages, the gold one first. *)
Module SampleRank.

Definition rank_cfg (bsz gpus : Z) : RankCfg :=
  {| val_av_rank_bsz := bsz; val_av_rank_hard_neg := 1;
     val_av_rank_other_neg := 1; val_av_rank_max_qs := 4; n_gpu := gpus |}.

Fixpoint gold_positions (off : nat) (samples : list (nat * list nat)) : list nat :=
  match samples with
  | [] => []
  | s :: rest => off :: gold_positions (off + length s.2) rest
  end.

Definition create_input (samples : list (nat * list nat)) (hard other : Z)
  : Batch nat nat :=
  mkBatch (fst <$> samples) (flat_map snd samples) (gold_positions 0 samples).

Definition batches : list (list (nat * list nat) * nat) :=
  [ ([(1, [10; 11; 12]); (2, [20; 21])], 0);
    ([(3, [30; 31])], 0) ]%nat.

Definition q_enc (ds : nat) (q : nat) : Z := Z.of_nat q.
Definition ctx_enc (ds : nat) (c : nat) : Z := Z.of_nat c.

End SampleRank.

(** ** Observations on the effects of a call *)

(** [produces m t Q]: from [t], [m] returns normally, and [Q] holds of its
    result, of the effects it added to the log and of the trainer it
    leaves. *)
Definition produces {A} (m : M A) (t : Trainer)
    (Q : A -> list Event -> Trainer -> Prop) : Prop :=
  ∃ a t' es, m t = (Ok a, t') ∧ trace t' = trace t ++ es ∧ Q a es t'.

(** The optimizer steps, the training batches and the checkpoints written
    that a log records. *)
Definition optimizer_steps (log : list Event) : nat :=
  length (omap (fun e => match e with OptimizerStep => Some tt | _ => None end) log).

Definition train_steps (log : list Event) : list (Z * Z) :=
  omap (fun e => match e with
                 | TrainStep epoch d => Some (epoch, d)
                 | _ => None
                 end) log.

Definition checkpoints_saved (log : list Event) : list (string * Z * Z) :=
  omap (fun e => match e with
                 | CheckpointSaved cp epoch offset => Some (cp, epoch, offset)
                 | _ => None
                 end) log.

(** The tracked best value once [validate_and_save] has passed its reset
    at the start of average-rank validation. *)
Definition best_after_reset (cfg : Cfg) (epoch : Z) (t : Trainer) : option Q :=
  if bool_decide (epoch = val_av_rank_start_epoch cfg) then None
  else best_validation_result t.

(** The file name [_save_checkpoint] gives a checkpoint. *)
Definition checkpoint_name (cfg : Cfg) (epoch : Z) (best_model_found : bool) : string :=
  if negb best_model_found
  then checkpoint_file_name cfg +:+ "." +:+ str epoch
  else checkpoint_file_name cfg +:+ "_best.cp".

(** The [CheckpointState] that [_save_checkpoint] hands to [torch.save]:
    the states of the model, the optimizer and the scheduler, then the
    offset and the epoch it was called with. *)
Definition checkpoint_state (t : Trainer) (scheduler : StateDict) (epoch offset : Z)
  : CheckpointState :=
  {| model_dict := biencoder_state t; optimizer_dict := optimizer_state t;
     scheduler_dict := scheduler; cp_offset := offset; cp_epoch := epoch |}.

(** [fails m t e Q]: from [t], [m] raises [e], and [Q] holds of the
    effects it added to the log before that. *)
Definition fails {A} (m : M A) (t : Trainer) (e : Exn)
    (Q : list Event -> Prop) : Prop :=
  ∃ t' es, m t = (Raise e, t') ∧ trace t' = trace t ++ es ∧ Q es.

(** The schedulers built and the epochs started that a log records. *)
Definition schedulers_built (log : list Event) : list (Z * Z * Z) :=
  omap (fun e => match e with
                 | SchedulerBuilt warmup total_updates steps_shift =>
                     Some (warmup, total_updates, steps_shift)
                 | _ => None
                 end) log.

Definition epochs_started (log : list Event) : list Z :=
  omap (fun e => match e with EpochStarted epoch => Some epoch | _ => None end) log.

(** The [steps_shift] with which [run_train] builds the scheduler: the
    [last_epoch] of a non-empty stored scheduler state, else none. *)
Definition steps_shift (t : Trainer) : Z :=
  match scheduler_state t with
  | Some st => if truthy_dict st then default 0 (st !! "last_epoch") else 0
  | None => 0
  end.

(** What [run_train] does once the scheduler is built: the epochs, then
    the closing message. *)
Definition run_epochs (cfg : Cfg) (env : Env) (all_passages : list (Z * string))
    (first_epoch eval_step : Z) : M unit :=
  epoch_loop cfg env eval_step all_passages
    (seqZ first_epoch (num_train_epochs (train cfg) - first_epoch)) ;;;
  when (rank_in_m1_0 cfg)
    (t <- get ;;
     emit (LogInfo ("Training finished. Best validation checkpoint "
                      +:+ default "None" (best_cp_name t)))).

(** A stretch of log with no sign of the training proper. *)
Definition silent (es : list Event) : Prop :=
  optimizer_steps es = 0%nat ∧ train_steps es = [] ∧ checkpoints_saved es = []
  ∧ epochs_started es = [] ∧ validation_runs es = [].

(** What the batch loop of [_train_epoch] leaves behind when it runs over
    [steps] from batch number [i] on, started with the running values
    [vars] in trainer [t]: the running values [vars'], the effects [es] and
    the trainer [t']. *)
Definition loop_outcome (cfg : Cfg) (epoch i : Z) (steps : list Step)
    (vars : EpochVars) (t : Trainer)
    (vars' : EpochVars) (es : list Event) (t' : Trainer) : Prop :=
  epoch_loss vars' = foldl Qplus (epoch_loss vars) (step_loss <$> steps)
  ∧ epoch_correct_predictions vars'
    = epoch_correct_predictions vars + Zsum (step_correct <$> steps)
  ∧ last_data_iteration vars'
    = default (last_data_iteration vars) (last (data_iteration <$> steps))
  ∧ optimizer_steps es
    = length (filter (fun k => k mod gradient_accumulation_steps (train cfg) = 0)
                     (seqZ (i + 1) (Z.of_nat (length steps))))
  ∧ train_steps es = (fun s => (epoch, data_iteration s)) <$> steps
  ∧ checkpoints_saved es = []
  ∧ schedulers_built es = []
  ∧ epochs_started es = []
  ∧ best_cp_name t' = best_cp_name t.

(** The same for one call of [_train_epoch]: the metrics [metrics] it
    returns and the effects [es]. *)
Definition epoch_outcome (cfg : Cfg) (env : Env) (epoch : Z)
    (all_passages : list (Z * string))
    (metrics : gmap string Q) (es : list Event) : Prop :=
  let steps := epoch_steps env epoch in
  (∃ dev val_metrics v,
     validation_measures cfg (torch_sort env) dev epoch all_passages
     = Ok (val_metrics, v)
     ∧ metrics
       = <["Train loss" :=
             if decide (get_max_iterations (source_batches env) > 0)
             then (foldl Qplus 0 (step_loss <$> steps)
                   / inject_Z (get_max_iterations (source_batches env)))%Q
             else 0%Q]>
         (<["Epoch" := inject_Z epoch]>
          (<["Iteration" := inject_Z (final_iteration steps)]> val_metrics)))
  ∧ optimizer_steps es
    = length (filter (fun k => k mod gradient_accumulation_steps (train cfg) = 0)
                     (seqZ 1 (Z.of_nat (length steps))))
  ∧ train_steps es = (fun s => (epoch, data_iteration s)) <$> steps
  ∧ schedulers_built es = []
  ∧ epochs_started es = []
  ∧ ∃ (written : bool) cp,
      checkpoints_saved es
      = (if written then [(cp, epoch, final_iteration steps)] else [])
      ∧ (written = true →
         rank_in_m1_0 cfg = true
         ∧ ∃ d, output_dir cfg = Some d
                ∧ cp = path_join d
                         (checkpoint_name cfg epoch (save_best_only (train cfg))))
      ∧ (rank_in_m1_0 cfg = true → save_best_only (train cfg) = false →
         written = true).
(** * Facts *)

Section LossCoordinatorFacts.
Context {V : Type}.
Implicit Types (w me : Payload V) (world ws : list (Payload V)).

Lemma offset_cons w ws i :
  offset (w :: ws) (S i) = (size0 (p_ctx_vectors w) + offset ws i)%nat.
Proof. reflexivity. Qed.

Lemma rebase_positive_from_imap base ws :
  rebase_positive_from base ws
  = concat (imap (fun i w => shift_by (base + offset ws i) (p_positive_idx w)) ws).
Proof.
  revert base. induction ws as [|w ws IH]; intros base; [done|].
  cbn [rebase_positive_from]. rewrite imap_cons. cbn [concat].
  rewrite IH. f_equal.
  - unfold offset. cbn. by rewrite Nat.add_0_r.
  - f_equal. apply imap_ext. intros i x _. unfold compose.
    rewrite offset_cons. f_equal. lia.
Qed.

Lemma rebase_hard_negatives_from_imap base ws :
  rebase_hard_negatives_from base ws
  = concat (imap (fun i w => shift_by (base + offset ws i) <$> p_hard_negatives_idxs w) ws).
Proof.
  revert base. induction ws as [|w ws IH]; intros base; [done|].
  cbn [rebase_hard_negatives_from]. rewrite imap_cons. cbn [concat].
  rewrite IH. f_equal.
  - unfold offset. cbn. by rewrite Nat.add_0_r.
  - f_equal. apply imap_ext. intros i x _. unfold compose.
    rewrite offset_cons. do 2 f_equal. lia.
Qed.

Lemma lookup_concat_offset world i w p (v : V) :
  world !! i = Some w →
  rows (p_ctx_vectors w) !! p = Some v →
  concat ((fun w => rows (p_ctx_vectors w)) <$> world) !! (p + offset world i)%nat = Some v.
Proof.
  revert i. induction world as [|w0 world IH]; intros i Hi Hp; [done|].
  destruct i as [|i]; cbn in Hi.
  - injection Hi as ->. cbn. unfold offset. cbn. rewrite Nat.add_0_r.
    by apply lookup_app_l_Some.
  - rewrite offset_cons. cbn [fmap list_fmap concat].
    rewrite lookup_app_r; unfold size0; [|lia].
    replace (p + (length (rows (p_ctx_vectors w0)) + offset world i)
               - length (rows (p_ctx_vectors w0)))%nat
      with (p + offset world i)%nat by lia.
    by apply IH.
Qed.

Section Loop.
Variable cfg : Cfg.
Variable me : Payload V.

Lemma pool_loop_slots i items acc :
  pool_q (pool_loop cfg (p_q_vector me) (p_ctx_vectors me)
      (p_positive_idx me) (p_hard_negatives_idxs me) i items acc) = pool_q acc ++ imap (fun j => q_slot cfg me (i + j)) items
  ∧ pool_ctxs (pool_loop cfg (p_q_vector me) (p_ctx_vectors me)
      (p_positive_idx me) (p_hard_negatives_idxs me) i items acc) = pool_ctxs acc ++ imap (fun j => ctx_slot cfg me (i + j)) items.
Proof.
  revert i acc. induction items as [|it items IH]; intros i acc.
  - cbn. by rewrite !app_nil_r.
  - cbn [pool_loop]. destruct (IH (S i) (pool_step cfg (p_q_vector me) (p_ctx_vectors me)
                      (p_positive_idx me) (p_hard_negatives_idxs me) i it acc)) as [Hq Hc].
    rewrite Hq, Hc. rewrite !imap_cons.
    unfold pool_step, q_slot, ctx_slot. rewrite Nat.add_0_r.
    split; case_decide; cbn; rewrite <- app_assoc; cbn; do 2 f_equal;
      apply imap_ext; intros j x _; cbn; by rewrite Nat.add_succ_r.
Qed.

Lemma pool_loop_indices i ws acc :
  (∀ j w, ws !! j = Some w → Z.of_nat (i + j) = local_rank cfg → w = me) →
  let res := pool_loop cfg (p_q_vector me) (p_ctx_vectors me)
      (p_positive_idx me) (p_hard_negatives_idxs me) i (sent <$> ws) acc in
  total_ctxs res = (total_ctxs acc + sum_list_with (fun w => size0 (p_ctx_vectors w)) ws)%nat
  ∧ pool_positive res = pool_positive acc ++ rebase_positive_from (total_ctxs acc) ws
  ∧ pool_hard_negatives res
    = pool_hard_negatives acc ++ rebase_hard_negatives_from (total_ctxs acc) ws.
Proof.
  revert i acc. induction ws as [|w ws IH]; intros i acc Hme.
  - cbn. rewrite !app_nil_r. split; [lia|done].
  - cbn [fmap list_fmap pool_loop].
    set (acc' := pool_step _ _ _ _ _ _ _ _).
    destruct (IH (S i) acc') as (Ht & Hp & Hh).
    { intros j w' Hj Hr. apply (Hme (S j) w'); [done|]. rewrite <- Hr. f_equal. lia. }
    cbn zeta in Ht, Hp, Hh. cbn zeta. rewrite Ht, Hp, Hh.
    assert (Hw : Z.of_nat i = local_rank cfg → w = me).
    { intros Hr. apply (Hme 0%nat w); [done|]. by rewrite Nat.add_0_r. }
    subst acc'. unfold pool_step. cbn [sent payload_to_send p_ctx_vectors p_positive_idx
      p_hard_negatives_idxs p_q_vector].
    case_decide as Hd; cbn [total_ctxs pool_positive pool_hard_negatives
      rebase_positive_from rebase_hard_negatives_from sum_list_with].
    + unfold size0, detached_cpu_copy; cbn [rows].
      rewrite <- !app_assoc. split; [lia|done].
    + assert (w = me) as -> by (apply Hw; lia).
      unfold size0, detached_cpu_copy; cbn [rows].
      rewrite <- !app_assoc. split; [lia|done].
Qed.

(** [_calc_loss] hands the pooled inputs to the loss function. *)
Lemma calc_loss_applies_calc {L : Type} (lq lc : Tensor V) lp lh
    (calc : Tensor V → Tensor V → list nat → list (list nat) → option Q → L)
    (all_gather_list : Payload V → list (Payload V)) (loss_scale : option Q) :
  _calc_loss cfg lq lc lp lh calc all_gather_list loss_scale
  = rbind (_calc_loss_inputs cfg lq lc lp lh all_gather_list)
          (fun a => Ok (calc (global_q_vector a) (global_ctxs_vector a)
                             (positive_idx_per_question a)
                             (hard_negatives_per_question a) loss_scale)).
Proof. reflexivity. Qed.

Lemma cat_nonempty (ts : list (Tensor V)) :
  ts ≠ [] →
  ∃ t, cat ts = Ok t ∧ rows t = concat (rows <$> ts)
       ∧ requires_grad t = existsb requires_grad ts.
Proof. destruct ts as [|t ts]; [done|]. intros _. by eexists. Qed.

Lemma length_concat_rows (f : Payload V → list V) ws :
  length (concat (f <$> ws)) = sum_list_with (fun w => length (f w)) ws.
Proof.
  induction ws as [|w ws IH]; [done|].
  cbn. rewrite length_app. by rewrite IH.
Qed.

(** With the calling worker at rank [r] of [world], the slots are the
    detached copies of the others around the worker's own tensors. *)
Lemma slots_around_own acc_i l1 l2 :
  Z.of_nat (acc_i + length l1) = local_rank cfg →
  imap (fun j => q_slot cfg me (acc_i + j)) (sent <$> (l1 ++ me :: l2))
  = ((fun w => to_device (device (p_q_vector me)) (detached_cpu_copy (p_q_vector w))) <$> l1)
      ++ p_q_vector me
      :: ((fun w => to_device (device (p_q_vector me)) (detached_cpu_copy (p_q_vector w))) <$> l2)
  ∧ imap (fun j => ctx_slot cfg me (acc_i + j)) (sent <$> (l1 ++ me :: l2))
  = ((fun w => to_device (device (p_q_vector me)) (detached_cpu_copy (p_ctx_vectors w))) <$> l1)
      ++ p_ctx_vectors me
      :: ((fun w => to_device (device (p_q_vector me)) (detached_cpu_copy (p_ctx_vectors w))) <$> l2).
Proof.
  intros Hr. rewrite fmap_app, !imap_app, fmap_cons, !imap_cons, length_fmap.
  unfold q_slot at 2, ctx_slot at 2. rewrite Nat.add_0_r.
  destruct (decide (Z.of_nat (acc_i + length l1) ≠ local_rank cfg)) as [Hn|_]; [done|].
  split.
  - f_equal; [|f_equal].
    + rewrite imap_fmap, <- imap_const. apply imap_ext. intros j w Hj. cbn.
      apply lookup_lt_Some in Hj. unfold q_slot. case_decide; [done|lia].
    + rewrite imap_fmap, <- imap_const. apply imap_ext. intros j w Hj. cbn.
      unfold q_slot. case_decide; [done|lia].
  - f_equal; [|f_equal].
    + rewrite imap_fmap, <- imap_const. apply imap_ext. intros j w Hj. cbn.
      apply lookup_lt_Some in Hj. unfold ctx_slot. case_decide; [done|lia].
    + rewrite imap_fmap, <- imap_const. apply imap_ext. intros j w Hj. cbn.
      unfold ctx_slot. case_decide; [done|lia].
Qed.

Lemma grad_rows_app (l1 l2 : list (Tensor V)) :
  grad_rows (l1 ++ l2) = grad_rows l1 ++ grad_rows l2.
Proof. unfold grad_rows. by rewrite fmap_app, concat_app. Qed.

Lemma grad_rows_detached (f : Payload V → Tensor V) d ws :
  grad_rows ((fun w => to_device d (detached_cpu_copy (f w))) <$> ws)
  = replicate (sum_list_with (fun w => size0 (f w)) ws) false.
Proof.
  induction ws as [|w ws IH]; [done|].
  cbn [fmap list_fmap sum_list_with]. rewrite replicate_add.
  change (grad_rows (?t :: ?l)) with (replicate (size0 t) (requires_grad t) ++ grad_rows l).
  by rewrite IH.
Qed.
End Loop.

(** C1. [_calc_loss]: with a world size of 1 (or none set) the loss
    function receives the local query and passage vectors and the local
    index lists, untouched.  With [k > 1] workers, the global passage
    pool is the workers' local passage vectors in rank order, its number
    of rows is the sum of the [k] local passage counts, the index lists
    are the workers' lists in rank order, each shifted by the passages
    of the workers of lower rank, and a shifted index points in the
    global pool at the vector the local index pointed at in its
    worker's local passages. *)
Theorem calc_loss_global_pool (cfg : Cfg) (me : Payload V)
    (all_gather_list : Payload V → list (Payload V)) :
  let inputs :=
    _calc_loss_inputs cfg (p_q_vector me) (p_ctx_vectors me) (p_positive_idx me)
                      (p_hard_negatives_idxs me) all_gather_list in
  (distributed_world_size cfg = Some 1 ∨ distributed_world_size cfg = None →
   inputs = Ok (mkLossInputs (p_q_vector me) (p_ctx_vectors me) (p_positive_idx me)
                             (p_hard_negatives_idxs me)))
  ∧ (∀ (k : Z) (world : list (Payload V)) (r : nat),
       distributed_world_size cfg = Some k → 1 < k →
       Z.of_nat (length world) = k →
       local_rank cfg = Z.of_nat r → world !! r = Some me →
       all_gather_list (sent me) = sent <$> world →
       ∃ a, inputs = Ok a
         ∧ rows (global_q_vector a) = concat ((fun w => rows (p_q_vector w)) <$> world)
         ∧ rows (global_ctxs_vector a) = concat ((fun w => rows (p_ctx_vectors w)) <$> world)
         ∧ size0 (global_ctxs_vector a)
           = sum_list_with (fun w => size0 (p_ctx_vectors w)) world
         ∧ positive_idx_per_question a = rebased_positive world
         ∧ hard_negatives_per_question a = rebased_hard_negatives world
         ∧ (∀ i w p v, world !! i = Some w → rows (p_ctx_vectors w) !! p = Some v →
              rows (global_ctxs_vector a) !! (p + offset world i)%nat = Some v)).
Proof.
  intros inputs. split.
  - intros Hws. subst inputs. unfold _calc_loss_inputs, world_size_or_1.
    destruct Hws as [-> | ->]; reflexivity.
  - intros k world r Hk Hk1 Hlen Hr Hme Hg.
    subst inputs. unfold _calc_loss_inputs, world_size_or_1. rewrite Hk.
    destruct (decide (k = 0)) as [|_]; [lia|].
    destruct (decide (k > 1)) as [_|]; [|lia].
    unfold _calc_loss_pool.
    change (payload_to_send _ _ _ _) with (sent me). rewrite Hg.
    destruct (pool_loop_slots cfg me 0 (sent <$> world) empty_pool) as [Hq Hc].
    assert (Hown : ∀ j w, world !! j = Some w →
                     Z.of_nat (0 + j) = local_rank cfg → w = me).
    { intros j w Hj Hjr. cbn in Hjr. assert (j = r) as -> by lia. congruence. }
    destruct (pool_loop_indices cfg me 0 world empty_pool Hown) as (Ht & Hp & Hh).
    cbn zeta in Ht, Hp, Hh. cbn [empty_pool pool_q pool_ctxs app] in Hq, Hc.
    cbn [empty_pool pool_positive pool_hard_negatives total_ctxs app] in Hp, Hh.
    rewrite Hq, Hc, Hp, Hh.
    destruct (slots_around_own cfg me 0 (take r world) (drop (S r) world)) as [Sq Sc].
    { rewrite length_take_le; [by rewrite Hr|]. apply lookup_lt_Some in Hme. lia. }
    rewrite (take_drop_middle world r me Hme) in Sq, Sc.
    destruct (cat_nonempty (imap (fun j => q_slot cfg me (0 + j)) (sent <$> world)))
      as (gq & -> & Hgq & _); [rewrite Sq; by destruct (take r world)|].
    destruct (cat_nonempty (imap (fun j => ctx_slot cfg me (0 + j)) (sent <$> world)))
      as (gc & -> & Hgc & _); [rewrite Sc; by destruct (take r world)|].
    cbn [rbind]. eexists. split; [reflexivity|].
    cbn [global_q_vector global_ctxs_vector positive_idx_per_question
           hard_negatives_per_question].
    assert (Hrows : rows gc = concat ((fun w => rows (p_ctx_vectors w)) <$> world)).
    { rewrite Hgc, Sc. f_equal.
      rewrite <- (take_drop_middle world r me Hme) at 3.
      rewrite !fmap_app, !fmap_cons, <- !list_fmap_compose. reflexivity. }
    split; [|split; [exact Hrows|split; [|split; [|split]]]].
    + rewrite Hgq, Sq. f_equal.
      rewrite <- (take_drop_middle world r me Hme) at 3.
      rewrite !fmap_app, !fmap_cons, <- !list_fmap_compose. reflexivity.
    + unfold size0 at 1. rewrite Hrows. apply length_concat_rows.
    + rewrite rebase_positive_from_imap. reflexivity.
    + rewrite rebase_hard_negatives_from_imap. reflexivity.
    + intros i w p v Hi Hv. rewrite Hrows. by apply (lookup_concat_offset world i w).
Qed.

(** C2. In multi-worker mode the slot of the calling worker's own rank,
    in the query pool and in the passage pool, is the worker's local
    tensor itself, with whatever gradient tracking it has; the slot of
    every other rank holds what the collective delivered for that rank,
    moved to the local device, and is not tracked.  The pooled tensors
    are the concatenation of these slots, so the rows through which
    gradient flows back are the local ones and no others. *)
Theorem calc_loss_own_slot_tracked (cfg : Cfg) (me : Payload V)
    (all_gather_list : Payload V → list (Payload V))
    (k : Z) (world : list (Payload V)) (r : nat) :
  distributed_world_size cfg = Some k → 1 < k →
  local_rank cfg = Z.of_nat r → world !! r = Some me →
  all_gather_list (sent me) = sent <$> world →
  let pool :=
    _calc_loss_pool cfg (p_q_vector me) (p_ctx_vectors me) (p_positive_idx me)
                    (p_hard_negatives_idxs me) all_gather_list in
  (∃ a, _calc_loss_inputs cfg (p_q_vector me) (p_ctx_vectors me) (p_positive_idx me)
                          (p_hard_negatives_idxs me) all_gather_list = Ok a
        ∧ cat (pool_q pool) = Ok (global_q_vector a)
        ∧ cat (pool_ctxs pool) = Ok (global_ctxs_vector a))
  ∧ pool_q pool !! r = Some (p_q_vector me)
  ∧ pool_ctxs pool !! r = Some (p_ctx_vectors me)
  ∧ (∀ i item, i ≠ r → all_gather_list (sent me) !! i = Some item →
       pool_q pool !! i = Some (to_device (device (p_q_vector me)) (p_q_vector item))
       ∧ pool_ctxs pool !! i
         = Some (to_device (device (p_q_vector me)) (p_ctx_vectors item))
       ∧ requires_grad (to_device (device (p_q_vector me)) (p_q_vector item)) = false
       ∧ requires_grad (to_device (device (p_q_vector me)) (p_ctx_vectors item)) = false)
  ∧ grad_rows (pool_q pool)
    = replicate (q_offset world r) false
        ++ replicate (size0 (p_q_vector me)) (requires_grad (p_q_vector me))
        ++ replicate (sum_list_with (fun w => size0 (p_q_vector w)) (drop (S r) world)) false
  ∧ grad_rows (pool_ctxs pool)
    = replicate (offset world r) false
        ++ replicate (size0 (p_ctx_vectors me)) (requires_grad (p_ctx_vectors me))
        ++ replicate (sum_list_with (fun w => size0 (p_ctx_vectors w)) (drop (S r) world)) false.
Proof.
  intros Hk Hk1 Hr Hme Hg pool.
  assert (Hlt : (r < length world)%nat) by (by apply lookup_lt_Some in Hme).
  destruct (pool_loop_slots cfg me 0 (all_gather_list (sent me)) empty_pool) as [Hq Hc].
  cbn [empty_pool pool_q pool_ctxs app] in Hq, Hc.
  assert (Hpq : pool_q pool = imap (fun j => q_slot cfg me (0 + j)) (all_gather_list (sent me)))
    by exact Hq.
  assert (Hpc : pool_ctxs pool = imap (fun j => ctx_slot cfg me (0 + j)) (all_gather_list (sent me)))
    by exact Hc.
  clear Hq Hc.
  destruct (slots_around_own cfg me 0 (take r world) (drop (S r) world)) as [Sq Sc].
  { rewrite length_take_le; [by rewrite Hr|lia]. }
  rewrite (take_drop_middle world r me Hme) in Sq, Sc. rewrite <- Hg in Sq, Sc.
  split; [|split; [|split; [|split; [|split]]]].
  - unfold _calc_loss_inputs, world_size_or_1. rewrite Hk.
    destruct (decide (k = 0)) as [|_]; [lia|].
    destruct (decide (k > 1)) as [_|]; [|lia].
    fold pool.
    destruct (cat_nonempty (pool_q pool)) as (gq & Hgq & _).
    { rewrite Hpq, Sq. by destruct (take r world). }
    destruct (cat_nonempty (pool_ctxs pool)) as (gc & Hgc & _).
    { rewrite Hpc, Sc. by destruct (take r world). }
    rewrite Hgq, Hgc. cbn [rbind]. by eexists.
  - rewrite Hpq, list_lookup_imap, Hg, list_lookup_fmap, Hme. cbn.
    unfold q_slot. case_decide; [lia|done].
  - rewrite Hpc, list_lookup_imap, Hg, list_lookup_fmap, Hme. cbn.
    unfold ctx_slot. case_decide; [lia|done].
  - intros i it Hi Hit.
    rewrite Hpq, Hpc, !list_lookup_imap, Hit. cbn.
    unfold q_slot, ctx_slot. case_decide; [|lia].
    rewrite Hg, list_lookup_fmap in Hit.
    destruct (world !! i) as [w|]; [|done]. cbn in Hit. injection Hit as <-.
    done.
  - rewrite Hpq, Sq, grad_rows_app.
    change (grad_rows (?t :: ?l)) with (replicate (size0 t) (requires_grad t) ++ grad_rows l).
    by rewrite !grad_rows_detached.
  - rewrite Hpc, Sc, grad_rows_app.
    change (grad_rows (?t :: ?l)) with (replicate (size0 t) (requires_grad t) ++ grad_rows l).
    by rewrite !grad_rows_detached.
Qed.
End LossCoordinatorFacts.

Lemma calc_loss_global_pool_witness :
  _calc_loss_inputs Sample.cfg (p_q_vector Sample.w1) (p_ctx_vectors Sample.w1)
      (p_positive_idx Sample.w1) (p_hard_negatives_idxs Sample.w1) Sample.gather
  = Ok (mkLossInputs (p_q_vector Sample.w1) (p_ctx_vectors Sample.w1)
                     (p_positive_idx Sample.w1) (p_hard_negatives_idxs Sample.w1))
  ∧ ∃ a,
      _calc_loss_inputs Sample.cfg_two_workers (p_q_vector Sample.w1)
          (p_ctx_vectors Sample.w1) (p_positive_idx Sample.w1)
          (p_hard_negatives_idxs Sample.w1) Sample.gather = Ok a
      ∧ rows (global_q_vector a)
        = concat ((fun w => rows (p_q_vector w)) <$> Sample.world)
      ∧ rows (global_ctxs_vector a)
        = concat ((fun w => rows (p_ctx_vectors w)) <$> Sample.world)
      ∧ size0 (global_ctxs_vector a)
        = sum_list_with (fun w => size0 (p_ctx_vectors w)) Sample.world
      ∧ positive_idx_per_question a = rebased_positive Sample.world
      ∧ hard_negatives_per_question a = rebased_hard_negatives Sample.world
      ∧ (∀ i w p v, Sample.world !! i = Some w → rows (p_ctx_vectors w) !! p = Some v →
           rows (global_ctxs_vector a) !! (p + offset Sample.world i)%nat = Some v).
Proof.
  split.
  - apply (proj1 (calc_loss_global_pool Sample.cfg Sample.w1 Sample.gather)).
    right. reflexivity.
  - apply (proj2 (calc_loss_global_pool Sample.cfg_two_workers Sample.w1 Sample.gather)
             2 Sample.world 1%nat); reflexivity.
Defined.

Lemma calc_loss_own_slot_tracked_witness :
  let pool :=
    _calc_loss_pool Sample.cfg_two_workers (p_q_vector Sample.w1)
      (p_ctx_vectors Sample.w1) (p_positive_idx Sample.w1)
      (p_hard_negatives_idxs Sample.w1) Sample.gather in
  pool_ctxs pool !! 1%nat = Some (p_ctx_vectors Sample.w1)
  ∧ grad_rows (pool_ctxs pool) = [false; false; false; true; true].
Proof.
  pose proof (calc_loss_own_slot_tracked Sample.cfg_two_workers Sample.w1
                Sample.gather 2 Sample.world 1%nat
                eq_refl eq_refl eq_refl eq_refl eq_refl)
    as (_ & _ & Hown & _ & _ & Hgrad).
  split; [exact Hown|exact Hgrad].
Defined.


(** ** The best-checkpoint tracker *)

Lemma Qltb_lt (a b : Q) : Qltb a b = true ↔ (a < b)%Q.
Proof.
  unfold Qltb. rewrite negb_true_iff, <- not_true_iff_false, Qle_bool_iff.
  split; [apply Qnot_le_lt | apply Qlt_not_le].
Qed.

Lemma py_or_nonzero (b d : Q) : ¬ (b == 0)%Q → py_or (Some b) d = b.
Proof.
  intros Hb. unfold py_or, truthy.
  destruct (Qeq_bool b 0) eqn:E; [|done].
  apply Qeq_bool_iff in E. contradiction.
Qed.

Lemma py_or_zero (b d : Q) : (b == 0)%Q → py_or (Some b) d = d.
Proof.
  intros Hb. unfold py_or, truthy.
  apply Qeq_bool_iff in Hb. by rewrite Hb.
Qed.

(** Against a tracked best other than zero the comparison is strict. *)
Lemma best_model_found_strict (cfg : Cfg) (v b : Q) :
  ¬ (b == 0)%Q →
  best_model_found_cond cfg v (Some b) = true
  ↔ if higher_is_better (train cfg) then (b < v)%Q else (v < b)%Q.
Proof.
  intros Hb. unfold best_model_found_cond. rewrite !py_or_nonzero by done.
  destruct (higher_is_better (train cfg)); cbn; [|rewrite orb_false_r];
    apply Qltb_lt.
Qed.

Lemma best_model_found_tie (cfg : Cfg) (b : Q) :
  ¬ (b == 0)%Q → best_model_found_cond cfg b (Some b) = false.
Proof.
  intros Hb. apply not_true_iff_false. rewrite best_model_found_strict by done.
  destruct (higher_is_better (train cfg)); apply Qlt_irrefl.
Qed.

(** With no tracked best, or a tracked best of zero, every value passes. *)
Lemma best_model_found_falsy (cfg : Cfg) (v : Q) (best : option Q) :
  truthy best = false → best_model_found_cond cfg v best = true.
Proof.
  intros Hf. unfold best_model_found_cond.
  assert (Hor : ∀ d, py_or best d = d).
  { intros d. unfold py_or. destruct best; [by rewrite Hf|done]. }
  rewrite !Hor.
  assert (H1 : Qltb v (v + 1) = true).
  { apply Qltb_lt. rewrite <- (Qplus_0_r v) at 1. apply Qplus_lt_r. reflexivity. }
  assert (H2 : Qltb (v - 1) v = true).
  { apply Qltb_lt. rewrite <- (Qplus_0_r v) at 2. apply Qplus_lt_r. reflexivity. }
  rewrite H1, H2. by destruct (higher_is_better (train cfg)).
Qed.


Lemma validate_nll_loss cfg batches m :
  validate_nll cfg batches = Ok m →
  m !! "Dev NLL loss"
  = Some (Qsum (fst <$> batches) / inject_Z (Z.of_nat (length batches)))%Q.
Proof.
  unfold validate_nll, py_truediv.
  destruct (Qeq_bool (inject_Z (Z.of_nat (length batches))) 0); [done|].
  cbn [rbind].
  destruct (Qeq_bool _ 0); [done|]. cbn [rbind].
  intros [= <-]. reflexivity.
Qed.

Lemma ir_metrics_no_nll r : validate_ask_ai_metrics r !! "Dev NLL loss" = None.
Proof. reflexivity. Qed.

Lemma ir_metrics_p30 r : getitem (validate_ask_ai_metrics r) "p@30" = Ok (p_at_30 r).
Proof. reflexivity. Qed.

(** C4. With dev datasets configured and the three measurements
    succeeding, the scalar compared against the tracked best is: the IR
    precision at 30 when passages of the external corpus are supplied and
    the epoch has reached [val_av_rank_start_epoch]; the average rank when
    the epoch has reached it and no such passages are supplied; the NLL
    loss of the dev set when the epoch is below it.  At the epoch equal
    to the threshold the tracked best is forgotten before the comparison:
    the call behaves as from a trainer with no tracked best. *)
Theorem validation_scalar_selection (cfg : Cfg) (torch_sort : list Q → list nat)
    (dev : DevRun) (epoch : Z) (all_passages : list (Z * string))
    (m : gmap string Q) (average_rank : Q) :
  dev_datasets cfg ≠ [] →
  validate_nll cfg (nll_batches dev) = Ok m →
  validate_average_rank cfg torch_sort (rank_gather dev) (rank_scores dev)
                        (rank_positive_idx dev) = Ok average_rank →
  (∃ metrics validation_loss,
     validation_measures cfg torch_sort dev epoch all_passages
       = Ok (metrics, validation_loss)
     ∧ (epoch >= val_av_rank_start_epoch cfg → all_passages ≠ [] →
          validation_loss = p_at_30 (ir_report dev))
     ∧ (epoch >= val_av_rank_start_epoch cfg → all_passages = [] →
          validation_loss = average_rank)
     ∧ (epoch < val_av_rank_start_epoch cfg →
          m !! "Dev NLL loss" = Some validation_loss
          ∧ validation_loss
            = (Qsum (fst <$> nll_batches dev)
                 / inject_Z (Z.of_nat (length (nll_batches dev))))%Q))
  ∧ (epoch = val_av_rank_start_epoch cfg →
       ∀ iteration save t,
         validate_and_save cfg torch_sort dev epoch iteration all_passages save t
         = validate_and_save cfg torch_sort dev epoch iteration all_passages save
             (reset_best t)).
Proof.
  intros Hdev Hnll Hrank. split.
  - unfold validation_measures.
    rewrite bool_decide_eq_false_2 by done.
    rewrite Hnll. cbn [rbind].
    pose proof (validate_nll_loss _ _ _ Hnll) as Hloss.
    destruct all_passages as [|p ps].
    + cbn [rbind]. rewrite Hrank. cbn [rbind].
      destruct (decide (epoch >= val_av_rank_start_epoch cfg)) as [Hge|Hlt].
      * eexists _, _. split; [reflexivity|]. repeat split; try done; lia.
      * unfold getitem. rewrite lookup_insert_ne by done. rewrite Hloss.
        cbn [rbind]. eexists _, _. split; [reflexivity|].
        repeat split; try done; lia.
    + rewrite ir_metrics_p30. cbn [rbind]. rewrite Hrank. cbn [rbind].
      destruct (decide (epoch >= val_av_rank_start_epoch cfg)) as [Hge|Hlt].
      * eexists _, _. split; [reflexivity|]. repeat split; try done; lia.
      * unfold getitem. rewrite lookup_insert_ne by done.
        rewrite lookup_union_r by apply ir_metrics_no_nll. rewrite Hloss.
        cbn [rbind]. eexists _, _. split; [reflexivity|].
        repeat split; try done; lia.
  - intros -> iteration save t. unfold validate_and_save, bind, emit, log_event, modify, when.
    cbn. rewrite bool_decide_eq_true_2 by done. reflexivity.
Qed.

Lemma validation_scalar_selection_witness :
  let dev := Sample.dev_run 5 [2; 1]%Q in
  (∃ metrics validation_loss,
     validation_measures Sample.cfg argsort dev 0 [] = Ok (metrics, validation_loss)
     ∧ (0 >= val_av_rank_start_epoch Sample.cfg → @nil (Z * string) ≠ [] →
          validation_loss = p_at_30 (ir_report dev))
     ∧ (0 >= val_av_rank_start_epoch Sample.cfg → @nil (Z * string) = [] →
          validation_loss = 0%Q)
     ∧ (0 < val_av_rank_start_epoch Sample.cfg →
          ({[ "Dev NLL loss" := 5%Q; "Dev Total Samples" := 1%Q;
              "Dev Total Correct Predictions" := 1%Q;
              "Dev Correct Predictions Ratio" := 1%Q ]} : gmap string Q)
            !! "Dev NLL loss" = Some validation_loss
          ∧ validation_loss
            = (Qsum (fst <$> nll_batches dev)
                 / inject_Z (Z.of_nat (length (nll_batches dev))))%Q))
  ∧ (0 = val_av_rank_start_epoch Sample.cfg →
       ∀ iteration save t,
         validate_and_save Sample.cfg argsort dev 0 iteration [] save t
         = validate_and_save Sample.cfg argsort dev 0 iteration [] save (reset_best t)).
Proof.
  intros dev.
  apply (validation_scalar_selection Sample.cfg argsort dev 0 []).
  - discriminate.
  - vm_compute. reflexivity.
  - vm_compute. reflexivity.
Defined.

(** With no dev datasets nothing is measured: the metrics are empty and
    the value compared is the constant 0. *)
Lemma validation_measures_no_dev cfg torch_sort dev epoch all_passages :
  dev_datasets cfg = [] →
  validation_measures cfg torch_sort dev epoch all_passages = Ok (∅, 0%Q).
Proof. intros H. unfold validation_measures. by rewrite H. Qed.

(** The values 5, 3, 4, 3 under lower-is-better: the first and the second
    register a new best, the third and the fourth do not. *)
Example best_tracker_sequence :
  Sample.best_after Sample.cfg 0
    [Sample.dev_run 5 [2; 1]; Sample.dev_run 3 [2; 1];
     Sample.dev_run 4 [2; 1]; Sample.dev_run 3 [2; 1]]%Q Sample.trainer
  = [(Some 5%Q, Some "out/dpr_biencoder.0");
     (Some 3%Q, Some "out/dpr_biencoder.1");
     (Some 3%Q, Some "out/dpr_biencoder.1");
     (Some 3%Q, Some "out/dpr_biencoder.1")].
Proof. vm_compute. reflexivity. Qed.

(** C3. The tracker is to replace the best value and checkpoint only on
    a strictly better value, ties never replacing it.  The comparison
    reads the tracked best through [or]: a tracked best of 0 is taken
    for an absent one.  Under lower-is-better, with the average rank as
    the measure, a first value of 0 is followed by the worse value 1,
    and in a second run by the equal value 0: both replace the best. *)
Theorem best_tracker_zero_is_replaced :
  Sample.best_after Sample.cfg_rank 1
    [Sample.dev_run 1 [2; 1]; Sample.dev_run 1 [1; 2]]%Q Sample.trainer
  = [(Some 0%Q, Some "out/dpr_biencoder.1");
     (Some 1%Q, Some "out/dpr_biencoder.2")]
  ∧ Sample.best_after Sample.cfg_rank 1
      [Sample.dev_run 1 [2; 1]; Sample.dev_run 1 [2; 1]]%Q Sample.trainer
    = [(Some 0%Q, Some "out/dpr_biencoder.1");
       (Some 0%Q, Some "out/dpr_biencoder.2")]
  ∧ best_model_found_cond Sample.cfg_rank 1 (Some 0%Q) = true
  ∧ best_model_found_cond Sample.cfg_rank 0 (Some 0%Q) = true.
Proof. repeat split; vm_compute; reflexivity. Qed.

(** C10. Without dev datasets nothing is measured, the metrics returned
    are empty and the value compared is 0; the later calls should then
    tie at 0 and register nothing.  Evaluated on three successive
    end-of-epoch calls under lower-is-better: each of them registers
    its checkpoint as the new best, the tracked 0 being taken for an
    absent best. *)
Theorem no_dev_every_call_registers_best :
  validation_measures Sample.cfg_no_dev argsort (Sample.dev_run 1 [2; 1]%Q) 0 []
  = Ok (∅, 0%Q)
  ∧ fst (validate_and_save Sample.cfg_no_dev argsort (Sample.dev_run 1 [2; 1]%Q)
           0 2 [] true Sample.trainer) = Ok ∅
  ∧ Sample.best_after Sample.cfg_no_dev 0
      [Sample.dev_run 1 [2; 1]; Sample.dev_run 1 [2; 1]; Sample.dev_run 1 [2; 1]]%Q
      Sample.trainer
    = [(Some 0%Q, Some "out/dpr_biencoder.0");
       (Some 0%Q, Some "out/dpr_biencoder.1");
       (Some 0%Q, Some "out/dpr_biencoder.2")].
Proof. repeat split; vm_compute; reflexivity. Qed.

Lemma append_nonempty_r (s1 s2 : string) : s2 ≠ "" → s1 +:+ s2 ≠ "".
Proof. intros H. destruct s1; [done|discriminate]. Qed.

Lemma path_join_nonempty (a b : string) : b ≠ "" → path_join a b ≠ "".
Proof.
  intros Hb. unfold path_join.
  destruct (String.prefix "/" b); [done|].
  case_bool_decide; [done|].
  destruct (String.prefix "/" (String.rev a)); by apply append_nonempty_r.
Qed.

(** What [_save_checkpoint] does when the output directory is set. *)
Lemma save_checkpoint_runs cfg epoch offset sep best d t :
  output_dir cfg = Some d →
  ∃ cp t', _save_checkpoint cfg epoch offset sep best t = (Ok cp, t')
           ∧ cp ≠ ""
           ∧ CheckpointSaved cp epoch offset ∈ trace t'
           ∧ best_validation_result t' = best_validation_result t.
Proof.
  intros Hd. unfold _save_checkpoint, in_output_dir, bind, emit, log_event, modify,
    lift, ret. rewrite Hd.
  destruct sep, best; cbn; eexists _, _; (split; [reflexivity|]); cbn;
    (split; [apply path_join_nonempty, append_nonempty_r; discriminate|]);
    (split; [|reflexivity]);
    rewrite !elem_of_app, !list_elem_of_singleton; auto.
Qed.

(** Without dev datasets, a saving call from a trainer whose tracked best
    is absent or 0 registers the checkpoint it writes as the new best and
    leaves 0 as the tracked best: so does every call after it. *)
Lemma no_dev_call_registers_best cfg torch_sort dev epoch iteration all_passages d t :
  dev_datasets cfg = [] → rank_in_m1_0 cfg = true → output_dir cfg = Some d →
  truthy (best_validation_result t) = false →
  ∃ cp t',
    validate_and_save cfg torch_sort dev epoch iteration all_passages true t
    = (Ok ∅, t')
    ∧ best_validation_result t' = Some 0%Q
    ∧ truthy (best_validation_result t') = false
    ∧ best_cp_name t' = Some cp
    ∧ CheckpointSaved cp epoch iteration ∈ trace t'.
Proof.
  intros Hdev Hrank Hd Hbest.
  unfold validate_and_save.
  rewrite (validation_measures_no_dev _ _ _ _ _ Hdev), Hrank.
  unfold bind at 1. cbn [emit modify].
  set (t1 := log_event _ t).
  unfold bind at 1.
  assert (Hreset : ∃ t2,
    when (bool_decide (epoch = val_av_rank_start_epoch cfg))
         (set_best_validation_result None) t1 = (Ok tt, t2)
    ∧ truthy (best_validation_result t2) = false).
  { destruct (bool_decide (epoch = val_av_rank_start_epoch cfg)); cbn;
      eexists; split; reflexivity || exact Hbest. }
  destruct Hreset as (t2 & -> & Hbest2).
  unfold bind at 1, lift at 1. cbn [andb].
  unfold bind at 1. unfold bind at 1, get at 1.
  rewrite (best_model_found_falsy cfg 0 _ Hbest2).
  rewrite andb_true_r, orb_comm, orb_negb_r.
  unfold bind at 1. unfold bind at 1.
  destruct (save_checkpoint_runs cfg epoch iteration
              (save_separate_models (train cfg)) (save_best_only (train cfg)) d t2 Hd)
    as (cp & t3 & -> & Hne & Hin & _).
  cbn [ret andb truthy_str]. rewrite bool_decide_eq_false_2 by done.
  exists cp. eexists. split; [reflexivity|]. cbn.
  repeat split; try reflexivity.
  rewrite elem_of_app. by left.
Qed.

(** ** The average-rank validation *)

Lemma nonzero_from_absent (idx j : nat) (l : list nat) :
  idx ∉ l → nonzero_from j ((fun v => bool_decide (v = idx)) <$> l) = [].
Proof.
  revert j. induction l as [|x l IH]; intros j Hn; [done|].
  apply not_elem_of_cons in Hn as [Hx Hl]. cbn.
  rewrite bool_decide_eq_false_2 by congruence. by apply IH.
Qed.

Lemma nonzero_from_unique (idx j g : nat) (l : list nat) :
  NoDup l → l !! g = Some idx →
  nonzero_from j ((fun v => bool_decide (v = idx)) <$> l) = [(j + g)%nat].
Proof.
  revert j g. induction l as [|x l IH]; intros j g Hnd Hg; [done|].
  apply NoDup_cons in Hnd as [Hx Hnd]. destruct g as [|g]; cbn in Hg |- *.
  - injection Hg as ->. rewrite bool_decide_eq_true_2 by done.
    rewrite nonzero_from_absent by done. by rewrite Nat.add_0_r.
  - assert (x ≠ idx).
    { intros ->. apply Hx. by eapply list_elem_of_lookup_2. }
    rewrite bool_decide_eq_false_2 by done.
    rewrite (IH (S j) g) by done. f_equal. lia.
Qed.

(** In a row of indices without repetition, the gold passage is found at
    its position. *)
Lemma gold_idx_position (indices_i : list nat) (idx g : nat) :
  NoDup indices_i → indices_i !! g = Some idx → gold_idx indices_i idx = Ok g.
Proof.
  intros Hnd Hg. unfold gold_idx, nonzero.
  by rewrite (nonzero_from_unique idx 0 g).
Qed.

Lemma argsort_desc_NoDup row indices_i : argsort_desc row indices_i → NoDup indices_i.
Proof. intros [Hp _]. rewrite Hp. apply NoDup_seq. Qed.

Lemma argsort_desc_elem row indices_i idx :
  argsort_desc row indices_i → idx ∈ indices_i ↔ (idx < length row)%nat.
Proof. intros [Hp _]. rewrite Hp, elem_of_seq. lia. Qed.

Lemma argsort_desc_length row indices_i :
  argsort_desc row indices_i → length indices_i = length row.
Proof. intros [Hp _]. by rewrite Hp, length_seq. Qed.

(** A strictly highest score comes first. *)
Lemma argsort_desc_highest row indices_i idx s :
  argsort_desc row indices_i →
  row !! idx = Some s →
  (∀ j s', j ≠ idx → row !! j = Some s' → (s' < s)%Q) →
  indices_i !! 0%nat = Some idx.
Proof.
  intros Hs Hidx Hmax.
  assert (Hin : idx ∈ indices_i).
  { apply (argsort_desc_elem row); [done|]. by apply lookup_lt_Some in Hidx. }
  destruct indices_i as [|x l]; [by apply elem_of_nil in Hin|].
  destruct (decide (x = idx)) as [->|Hne]; [done|]. exfalso.
  apply elem_of_cons in Hin as [?|Hin]; [congruence|].
  assert (Hx : (x < length row)%nat).
  { apply (argsort_desc_elem row (x :: l)); [done|]. apply elem_of_cons. by left. }
  apply lookup_lt_is_Some in Hx as [sx Hsx].
  destruct Hs as [_ Hsorted]. apply StronglySorted_cons in Hsorted as [Hall _].
  rewrite Forall_forall in Hall.
  pose proof (Hall idx Hin sx s Hsx Hidx) as Hle.
  apply (Qlt_not_le _ _ (Hmax x sx Hne Hsx)). exact Hle.
Qed.

(** A strictly lowest score comes last. *)
Lemma argsort_desc_lowest row indices_i idx s :
  argsort_desc row indices_i →
  row !! idx = Some s →
  (∀ j s', j ≠ idx → row !! j = Some s' → (s < s')%Q) →
  indices_i !! (length row - 1)%nat = Some idx.
Proof.
  intros Hs Hidx Hmin.
  assert (Hin : idx ∈ indices_i).
  { apply (argsort_desc_elem row); [done|]. by apply lookup_lt_Some in Hidx. }
  pose proof (argsort_desc_length _ _ Hs) as Hlen.
  induction indices_i as [|y l _] using rev_ind; [by apply elem_of_nil in Hin|].
  rewrite length_app in Hlen. cbn in Hlen.
  replace (length row - 1)%nat with (length l) by lia.
  rewrite lookup_app_r by lia. rewrite Nat.sub_diag. cbn.
  destruct (decide (y = idx)) as [->|Hne]; [done|]. exfalso.
  apply elem_of_app in Hin as [Hin|Hin]; [|apply list_elem_of_singleton in Hin; congruence].
  assert (Hy : (y < length row)%nat).
  { apply (argsort_desc_elem row (l ++ [y])); [done|].
    apply elem_of_app. right. by apply list_elem_of_singleton. }
  apply lookup_lt_is_Some in Hy as [sy Hsy].
  destruct Hs as [_ Hsorted].
  pose proof (StronglySorted_app_1_elem_of _ l [y] idx y Hsorted Hin
                ltac:(by apply list_elem_of_singleton) s sy Hidx Hsy) as Hle.
  apply (Qlt_not_le _ _ (Hmin y sy Hne Hsy)). exact Hle.
Qed.

Lemma rank_loop_positions (indices : list (list nat)) (positive_idx : list nat) (r0 : Z) :
  Forall2 (fun indices_i idx => NoDup indices_i ∧ idx ∈ indices_i) indices positive_idx →
  ∃ ranks,
    Forall3 (fun indices_i idx g => indices_i !! g = Some idx) indices positive_idx ranks
    ∧ rank_loop indices positive_idx r0 = Ok (r0 + Zsum (Z.of_nat <$> ranks)).
Proof.
  intros H. revert r0.
  induction H as [|indices_i idx indices positive_idx [Hnd Hin] _ IH]; intros r0.
  - exists []. split; [constructor|]. cbn. f_equal. unfold Zsum. cbn. lia.
  - apply list_elem_of_lookup_1 in Hin as [g Hg].
    destruct (IH (r0 + Z.of_nat g)) as (ranks & HF & Hloop).
    exists (g :: ranks). split; [by constructor|].
    cbn [rank_loop]. rewrite (gold_idx_position _ _ g) by done. cbn [rbind].
    rewrite Hloop. f_equal. unfold Zsum. cbn. lia.
Qed.

Lemma py_truediv_nonzero (a : Q) (n : Z) :
  n ≠ 0 → py_truediv a (inject_Z n) = Ok (a / inject_Z n)%Q.
Proof.
  intros Hn. unfold py_truediv.
  destruct (Qeq_bool (inject_Z n) 0) eqn:E; [|done].
  apply Qeq_bool_iff in E. unfold Qeq, inject_Z in E. cbn in E. lia.
Qed.

(** Away from the calling worker's own rank the loop adds every pair. *)
Lemma stats_loop_others cfg i stats rank q_num :
  (∀ j, (j < length stats)%nat → Z.of_nat (i + j) ≠ local_rank cfg) →
  stats_loop cfg i stats rank q_num
  = (rank + Zsum (fst <$> stats), q_num + Zsum (snd <$> stats)).
Proof.
  revert i rank q_num. induction stats as [|[a b] stats IH]; intros i rank q_num Hne.
  - unfold Zsum. cbn. f_equal; lia.
  - cbn [stats_loop]. destruct (decide (Z.of_nat i ≠ local_rank cfg)) as [_|Heq].
    + rewrite IH.
      * unfold Zsum. cbn. f_equal; lia.
      * intros j Hj. replace (S i + j)%nat with (i + S j)%nat by lia.
        apply Hne. cbn. lia.
    + exfalso. apply Heq. rewrite <- (Nat.add_0_r i). apply Hne. cbn. lia.
Qed.

Lemma stats_loop_app cfg i l1 l2 rank q_num :
  stats_loop cfg i (l1 ++ l2) rank q_num
  = let '(rank', q_num') := stats_loop cfg i l1 rank q_num in
    stats_loop cfg (i + length l1) l2 rank' q_num'.
Proof.
  revert i rank q_num. induction l1 as [|[a b] l1 IH]; intros i rank q_num.
  - cbn. by rewrite Nat.add_0_r.
  - cbn [app stats_loop length]. replace (i + S (length l1))%nat with (S i + length l1)%nat by lia.
    case_decide; apply IH.
Qed.

(** The calling worker's own pair is skipped in the loop, having been
    counted from the start: the totals are the sums over all workers. *)
Lemma stats_loop_total cfg (r : nat) stats rank q_num :
  local_rank cfg = Z.of_nat r →
  stats !! r = Some (rank, q_num) →
  stats_loop cfg 0 stats rank q_num = (Zsum (fst <$> stats), Zsum (snd <$> stats)).
Proof.
  intros Hr Hown.
  rewrite <- (take_drop_middle stats r (rank, q_num) Hown).
  assert (Hlen : length (take r stats) = r).
  { apply length_take_le. apply lookup_lt_Some in Hown. lia. }
  rewrite stats_loop_app, stats_loop_others.
  2:{ intros j Hj. rewrite Hr. lia. }
  cbn [stats_loop]. rewrite Hlen. cbn [Nat.add].
  destruct (decide (Z.of_nat r ≠ local_rank cfg)) as [Hne|_]; [congruence|].
  rewrite stats_loop_others.
  2:{ intros j Hj. rewrite Hr. lia. }
  rewrite !fmap_app, !fmap_cons. unfold Zsum. rewrite !foldr_app. cbn [foldr fst snd].
  assert (Hf : ∀ (l : list Z) a, foldr Z.add a l = a + foldr Z.add 0 l).
  { induction l as [|x l IHl]; intros a; cbn; [lia|]. rewrite IHl. lia. }
  rewrite (Hf _ (rank + _)), (Hf _ (q_num + _)). f_equal; lia.
Qed.

(** C5. [validate_average_rank] returns the mean, over the local dev
    queries, of the 0-based position of each query's gold passage among
    the passages sorted by descending score.  One query whose gold
    passage scores strictly highest yields 0; one whose gold passage
    scores strictly lowest among [P] passages yields [P - 1].  With
    several workers, the [rank, q_num] pairs are gathered and the result
    is the sum of all workers' rank sums over the sum of all workers'
    query counts, the calling worker's own pair entering once. *)
Theorem average_rank_mean_position (cfg : Cfg) (torch_sort : list Q → list nat)
    (all_gather_list : Z * Z → list (Z * Z)) :
  (∀ scores positive_idx,
     world_size_or_1 cfg <= 1 → scores ≠ [] →
     Forall2 (fun row idx => argsort_desc row (torch_sort row) ∧ (idx < length row)%nat)
             scores positive_idx →
     ∃ ranks,
       Forall3 (fun row idx g => torch_sort row !! g = Some idx) scores positive_idx ranks
       ∧ validate_average_rank cfg torch_sort all_gather_list scores positive_idx
         = Ok (inject_Z (Zsum (Z.of_nat <$> ranks))
                 / inject_Z (Z.of_nat (length scores)))%Q)
  ∧ (∀ row idx s,
       world_size_or_1 cfg <= 1 → argsort_desc row (torch_sort row) →
       row !! idx = Some s →
       (∀ j s', j ≠ idx → row !! j = Some s' → (s' < s)%Q) →
       validate_average_rank cfg torch_sort all_gather_list [row] [idx] = Ok 0%Q)
  ∧ (∀ row idx s,
       world_size_or_1 cfg <= 1 → argsort_desc row (torch_sort row) →
       row !! idx = Some s →
       (∀ j s', j ≠ idx → row !! j = Some s' → (s < s')%Q) →
       validate_average_rank cfg torch_sort all_gather_list [row] [idx]
       = Ok (inject_Z (Z.of_nat (length row) - 1)))
  ∧ (∀ scores positive_idx (r : nat) rank,
       world_size_or_1 cfg > 1 → local_rank cfg = Z.of_nat r →
       length scores = length positive_idx →
       rank_loop (torch_sort <$> scores) positive_idx 0 = Ok rank →
       let q_num := Z.of_nat (length scores) in
       let eval_stats := all_gather_list (rank, q_num) in
       eval_stats !! r = Some (rank, q_num) →
       Zsum (snd <$> eval_stats) ≠ 0 →
       validate_average_rank cfg torch_sort all_gather_list scores positive_idx
       = Ok (inject_Z (Zsum (fst <$> eval_stats))
               / inject_Z (Zsum (snd <$> eval_stats)))%Q).
Proof.
  split; [|split; [|split]].
  - intros scores positive_idx Hws Hne HF.
    destruct (rank_loop_positions (torch_sort <$> scores) positive_idx 0) as (ranks & H3 & Hloop).
    { apply Forall2_fmap_l. eapply Forall2_impl; [exact HF|].
      intros row idx [Hs Hlt]. split; [by eapply argsort_desc_NoDup|].
      by apply (argsort_desc_elem row). }
    exists ranks. split.
    { clear -H3. remember (torch_sort <$> scores) as indices eqn:E.
      revert scores E. induction H3 as [|? ? ? ? ? ? H ? IH]; intros [|row scores] E; try done.
      - constructor.
      - injection E as -> ->. constructor; [done|]. by apply IH. }
    unfold validate_average_rank.
    rewrite (Forall2_length _ _ _ HF). rewrite bool_decide_eq_true_2 by done. cbn [negb].
    rewrite Hloop. cbn [rbind].
    destruct (decide (world_size_or_1 cfg > 1)) as [|_]; [lia|].
    rewrite <- (Forall2_length _ _ _ HF). cbn [Z.add].
    apply py_truediv_nonzero. destruct scores; [done|]. cbn. lia.
  - intros row idx s Hws Hs Hidx Hmax.
    unfold validate_average_rank. cbn [length fmap list_fmap rank_loop].
    rewrite bool_decide_eq_true_2 by done. cbn [negb].
    rewrite (gold_idx_position _ _ 0%nat);
      [|by eapply argsort_desc_NoDup|by eapply argsort_desc_highest].
    cbn [rbind]. destruct (decide (world_size_or_1 cfg > 1)) as [|_]; [lia|].
    reflexivity.
  - intros row idx s Hws Hs Hidx Hmin.
    unfold validate_average_rank. cbn [length fmap list_fmap rank_loop].
    rewrite bool_decide_eq_true_2 by done. cbn [negb].
    rewrite (gold_idx_position _ _ (length row - 1)%nat);
      [|by eapply argsort_desc_NoDup|by eapply argsort_desc_lowest].
    cbn [rbind]. destruct (decide (world_size_or_1 cfg > 1)) as [|_]; [lia|].
    rewrite py_truediv_nonzero by done. f_equal.
    apply lookup_lt_Some in Hidx.
    replace (0 + Z.of_nat (length row - 1)) with (Z.of_nat (length row) - 1) by lia.
    unfold Qdiv, Qmult, Qinv, inject_Z. cbn. by rewrite Z.mul_1_r.
  - intros scores positive_idx r rank Hws Hr Hlen Hloop q_num eval_stats Hown Hnz.
    unfold validate_average_rank.
    rewrite Hlen. rewrite bool_decide_eq_true_2 by done. cbn [negb].
    rewrite Hloop. cbn [rbind].
    destruct (decide (world_size_or_1 cfg > 1)) as [_|]; [|lia].
    rewrite <- Hlen. fold q_num. fold eval_stats.
    rewrite (stats_loop_total cfg r eval_stats rank q_num Hr Hown).
    by apply py_truediv_nonzero.
Qed.

Lemma argsort_sample_ok : argsort_desc [3; 1; 2]%Q (argsort [3; 1; 2]%Q).
Proof.
  split.
  - change (argsort [3; 1; 2]%Q) with [0; 2; 1]%nat. cbn.
    apply perm_skip, perm_swap.
  - change (argsort [3; 1; 2]%Q) with [0; 2; 1]%nat.
    repeat constructor; intros sa sb [= <-] [= <-]; discriminate.
Defined.

Lemma average_rank_mean_position_witness :
  validate_average_rank Sample.cfg argsort (fun own => [own]) [[3; 1; 2]%Q] [0%nat]
  = Ok 0%Q
  ∧ validate_average_rank Sample.cfg argsort (fun own => [own]) [[3; 1; 2]%Q] [1%nat]
    = Ok (inject_Z (Z.of_nat (length [3; 1; 2]%Q) - 1))
  ∧ validate_average_rank Sample.cfg_two_workers argsort
      (fun own => [(3, 4); own]) [[3; 1; 2]%Q] [1%nat]
    = Ok (Qdiv (inject_Z (Zsum (fst <$> [(3, 4); (2, 1)])))
               (inject_Z (Zsum (snd <$> [(3, 4); (2, 1)])))).
Proof.
  split; [|split].
  - apply (proj1 (proj2 (average_rank_mean_position Sample.cfg argsort
                           (fun own => [own]))) [3; 1; 2]%Q 0%nat 3%Q).
    + vm_compute. discriminate.
    + exact argsort_sample_ok.
    + reflexivity.
    + intros [|[|[|j]]] s' Hj; cbn; intros [= <-]; try reflexivity. by destruct Hj.
  - apply (proj1 (proj2 (proj2 (average_rank_mean_position Sample.cfg argsort
                                  (fun own => [own])))) [3; 1; 2]%Q 1%nat 1%Q).
    + vm_compute. discriminate.
    + exact argsort_sample_ok.
    + reflexivity.
    + intros [|[|[|j]]] s' Hj; cbn; intros [= <-]; try reflexivity. by destruct Hj.
  - apply (proj2 (proj2 (proj2 (average_rank_mean_position Sample.cfg_two_workers
                                  argsort (fun own => [(3, 4); own]))))
             [[3; 1; 2]%Q] [1%nat] 1%nat 2).
    + reflexivity.
    + reflexivity.
    + reflexivity.
    + reflexivity.
    + reflexivity.
    + vm_compute. discriminate.
Defined.

(** The contract on the sort is met by insertion: [argsort] is a
    descending argsort of every row. *)
Lemma insert_desc_perm row i l : insert_desc row i l ≡ₚ i :: l.
Proof.
  induction l as [|j l IH]; cbn [insert_desc]; [done|].
  destruct (Qltb (score_at row i) (score_at row j)); [|done].
  rewrite IH. apply perm_swap.
Qed.

Lemma insert_desc_sorted row i l :
  StronglySorted (fun ia ib => (score_at row ib <= score_at row ia)%Q) l →
  StronglySorted (fun ia ib => (score_at row ib <= score_at row ia)%Q)
                 (insert_desc row i l).
Proof.
  induction l as [|j l IH]; intros Hs; cbn [insert_desc].
  - repeat constructor.
  - apply StronglySorted_cons in Hs as [Hall Hs].
    destruct (Qltb (score_at row i) (score_at row j)) eqn:E.
    + apply Qltb_lt in E. apply StronglySorted_cons. split; [|by apply IH].
      rewrite insert_desc_perm. constructor; [by apply Qlt_le_weak|done].
    + assert (Hji : (score_at row j <= score_at row i)%Q).
      { apply Qnot_lt_le. intros Hlt. apply Qltb_lt in Hlt. congruence. }
      apply StronglySorted_cons. split; [|by apply StronglySorted_cons].
      constructor; [done|].
      eapply Forall_impl; [exact Hall|]. intros x Hx. cbn in Hx |- *.
      by eapply Qle_trans.
Qed.

Lemma StronglySorted_weaken {A} (R R' : A → A → Prop) (l : list A) :
  (∀ x y, R x y → R' x y) → StronglySorted R l → StronglySorted R' l.
Proof.
  intros HR. induction 1 as [|x l _ IH Hall]; constructor; [done|].
  eapply Forall_impl; [exact Hall|]. auto.
Qed.

Lemma argsort_is_argsort_desc (row : list Q) : argsort_desc row (argsort row).
Proof.
  unfold argsort_desc, argsort. split.
  - induction (seq 0 (length row)) as [|i l IH]; [done|].
    cbn [foldr]. by rewrite insert_desc_perm, IH.
  - apply (StronglySorted_weaken
             (fun ia ib => (score_at row ib <= score_at row ia)%Q)).
    + intros ia ib H sa sb Ha Hb. unfold score_at in H. by rewrite Ha, Hb in H.
    + induction (seq 0 (length row)) as [|i l IH]; [constructor|].
      cbn [foldr]. by apply insert_desc_sorted.
Qed.

(** ** The log only grows *)

Lemma grows_ret {A} (a : A) : grows (ret a).
Proof. intros t. reflexivity. Qed.

Lemma grows_raise {A} (e : Exn) : grows (@raise A e).
Proof. intros t. reflexivity. Qed.

Lemma grows_lift {A} (r : result A) : grows (lift r).
Proof. intros t. reflexivity. Qed.

Lemma grows_get : grows get.
Proof. intros t. reflexivity. Qed.

Lemma grows_emit (e : Event) : grows (emit e).
Proof. intros t. by apply prefix_app_r. Qed.

Lemma grows_modify (f : Trainer → Trainer) :
  (∀ t, trace (f t) = trace t) → grows (modify f).
Proof. intros Hf t. cbn. by rewrite Hf. Qed.

Lemma grows_bind {A B} (m : M A) (k : A → M B) :
  grows m → (∀ a, grows (k a)) → grows (bind m k).
Proof.
  intros Hm Hk t. unfold bind. specialize (Hm t).
  destruct (m t) as [[a|e] t']; cbn in *; [|done].
  etrans; [exact Hm|apply Hk].
Qed.

Lemma grows_when (b : bool) (m : M unit) : grows m → grows (when b m).
Proof. intros Hm. destruct b; [done|apply grows_ret]. Qed.

Lemma grows_next_dev_run (env : Env) : grows (next_dev_run env).
Proof. intros t. reflexivity. Qed.

Create HintDb grows discriminated.
#[local] Hint Resolve grows_ret grows_raise grows_lift grows_get grows_emit
  grows_next_dev_run : grows.

Ltac grows_step :=
  match goal with
  | |- grows (bind _ _) => apply grows_bind; [|intros]
  | |- grows (when _ _) => apply grows_when
  | |- grows (modify _) => apply grows_modify; intros; reflexivity
  | |- grows (if ?b then _ else _) => destruct b
  | |- grows (match ?x with _ => _ end) => destruct x
  | |- grows _ => solve [auto with grows]
  end.

Lemma grows_save_checkpoint cfg epoch offset sep best :
  grows (_save_checkpoint cfg epoch offset sep best).
Proof. unfold _save_checkpoint. repeat grows_step. Qed.

Lemma grows_validate_and_save cfg torch_sort dev epoch iteration all_passages save :
  grows (validate_and_save cfg torch_sort dev epoch iteration all_passages save).
Proof.
  unfold validate_and_save, set_best_validation_result, set_best_cp_name.
  repeat first [apply grows_save_checkpoint | grows_step].
Qed.

Lemma grows_train_loop cfg env epoch eval_step all_passages i steps vars :
  grows (train_loop cfg env epoch eval_step all_passages i steps vars).
Proof.
  revert i vars. induction steps as [|s steps IH]; intros i vars; cbn [train_loop].
  - apply grows_ret.
  - repeat first [apply IH | apply grows_validate_and_save | grows_step].
Qed.

Lemma grows_train_epoch cfg env epoch eval_step all_passages :
  grows (_train_epoch cfg env epoch eval_step all_passages).
Proof.
  unfold _train_epoch.
  repeat first [apply grows_train_loop | apply grows_validate_and_save | grows_step].
Qed.

Lemma grows_epoch_loop cfg env eval_step all_passages epochs :
  grows (epoch_loop cfg env eval_step all_passages epochs).
Proof.
  induction epochs as [|e epochs IH]; cbn [epoch_loop].
  - apply grows_ret.
  - repeat first [apply IH | apply grows_train_epoch | grows_step].
Qed.

Lemma grows_run_train cfg env : grows (run_train cfg env).
Proof.
  unfold run_train.
  repeat first [apply grows_epoch_loop | grows_step].
Qed.

(** ** Validation calls of an epoch *)

Lemma validation_runs_app l1 l2 :
  validation_runs (l1 ++ l2) = validation_runs l1 ++ validation_runs l2.
Proof. apply omap_app. Qed.

Lemma py_mod_nonzero a b : b ≠ 0 → py_mod a b = Ok (a mod b).
Proof. intros Hb. unfold py_mod. by case_decide. Qed.

Lemma returns_ret {A} (a : A) t (Q : A → Trainer → Prop) :
  Q a t → returns (ret a) t [] Q.
Proof. intros HQ. exists a, t. by rewrite app_nil_r. Qed.

Lemma returns_lift {A} (r : result A) a t (Q : A → Trainer → Prop) :
  r = Ok a → Q a t → returns (lift r) t [] Q.
Proof. intros -> HQ. exists a, t. by rewrite app_nil_r. Qed.

Lemma returns_get t (Q : Trainer → Trainer → Prop) :
  Q t t → returns get t [] Q.
Proof. intros HQ. exists t, t. by rewrite app_nil_r. Qed.

Lemma returns_emit e t (Q : unit → Trainer → Prop) :
  quiet e → (∀ t', validation_runs (trace t') = validation_runs (trace t) →
                   start_epoch t' = start_epoch t →
                   scheduler_state t' = scheduler_state t → Q tt t') →
  returns (emit e) t [] Q.
Proof.
  intros Hq HQ. eexists tt, _. split; [reflexivity|].
  assert (Hr : validation_runs (trace t ++ [e]) = validation_runs (trace t)).
  { rewrite validation_runs_app. destruct e; cbn; try by rewrite app_nil_r. done. }
  unfold log_event. cbn [trace]. split; [by rewrite Hr, app_nil_r|]. by apply HQ.
Qed.

Lemma returns_bind {A B} (m : M A) (k : A → M B) t r1 r2 (Q : B → Trainer → Prop) :
  returns m t r1 (fun a t1 => returns (k a) t1 r2 Q) →
  returns (bind m k) t (r1 ++ r2) Q.
Proof.
  intros (a & t1 & Hm & Hr1 & b & t2 & Hk & Hr2 & HQ).
  exists b, t2. unfold bind. rewrite Hm, Hk. split; [done|].
  split; [|done]. by rewrite Hr2, Hr1, app_assoc.
Qed.

Lemma returns_bind_quiet {A B} (m : M A) (k : A → M B) t r (Q : B → Trainer → Prop) :
  returns m t [] (fun a t1 => returns (k a) t1 r Q) →
  returns (bind m k) t r Q.
Proof. intros H. by apply (returns_bind m k t [] r). Qed.

Lemma returns_bind_last {A B} (m : M A) (k : A → M B) t r (Q : B → Trainer → Prop) :
  returns m t r (fun a t1 => returns (k a) t1 [] Q) →
  returns (bind m k) t r Q.
Proof. intros H. rewrite <- (app_nil_r r). by apply returns_bind. Qed.

Lemma returns_when_emit (b : bool) e t (Q : unit → Trainer → Prop) :
  quiet e → (∀ t', validation_runs (trace t') = validation_runs (trace t) →
                   start_epoch t' = start_epoch t →
                   scheduler_state t' = scheduler_state t → Q tt t') →
  returns (when b (emit e)) t [] Q.
Proof.
  intros Hq HQ. destruct b; [by apply returns_emit|].
  apply returns_ret. by apply HQ.
Qed.

Lemma returns_weaken {A} (m : M A) t r (Q Q' : A → Trainer → Prop) :
  returns m t r Q → (∀ a t', Q a t' → Q' a t') → returns m t r Q'.
Proof. intros (a & t' & ? & ? & ?) HQ. exists a, t'. eauto. Qed.

(** A call of [validate_and_save] whose measurements succeed returns and
    leaves one entry in the log. *)
Lemma validate_and_save_ok cfg torch_sort dev epoch iteration all_passages save d t :
  output_dir cfg = Some d →
  is_ok (validation_measures cfg torch_sort dev epoch all_passages) = true →
  returns (validate_and_save cfg torch_sort dev epoch iteration all_passages save) t
          [(epoch, iteration, save)] (fun _ _ => True).
Proof.
  intros Hd Hok.
  destruct (validation_measures cfg torch_sort dev epoch all_passages)
    as [[m v]|e] eqn:Hm; [|done].
  exists m.
  unfold validate_and_save, bind, emit, log_event, modify, when, lift, get, ret,
    set_best_validation_result, set_best_cp_name, _save_checkpoint, in_output_dir.
  rewrite Hd.
  destruct (bool_decide (epoch = val_av_rank_start_epoch cfg));
    cbn; rewrite Hm; cbn;
    destruct (rank_in_m1_0 cfg), save; cbn;
    repeat match goal with
      | |- context [if ?b then _ else _] => destruct b; cbn
      end;
    eexists; (split; [reflexivity|]); cbn;
    rewrite ?validation_runs_app; cbn; rewrite ?app_nil_r; done.
Qed.

Lemma returns_next_dev_run env t (Q : DevRun → Trainer → Prop) :
  (∀ t', validation_runs (trace t') = validation_runs (trace t) →
         Q (dev_runs env (validations_run t)) t') →
  returns (next_dev_run env) t [] Q.
Proof.
  intros HQ. eexists _, _. split; [reflexivity|]. cbn.
  split; [by rewrite app_nil_r|]. by apply HQ.
Qed.

Section Cadence.
Variables (cfg : Cfg) (env : Env) (d : string).
Hypothesis Hdir : output_dir cfg = Some d.
Hypothesis Hacc : gradient_accumulation_steps (train cfg) ≠ 0.
Hypothesis Hlog : log_batch_step (train cfg) ≠ 0.
Hypothesis Hroll : train_rolling_loss_step (train cfg) ≠ 0.
Hypothesis Hdev : ∀ n epoch all_passages,
  is_ok (validation_measures cfg (torch_sort env) (dev_runs env n) epoch all_passages)
  = true.

Lemma loop_validations_cons eval_step epoch s steps :
  loop_validations cfg eval_step epoch (s :: steps)
  = (if bool_decide (data_iteration s mod eval_step = 0) && eval_during_epoch (train cfg)
     then [(epoch, data_iteration s, false)] else [])
    ++ loop_validations cfg eval_step epoch steps.
Proof.
  unfold loop_validations. destruct (eval_during_epoch (train cfg)).
  - cbn [fmap list_fmap]. rewrite filter_cons.
    case_decide.
    + rewrite bool_decide_eq_true_2 by done. done.
    + rewrite bool_decide_eq_false_2 by done. done.
  - by rewrite andb_false_r.
Qed.

Lemma train_loop_ok eval_step epoch all_passages steps :
  eval_step ≠ 0 →
  ∀ i vars t,
    returns (train_loop cfg env epoch eval_step all_passages i steps vars) t
            (loop_validations cfg eval_step epoch steps)
            (fun vars' _ =>
               last_data_iteration vars'
               = default (last_data_iteration vars) (last (data_iteration <$> steps))).
Proof.
  intros Hes. induction steps as [|s steps IH]; intros i vars t.
  - replace (loop_validations cfg eval_step epoch []) with (@nil (Z * Z * bool)).
    2:{ unfold loop_validations. by destruct (eval_during_epoch (train cfg)). }
    by apply returns_ret.
  - cbn [train_loop]. rewrite !py_mod_nonzero by done.
    rewrite loop_validations_cons.
    apply returns_bind_quiet, returns_emit; [done|]. intros t1 _ _ _.
    apply returns_bind_quiet, (returns_lift _ _ _ _ eq_refl).
    apply returns_bind_quiet, returns_when_emit; [done|]. intros t2 _ _ _.
    apply returns_bind_quiet, (returns_lift _ _ _ _ eq_refl).
    apply returns_bind_quiet, returns_when_emit; [done|]. intros t3 _ _ _.
    apply returns_bind_quiet, (returns_lift _ _ _ _ eq_refl).
    apply returns_bind_quiet, returns_when_emit; [done|]. intros t4 _ _ _.
    apply returns_bind_quiet, (returns_lift _ _ _ _ eq_refl).
    apply returns_bind.
    + destruct (bool_decide (data_iteration s mod eval_step = 0)
                && eval_during_epoch (train cfg)); cbn [when].
      * apply returns_bind_quiet, returns_next_dev_run. intros t5 _.
        apply returns_bind_last.
        eapply returns_weaken; [by eapply validate_and_save_ok|].
        intros _ t6 _. apply returns_ret.
        eapply returns_weaken; [apply IH|].
        intros vars' _ ->. cbn [last_data_iteration]. rewrite fmap_cons, last_cons.
        by destruct (last (data_iteration <$> steps)).
      * apply returns_ret.
        eapply returns_weaken; [apply IH|].
        intros vars' _ ->. cbn [last_data_iteration]. rewrite fmap_cons, last_cons.
        by destruct (last (data_iteration <$> steps)).
Qed.

Lemma train_epoch_ok eval_step epoch all_passages t :
  eval_step ≠ 0 →
  returns (_train_epoch cfg env epoch eval_step all_passages) t
          (epoch_validations cfg env eval_step epoch) (fun _ _ => True).
Proof.
  intros Hes. unfold _train_epoch, epoch_validations.
  apply returns_bind.
  eapply returns_weaken; [by apply train_loop_ok|].
  intros vars t1 Hlast.
  apply returns_bind_quiet, returns_emit; [done|]. intros t2 _ _ _.
  apply returns_bind_quiet, returns_next_dev_run. intros t3 _.
  apply returns_bind_last.
  rewrite Hlast. change (default 0 (last (data_iteration <$> epoch_steps env epoch)))
    with (final_iteration (epoch_steps env epoch)).
  eapply returns_weaken; [by eapply validate_and_save_ok|].
  intros m t4 _. by apply returns_ret.
Qed.

Lemma epoch_loop_ok eval_step all_passages epochs t :
  eval_step ≠ 0 →
  returns (epoch_loop cfg env eval_step all_passages epochs) t
          (concat (epoch_validations cfg env eval_step <$> epochs)) (fun _ _ => True).
Proof.
  intros Hes. revert t. induction epochs as [|e epochs IH]; intros t; cbn [epoch_loop].
  - by apply returns_ret.
  - cbn [fmap list_fmap concat].
    apply returns_bind_quiet, returns_emit; [done|]. intros t1 _ _ _.
    apply returns_bind.
    eapply returns_weaken; [by apply train_epoch_ok|].
    intros m t2 _.
    apply returns_bind_quiet, returns_emit; [done|]. intros t3 _ _ _.
    apply IH.
Qed.
End Cadence.

Lemma py_floordiv_nonzero a b : b ≠ 0 → py_floordiv a b = Ok (a / b).
Proof. intros Hb. unfold py_floordiv. by case_decide. Qed.

Lemma py_ceil_div_nonzero a b : b ≠ 0 → py_ceil_div a b = Ok (- (- a / b)).
Proof. intros Hb. unfold py_ceil_div. by case_decide. Qed.

(** [py_ceil_div] is the ceiling of the quotient. *)
Lemma py_ceil_div_is_ceiling a b c :
  0 < b → py_ceil_div a b = Ok c → b * (c - 1) < a <= b * c.
Proof.
  intros Hb. rewrite py_ceil_div_nonzero by lia. intros [= <-].
  pose proof (Z.div_mod (- a) b ltac:(lia)) as Hdm.
  pose proof (Z.mod_pos_bound (- a) b Hb) as Hbound.
  nia.
Qed.

(** C6 (as amended). The step between validations is
    [eval_step = ceil(updates_per_epoch / eval_per_epoch)].  When
    [eval_during_epoch] is set, a validation (without saving) runs at
    every batch whose iteration counter is a multiple of [eval_step];
    when it is not set, none runs inside the epoch.  In both cases one
    validation (with saving) runs at the end of every epoch. *)
Theorem run_train_validation_cadence (cfg : Cfg) (env : Env) (t : Trainer) (d : string) :
  let max_iterations := get_max_iterations (source_batches env) in
  let updates_per_epoch := max_iterations / gradient_accumulation_steps (train cfg) in
  let eval_step := - (- updates_per_epoch / eval_per_epoch (train cfg)) in
  output_dir cfg = Some d →
  gradient_accumulation_steps (train cfg) ≠ 0 →
  log_batch_step (train cfg) ≠ 0 →
  train_rolling_loss_step (train cfg) ≠ 0 →
  eval_per_epoch (train cfg) ≠ 0 →
  max_iterations ≠ 0 →
  eval_step ≠ 0 →
  (truthy_str (customer_chunks cfg) = true → customer_chunk_files env ≠ []) →
  (∀ st, scheduler_state t = Some st → truthy_dict st = true →
         is_Some (st !! "last_epoch")) →
  (∀ n epoch all_passages,
     is_ok (validation_measures cfg (torch_sort env) (dev_runs env n) epoch all_passages)
     = true) →
  py_ceil_div updates_per_epoch (eval_per_epoch (train cfg)) = Ok eval_step
  ∧ (0 < eval_per_epoch (train cfg) →
     eval_per_epoch (train cfg) * (eval_step - 1) < updates_per_epoch
     <= eval_per_epoch (train cfg) * eval_step)
  ∧ ∃ t',
      run_train cfg env t = (Ok tt, t')
      ∧ validation_runs (trace t')
        = validation_runs (trace t)
            ++ concat (epoch_validations cfg env eval_step
                         <$> seqZ (start_epoch t)
                                  (num_train_epochs (train cfg) - start_epoch t)).
Proof.
  intros max_iterations updates_per_epoch eval_step
    Hdir Hacc Hlog Hroll Hepe Hmax Hes Hchunks Hsched Hdev.
  split; [by apply py_ceil_div_nonzero|].
  split; [intros Hpos; apply py_ceil_div_is_ceiling; [done|by apply py_ceil_div_nonzero]|].
  enough (Hret : returns (run_train cfg env) t
                   (concat (epoch_validations cfg env eval_step
                              <$> seqZ (start_epoch t)
                                       (num_train_epochs (train cfg) - start_epoch t)))
                   (fun _ _ => True)).
  { destruct Hret as ([] & t' & ? & ? & _). by exists t'. }
  unfold run_train. fold max_iterations.
  apply returns_bind_quiet.
  assert (Hload : returns
            (if truthy_str (customer_chunks cfg)
             then emit (LogInfo "Reading customer chunks") ;;;
                  (if bool_decide (customer_chunk_files env = [])
                   then raise (ValueError ("File descriptor "
                                 +:+ default "" (customer_chunks cfg)
                                 +:+ " is not configured."))
                   else ret (customer_passages env))
             else ret []) t []
            (fun _ t1 => validation_runs (trace t1) = validation_runs (trace t)
                         ∧ start_epoch t1 = start_epoch t
                         ∧ scheduler_state t1 = scheduler_state t)).
  { destruct (truthy_str (customer_chunks cfg)); [|by apply returns_ret].
    apply returns_bind_quiet, returns_emit; [done|]. intros t1 ? ? ?.
    rewrite bool_decide_eq_false_2 by auto. by apply returns_ret. }
  eapply returns_weaken; [exact Hload|]. clear Hload.
  intros all_passages t1 (_ & Hse1 & Hss1).
  apply returns_bind_quiet, returns_emit; [done|]. intros t2 _ Hse2 Hss2.
  rewrite bool_decide_eq_false_2 by done.
  rewrite py_floordiv_nonzero by done. fold updates_per_epoch.
  apply returns_bind_quiet, (returns_lift _ _ _ _ eq_refl).
  apply returns_bind_quiet, returns_get.
  apply returns_bind_quiet.
  assert (Hsb : returns
            (match scheduler_state t2 with
             | Some st =>
                 if truthy_dict st
                 then shift <- lift (getitemZ st "last_epoch") ;;
                      emit (SchedulerBuilt (warmup_steps (train cfg))
                              (updates_per_epoch * num_train_epochs (train cfg)) shift)
                 else emit (SchedulerBuilt (warmup_steps (train cfg))
                              (updates_per_epoch * num_train_epochs (train cfg)) 0)
             | None => emit (SchedulerBuilt (warmup_steps (train cfg))
                              (updates_per_epoch * num_train_epochs (train cfg)) 0)
             end) t2 [] (fun _ _ => True)).
  { rewrite Hss2, Hss1.
    destruct (scheduler_state t) as [st|] eqn:Hst; [|by apply returns_emit].
    destruct (truthy_dict st) eqn:Htr; [|by apply returns_emit].
    destruct (Hsched st eq_refl Htr) as [shift Hshift].
    apply returns_bind_quiet. apply (returns_lift _ shift).
    { unfold getitemZ. by rewrite Hshift. }
    by apply returns_emit. }
  eapply returns_weaken; [exact Hsb|]. clear Hsb. intros _ t3 _.
  rewrite py_ceil_div_nonzero by done. fold eval_step.
  apply returns_bind_quiet, (returns_lift _ _ _ _ eq_refl).
  apply returns_bind_last.
  rewrite Hse2, Hse1.
  eapply returns_weaken; [by eapply epoch_loop_ok|].
  intros _ t4 _.
  destruct (rank_in_m1_0 cfg); [|by apply returns_ret].
  cbn [when]. apply returns_bind_quiet, returns_get. by apply returns_emit.
Qed.

(** ** Runs without data, and runs with some *)

Lemma elem_of_grows {A} (m : M A) t e :
  grows m → e ∈ trace t → e ∈ trace (snd (m t)).
Proof.
  intros Hg He. destruct (Hg t) as [k ->]. apply elem_of_app. by left.
Qed.

Lemma elem_of_bind_step {A B} (m : M A) (k : A → M B) t a t1 e :
  m t = (Ok a, t1) → e ∈ trace (snd (k a t1)) → e ∈ trace (snd (bind m k t)).
Proof. intros Hm He. unfold bind. by rewrite Hm. Qed.

Lemma Zsum_app l1 l2 : Zsum (l1 ++ l2) = Zsum l1 + Zsum l2.
Proof. induction l1 as [|x l1 IH]; cbn; [done|]. unfold Zsum in *. cbn. rewrite IH. lia. Qed.

Lemma Zsum_nonneg l : Forall (fun n => 0 <= n) l → 0 <= Zsum l.
Proof. induction 1 as [|x l Hx _ IH]; unfold Zsum in *; cbn; lia. Qed.

Lemma Zsum_pos l :
  Forall (fun n => 0 <= n) l → Exists (fun n => 0 < n) l → 0 < Zsum l.
Proof.
  intros Hall Hex. induction Hex as [x l Hx|x l Hex IH].
  - apply Forall_cons in Hall as [_ Hl]. apply Zsum_nonneg in Hl.
    unfold Zsum in *. cbn. lia.
  - apply Forall_cons in Hall as [Hx Hl]. specialize (IH Hl).
    unfold Zsum in *. cbn. lia.
Qed.

(** C8. When the training sources yield no batch at all
    ([max_iterations] is 0), [run_train] only logs: the warning is
    reported, no scheduler is built, no epoch is started, no batch is
    trained on, no validation runs and no checkpoint is written.  One
    empty source among sources of which some yield batches leaves
    [max_iterations] positive: the scheduler is built and the epoch loop
    is entered. *)
Theorem run_train_without_data (cfg : Cfg) (env : Env) (t : Trainer) :
  (get_max_iterations (source_batches env) = 0 →
     (∃ log', trace (snd (run_train cfg env t)) = trace t ++ log'
              ∧ Forall is_log_message log')
     ∧ ((truthy_str (customer_chunks cfg) = true → customer_chunk_files env ≠ []) →
        fst (run_train cfg env t) = Ok tt
        ∧ LogWarning "No data found for training." ∈ trace (snd (run_train cfg env t))))
  ∧ (∀ l1 l2,
       source_batches env = l1 ++ 0 :: l2 →
       Forall (fun n => 0 <= n) (l1 ++ l2) →
       Exists (fun n => 0 < n) (l1 ++ l2) →
       gradient_accumulation_steps (train cfg) ≠ 0 →
       (truthy_str (customer_chunks cfg) = true → customer_chunk_files env ≠ []) →
       (∀ st, scheduler_state t = Some st → truthy_dict st = true →
              is_Some (st !! "last_epoch")) →
       get_max_iterations (source_batches env) = Zsum (l1 ++ l2)
       ∧ 0 < get_max_iterations (source_batches env)
       ∧ (∃ total_updates shift,
            SchedulerBuilt (warmup_steps (train cfg)) total_updates shift
              ∈ trace (snd (run_train cfg env t)))
       ∧ (eval_per_epoch (train cfg) ≠ 0 →
          start_epoch t < num_train_epochs (train cfg) →
          EpochStarted (start_epoch t) ∈ trace (snd (run_train cfg env t)))).
Proof.
  split.
  - intros Hzero. unfold run_train. rewrite Hzero.
    rewrite (bool_decide_eq_true_2 (0 = 0)) by done.
    destruct (truthy_str (customer_chunks cfg)) eqn:Hc.
    + destruct (bool_decide (customer_chunk_files env = [])) eqn:Hf.
      * split.
        -- eexists [_]. split; [reflexivity|]. by repeat constructor.
        -- intros Hfiles. apply bool_decide_eq_true_1 in Hf. by destruct (Hfiles eq_refl).
      * split.
        -- eexists [_; _; _]. split; [cbn; by rewrite <- !app_assoc|].
           by repeat constructor.
        -- intros _. split; [done|]. cbn. rewrite !elem_of_app, !list_elem_of_singleton.
           by right.
    + split.
      * eexists [_; _]. split; [cbn; by rewrite <- !app_assoc|]. by repeat constructor.
      * intros _. split; [done|]. cbn. rewrite !elem_of_app, !list_elem_of_singleton.
        by right.
  - intros l1 l2 Hsrc Hall Hex Hacc Hchunks Hsched.
    assert (Hsum : get_max_iterations (source_batches env) = Zsum (l1 ++ l2)).
    { unfold get_max_iterations. rewrite Hsrc, !Zsum_app. unfold Zsum. cbn. lia. }
    pose proof (Zsum_pos _ Hall Hex) as Hpos.
    split; [done|]. split; [lia|].
    set (max_iterations := get_max_iterations (source_batches env)) in *.
    set (updates_per_epoch := max_iterations / gradient_accumulation_steps (train cfg)).
    (* The state reached once the passages are loaded and the count is logged. *)
    assert (Hpre : ∃ all_passages t2,
      start_epoch t2 = start_epoch t ∧ scheduler_state t2 = scheduler_state t
      ∧ ∀ e, e ∈ trace (snd (
               (if bool_decide (max_iterations = 0)
                then emit (LogWarning "No data found for training.")
                else
                  updates_per_epoch <-
                    lift (py_floordiv max_iterations
                            (gradient_accumulation_steps (train cfg))) ;;
                  let total_updates := updates_per_epoch * num_train_epochs (train cfg) in
                  t <- get ;;
                  (match scheduler_state t with
                   | Some st =>
                       if truthy_dict st then
                         shift <- lift (getitemZ st "last_epoch") ;;
                         emit (SchedulerBuilt (warmup_steps (train cfg)) total_updates shift)
                       else emit (SchedulerBuilt (warmup_steps (train cfg)) total_updates 0)
                   | None => emit (SchedulerBuilt (warmup_steps (train cfg)) total_updates 0)
                   end) ;;;
                  eval_step <- lift (py_ceil_div updates_per_epoch
                                       (eval_per_epoch (train cfg))) ;;
                  epoch_loop cfg env eval_step all_passages
                    (seqZ (start_epoch t)
                          (num_train_epochs (train cfg) - start_epoch t)) ;;;
                  when (rank_in_m1_0 cfg)
                    (t <- get ;;
                     emit (LogInfo ("Training finished. Best validation checkpoint "
                                      +:+ default "None" (best_cp_name t))))) t2))
             → e ∈ trace (snd (run_train cfg env t))).
    { unfold run_train. fold max_iterations.
      destruct (truthy_str (customer_chunks cfg)) eqn:Hc.
      - rewrite (bool_decide_eq_false_2 (customer_chunk_files env = []))
          by (apply Hchunks; first [exact Hc | reflexivity]).
        eexists (customer_passages env), _. split; [|split]; [| |intros e He; exact He];
          reflexivity.
      - eexists [], _. split; [|split]; [| |intros e He; exact He]; reflexivity. }
    destruct Hpre as (all_passages & t2 & Hse & Hss & Hpre).
    rewrite (bool_decide_eq_false_2 (max_iterations = 0)) in Hpre by lia.
    rewrite py_floordiv_nonzero in Hpre by done. fold updates_per_epoch in Hpre.
    (* The state reached once the scheduler is built. *)
    assert (Hsb : ∃ shift t3,
      (match scheduler_state t2 with
       | Some st =>
           if truthy_dict st then
             shift <- lift (getitemZ st "last_epoch") ;;
             emit (SchedulerBuilt (warmup_steps (train cfg))
                     (updates_per_epoch * num_train_epochs (train cfg)) shift)
           else emit (SchedulerBuilt (warmup_steps (train cfg))
                        (updates_per_epoch * num_train_epochs (train cfg)) 0)
       | None => emit (SchedulerBuilt (warmup_steps (train cfg))
                         (updates_per_epoch * num_train_epochs (train cfg)) 0)
       end) t2 = (Ok tt, t3)
      ∧ SchedulerBuilt (warmup_steps (train cfg))
          (updates_per_epoch * num_train_epochs (train cfg)) shift ∈ trace t3).
    { rewrite Hss. destruct (scheduler_state t) as [st|] eqn:Hst.
      - destruct (truthy_dict st) eqn:Htr.
        + destruct (Hsched st eq_refl Htr) as [shift Hshift].
          exists shift. eexists. unfold getitemZ. rewrite Hshift.
          split; [reflexivity|]. cbn. apply elem_of_app. right. by left.
        + exists 0. eexists. split; [reflexivity|]. cbn. apply elem_of_app. right. by left.
      - exists 0. eexists. split; [reflexivity|]. cbn. apply elem_of_app. right. by left. }
    destruct Hsb as (shift & t3 & Hsb & Hin).
    split.
    + eexists _, shift. apply Hpre.
      eapply elem_of_bind_step; [reflexivity|].
      eapply elem_of_bind_step; [reflexivity|].
      eapply elem_of_bind_step; [exact Hsb|].
      apply elem_of_grows; [|exact Hin].
      apply grows_bind; [apply grows_lift|]. intros eval_step.
      apply grows_bind; [apply grows_epoch_loop|]. intros _.
      apply grows_when, grows_bind; [apply grows_get|]. intros. apply grows_emit.
    + intros Hepe Hepochs. apply Hpre.
      eapply elem_of_bind_step; [reflexivity|].
      eapply elem_of_bind_step; [reflexivity|].
      eapply elem_of_bind_step; [exact Hsb|].
      rewrite py_ceil_div_nonzero by done.
      eapply elem_of_bind_step; [reflexivity|].
      rewrite Hse. rewrite seqZ_cons by lia. cbn [epoch_loop].
      unfold bind at 1.
      match goal with
      | |- context [(bind (emit ?e) ?k) ?u] =>
          change ((bind (emit e) k) u) with (k tt (log_event e u))
      end.
      match goal with
      | |- _ ∈ trace (snd (match ?m ?u with _ => _ end)) =>
          assert (Hg : EpochStarted (start_epoch t) ∈ trace (snd (m u)))
      end.
      { apply elem_of_grows.
        - apply grows_bind; [apply grows_train_epoch|]. intros.
          apply grows_bind; [apply grows_emit|]. intros. apply grows_epoch_loop.
        - cbn. apply elem_of_app. right. by left. }
      match goal with
      | |- _ ∈ trace (snd (match ?x with _ => _ end)) => destruct x as [[[]|ex] t5]
      end; cbn [snd] in Hg |- *; [|done].
      apply elem_of_grows; [|exact Hg].
      apply grows_when, grows_bind; [apply grows_get|]. intros. apply grows_emit.
Qed.

Lemma validation_cadence_counterexample :
  let c := Sample.cfg_end_of_epoch_only in
  let e := Sample.env [2; 0] (fun _ => Sample.dev_run 1 [2; 1]%Q) in
  snd (main c e) = Ok tt
  ∧ py_ceil_div (get_max_iterations (source_batches e)
                   / gradient_accumulation_steps (train c))
                (eval_per_epoch (train c)) = Ok 1
  ∧ TrainStep 0 1 ∈ fst (main c e)
  ∧ 1 mod 1 = 0
  ∧ ∀ save, (0, 1, save) ∉ validation_runs (fst (main c e)).
Proof.
  intros c e.
  assert (Hruns : validation_runs (fst (main c e)) = [(0, 2, true); (1, 2, true)])
    by (vm_compute; reflexivity).
  split; [vm_compute; reflexivity|].
  split; [vm_compute; reflexivity|].
  split.
  { assert (Hin : fst (main c e) !! 7%nat = Some (TrainStep 0 1))
      by (vm_compute; reflexivity).
    by eapply list_elem_of_lookup_2. }
  split; [reflexivity|].
  intros save Hin. rewrite Hruns in Hin.
  apply elem_of_cons in Hin as [Hin|Hin]; [discriminate|].
  apply elem_of_cons in Hin as [Hin|Hin]; [discriminate|].
  by apply elem_of_nil in Hin.
Qed.

Lemma sample_dev_runs_ok n epoch all_passages :
  is_ok (validation_measures Sample.cfg argsort
           ((fun _ : nat => Sample.dev_run 1 [2; 1]%Q) n) epoch all_passages) = true.
Proof.
  unfold validation_measures.
  change (validate_nll Sample.cfg (nll_batches (Sample.dev_run 1 [2; 1]%Q)))
    with (Ok ({[ "Dev NLL loss" := 1%Q; "Dev Total Samples" := 1%Q;
                 "Dev Total Correct Predictions" := 1%Q;
                 "Dev Correct Predictions Ratio" := 1%Q ]} : gmap string Q)).
  change (validate_average_rank Sample.cfg argsort _ _ _) with (Ok 0%Q).
  rewrite bool_decide_eq_false_2 by discriminate.
  cbn [rbind]. destruct all_passages; cbn [rbind].
  - case_decide; [reflexivity|].
    unfold getitem. rewrite lookup_insert_ne by done. reflexivity.
  - rewrite ir_metrics_p30. cbn [rbind]. case_decide; [reflexivity|].
    unfold getitem. rewrite lookup_insert_ne by done.
    rewrite lookup_union_r by apply ir_metrics_no_nll. reflexivity.
Defined.

Lemma run_train_validation_cadence_witness :
  let env := Sample.env [2; 0] (fun _ => Sample.dev_run 1 [2; 1]%Q) in
  py_ceil_div (2 / 1) 2 = Ok (- (- (2 / 1) / 2))
  ∧ (0 < 2 → 2 * (- (- (2 / 1) / 2) - 1) < 2 / 1 <= 2 * - (- (2 / 1) / 2))
  ∧ ∃ t',
      run_train Sample.cfg env Sample.trainer = (Ok tt, t')
      ∧ validation_runs (trace t')
        = validation_runs (trace Sample.trainer)
            ++ concat (epoch_validations Sample.cfg env (- (- (2 / 1) / 2))
                         <$> seqZ 0 (2 - 0)).
Proof.
  intros env.
  apply (run_train_validation_cadence Sample.cfg env Sample.trainer "out");
    try reflexivity; try discriminate.
  exact sample_dev_runs_ok.
Defined.

Lemma run_train_without_data_witness :
  (LogWarning "No data found for training."
     ∈ trace (snd (run_train Sample.cfg
                     (Sample.env [0; 0] (fun _ => Sample.dev_run 1 [2; 1]%Q))
                     Sample.trainer)))
  ∧ ∃ total_updates shift,
      SchedulerBuilt 0 total_updates shift
        ∈ trace (snd (run_train Sample.cfg
                        (Sample.env [2; 0] (fun _ => Sample.dev_run 1 [2; 1]%Q))
                        Sample.trainer)).
Proof.
  split.
  - apply (proj1 (run_train_without_data Sample.cfg
                    (Sample.env [0; 0] (fun _ => Sample.dev_run 1 [2; 1]%Q))
                    Sample.trainer)); [reflexivity|discriminate].
  - apply (proj2 (run_train_without_data Sample.cfg
                    (Sample.env [2; 0] (fun _ => Sample.dev_run 1 [2; 1]%Q))
                    Sample.trainer) [2] []).
    + reflexivity.
    + repeat constructor. discriminate.
    + constructor. reflexivity.
    + discriminate.
    + discriminate.
    + discriminate.
Defined.

(** ** Resuming from a checkpoint *)

Lemma load_saved_state_counterexample :
  (¬ ∀ cfg s t,
       cp_offset s = 0 →
       start_epoch (snd (_load_saved_state cfg s t)) = cp_epoch s + 1)
  ∧ (¬ ∃ f : ResumeFlag, ∀ cfg s t,
         flag_value f cfg = true →
         let t' := snd (_load_saved_state cfg s t) in
         start_epoch t' = 0
         ∧ optimizer_state t' = optimizer_state t
         ∧ scheduler_state t' = scheduler_state t).
Proof.
  split.
  - intros H.
    specialize (H (Sample.cfg_with 0 None 30 [] true false (Sample.train_cfg 1 true))
                  Sample.checkpoint Sample.trainer eq_refl).
    vm_compute in H. discriminate.
  - intros [[] H].
    + destruct (H (Sample.cfg_with 0 None 30 [] true false (Sample.train_cfg 1 true))
                  Sample.checkpoint Sample.trainer eq_refl) as (_ & _ & Hs).
      vm_compute in Hs. discriminate.
    + destruct (H (Sample.cfg_with 0 None 30 [] false true (Sample.train_cfg 1 true))
                  Sample.checkpoint Sample.trainer eq_refl) as (He & _).
      vm_compute in He. discriminate.
Qed.

(** C7 (as amended). Loading a checkpoint always sets [start_batch] to 0
    and installs the stored model weights.  Unless
    [ignore_checkpoint_offset] is set, the start epoch is the stored
    epoch, plus one when the stored offset is 0; when it is set, the
    start epoch is 0.  A second switch, [ignore_checkpoint_optimizer],
    decides about the stored optimizer and scheduler states: when set,
    both are left aside; when not set, each is restored if it is not
    empty.  With both switches set only the model weights are restored. *)
Theorem load_saved_state_resume (cfg : Cfg) (s : CheckpointState) (t : Trainer) :
  let t' := snd (_load_saved_state cfg s t) in
  fst (_load_saved_state cfg s t) = Ok tt
  ∧ start_batch t' = 0
  ∧ biencoder_state t' = model_dict s
  ∧ (ignore_checkpoint_offset cfg = false →
       start_epoch t' = if bool_decide (cp_offset s = 0)
                        then cp_epoch s + 1 else cp_epoch s)
  ∧ (ignore_checkpoint_offset cfg = true → start_epoch t' = 0)
  ∧ (ignore_checkpoint_optimizer cfg = true →
       optimizer_state t' = optimizer_state t
       ∧ scheduler_state t' = scheduler_state t)
  ∧ (ignore_checkpoint_optimizer cfg = false →
       optimizer_state t'
       = (if truthy_dict (optimizer_dict s) then optimizer_dict s
          else optimizer_state t)
       ∧ scheduler_state t'
         = (if truthy_dict (scheduler_dict s) then Some (scheduler_dict s)
            else scheduler_state t))
  ∧ (ignore_checkpoint_offset cfg = true → ignore_checkpoint_optimizer cfg = true →
       t' = mkTrainer 0 0 (scheduler_state t) (best_validation_result t)
                      (best_cp_name t) (model_dict s) (optimizer_state t)
                      (validations_run t) (trace t)).
Proof.
  unfold _load_saved_state, bind, modify, when, ret.
  destruct (ignore_checkpoint_offset cfg), (ignore_checkpoint_optimizer cfg),
    (truthy_dict (optimizer_dict s)), (truthy_dict (scheduler_dict s));
    cbn; repeat split; intros; try discriminate; reflexivity.
Qed.

Lemma load_saved_state_resume_witness :
  let cfg := Sample.cfg_with 0 None 30 [] true true (Sample.train_cfg 1 true) in
  let cfg' := Sample.cfg_with 0 None 30 [] false false (Sample.train_cfg 1 true) in
  snd (_load_saved_state cfg Sample.checkpoint Sample.trainer)
  = mkTrainer 0 0 None None None (model_dict Sample.checkpoint) ∅ 0 []
  ∧ start_epoch (snd (_load_saved_state cfg' Sample.checkpoint Sample.trainer)) = 4
  ∧ start_batch (snd (_load_saved_state cfg' Sample.checkpoint Sample.trainer)) = 0.
Proof.
  intros cfg cfg'.
  pose proof (load_saved_state_resume cfg Sample.checkpoint Sample.trainer)
    as (_ & _ & _ & _ & _ & _ & _ & Hboth).
  pose proof (load_saved_state_resume cfg' Sample.checkpoint Sample.trainer)
    as (_ & Hbatch & _ & Hepoch & _).
  split; [exact (Hboth eq_refl eq_refl)|].
  split; [exact (Hepoch eq_refl)|exact Hbatch].
Defined.

(** ** Start-up *)

(** C9. With [gradient_accumulation_steps] below 1, [main] ends in an
    exception before the trainer is constructed: nothing but the two
    experiment-tracking calls has happened, and when those went through
    the exception is the [ValueError] naming the parameter and its
    value.  Nothing is attempted a second time. *)
Theorem main_rejects_gradient_accumulation (cfg : Cfg) (env : Env) :
  gradient_accumulation_steps (train cfg) < 1 →
  is_ok (snd (main cfg env)) = false
  ∧ Forall (fun e => e = WandbLogin ∨ e = WandbInit) (fst (main cfg env))
  ∧ (∀ key, wandb_api_key env = Some key →
       main cfg env
       = ([WandbLogin; WandbInit],
          Raise (ValueError ("Invalid gradient_accumulation_steps parameter: "
                               +:+ str (gradient_accumulation_steps (train cfg))
                               +:+ ", should be >= 1")))).
Proof.
  intros Hlt. unfold main.
  destruct (wandb_api_key env) as [key|].
  - destruct (decide (gradient_accumulation_steps (train cfg) < 1)) as [_|]; [|done].
    split; [done|]. split; [|done]. cbn.
    constructor; [by left|]. constructor; [by right|]. constructor.
  - split; [done|]. split; [constructor|]. intros key [=].
Qed.

Lemma main_rejects_gradient_accumulation_witness :
  main (Sample.cfg_with 0 None 30 [] false false (Sample.train_cfg 0 true))
       (Sample.env [2; 0] (fun _ => Sample.dev_run 1 [2; 1]%Q))
  = ([WandbLogin; WandbInit],
     Raise (ValueError
              "Invalid gradient_accumulation_steps parameter: 0, should be >= 1")).
Proof.
  apply (proj2 (proj2 (main_rejects_gradient_accumulation
                         (Sample.cfg_with 0 None 30 [] false false
                                          (Sample.train_cfg 0 true))
                         (Sample.env [2; 0] (fun _ => Sample.dev_run 1 [2; 1]%Q))
                         eq_refl)) "key").
  reflexivity.
Defined.

(** ** Flattening the configuration *)

Lemma CfgValue_nested_ind (P : CfgValue → Prop) :
  (∀ x, P (Scalar x)) →
  (∀ d, Forall (fun kv => P kv.2) d → P (Mapping d)) →
  ∀ v, P v.
Proof.
  intros HS HM. fix IH 1. intros [x|d]; [apply HS|].
  apply HM. induction d as [|[k v] d IHd]; constructor; [apply IH|exact IHd].
Qed.

Lemma dict_snoc (l : list (string * Z)) k v :
  dict (l ++ [(k, v)]) = <[k := v]> (dict l).
Proof. unfold dict. by rewrite foldl_app. Qed.

Lemma dict_app (l1 l2 : list (string * Z)) : dict (l1 ++ l2) = dict l2 ∪ dict l1.
Proof.
  induction l2 as [|[k v] l2 IH] using rev_ind.
  - rewrite app_nil_r. change (dict []) with (∅ : gmap string Z).
    by rewrite (left_id_L ∅ (∪)).
  - rewrite app_assoc, !dict_snoc, IH. by rewrite insert_union_l.
Qed.

Lemma dict_list_to_map (l : list (string * Z)) : dict l = list_to_map (reverse l).
Proof.
  induction l as [|[k v] l IH] using rev_ind; [done|].
  by rewrite dict_snoc, reverse_snoc, IH.
Qed.

(** Making a dict of the items of a dict gives the dict back. *)
Lemma dict_map_to_list (m : gmap string Z) : dict (map_to_list m) = m.
Proof.
  rewrite dict_list_to_map.
  rewrite <- (list_to_map_to_list m) at 2.
  apply list_to_map_proper; [|apply reverse_Permutation].
  rewrite fmap_reverse, reverse_Permutation. apply NoDup_fst_map_to_list.
Qed.

Lemma dict_flat_map {A} (f g : A → list (string * Z)) (d : list A) :
  Forall (fun a => dict (f a) = dict (g a)) d →
  dict (flat_map f d) = dict (flat_map g d).
Proof.
  induction 1 as [|a d Ha _ IH]; [done|].
  cbn [flat_map]. by rewrite !dict_app, Ha, IH.
Qed.

Lemma flatten_value_leaves sep key v :
  dict (flatten_value sep key v) = dict (leaves_value sep key v).
Proof.
  revert key. induction v as [x|d IH] using CfgValue_nested_ind; intros key; [done|].
  cbn [flatten_value leaves_value]. rewrite dict_map_to_list.
  apply dict_flat_map. eapply Forall_impl; [exact IH|]. intros kv Hkv. apply Hkv.
Qed.

Lemma dict_lookup_elem (l : list (string * Z)) k v :
  dict l !! k = Some v → (k, v) ∈ l.
Proof.
  rewrite dict_list_to_map. intros H.
  apply elem_of_list_to_map_2 in H. by apply elem_of_reverse.
Qed.

Lemma dict_elem_lookup (l : list (string * Z)) k v :
  NoDup (l.*1) → (k, v) ∈ l → dict l !! k = Some v.
Proof.
  intros Hnd Hin. rewrite dict_list_to_map.
  apply elem_of_list_to_map_1.
  - by rewrite fmap_reverse, reverse_Permutation.
  - by apply elem_of_reverse.
Qed.

(** X1. [flatten_dict] returns the dict of the scalars of [d] under their
    joined keys, read from left to right, a later scalar replacing an
    earlier one with the same joined key: the dicts built for the nested
    mappings on the way do not show in the result.  So every entry of the
    result is a scalar of [d] under its joined key, and when the joined
    keys are pairwise different every scalar of [d] is in the result. *)
Theorem flatten_dict_leaves (d : list (string * CfgValue)) (parent_key sep : string) :
  flatten_dict d parent_key sep = dict (leaves d parent_key sep)
  ∧ (∀ k v, flatten_dict d parent_key sep !! k = Some v →
            (k, v) ∈ leaves d parent_key sep)
  ∧ (NoDup (leaves d parent_key sep).*1 →
     ∀ k v, (k, v) ∈ leaves d parent_key sep →
            flatten_dict d parent_key sep !! k = Some v).
Proof.
  assert (H : flatten_dict d parent_key sep = dict (leaves d parent_key sep)).
  { unfold flatten_dict, leaves. apply dict_flat_map.
    apply Forall_forall. intros kv _. apply flatten_value_leaves. }
  split; [exact H|]. rewrite H. split.
  - intros k v. apply dict_lookup_elem.
  - intros Hnd k v. by apply dict_elem_lookup.
Qed.

(** X2. A mapping stored under the empty key at the top level is
    flattened into the top level: the empty key counts as no parent key,
    so the entries of the mapping get no prefix. *)
Theorem flatten_dict_empty_key (d : list (string * CfgValue)) (sep : string) :
  flatten_dict [("", Mapping d)] "" sep = flatten_dict d "" sep.
Proof.
  unfold flatten_dict at 1. cbn [flat_map fst snd flatten_value].
  rewrite app_nil_r, dict_map_to_list. reflexivity.
Qed.

(** ** Command-line arguments *)

Lemma substring_all (s : string) : String.substring 0 (String.length s) s = s.
Proof. induction s as [|c s IH]; [done|]. cbn. by rewrite IH. Qed.

Lemma prefix_append (s1 s2 : string) : String.prefix s1 (s1 +:+ s2) = true.
Proof.
  induction s1 as [|a s1 IH]; [by destruct s2|].
  change (String a s1 +:+ s2) with (String a (s1 +:+ s2)). cbn [String.prefix].
  destruct (Ascii.ascii_dec a a) as [_|Hn]; [exact IH|by destruct Hn].
Qed.

Lemma length_append (s1 s2 : string) :
  String.length (s1 +:+ s2) = (String.length s1 + String.length s2)%nat.
Proof.
  induction s1 as [|a s1 IH]; [done|].
  change (String a s1 +:+ s2) with (String a (s1 +:+ s2)). cbn. by rewrite IH.
Qed.

Lemma substring_append (s1 s2 : string) :
  String.substring (String.length s1) (String.length s2) (s1 +:+ s2) = s2.
Proof.
  induction s1 as [|a s1 IH]; [apply substring_all|].
  change (String a s1 +:+ s2) with (String a (s1 +:+ s2)). exact IH.
Qed.

Lemma hydra_formatted_arg_dashes (s : string) : hydra_formatted_arg ("--" +:+ s) = s.
Proof.
  unfold hydra_formatted_arg. rewrite prefix_append, length_append.
  replace (String.length "--" + String.length s - String.length "--")%nat
    with (String.length s) by lia.
  apply substring_append.
Qed.

(** X3. The conversion of [sys.argv] for Hydra keeps the number and the
    order of the arguments, takes exactly one leading "--" off an
    argument that has one, whatever follows it, and leaves every other
    argument as it is. *)
Theorem hydra_formatted_args_strip (argv : list string) :
  length (hydra_formatted_args argv) = length argv
  ∧ hydra_formatted_args ((fun s => "--" +:+ s) <$> argv) = argv
  ∧ (∀ i arg, argv !! i = Some arg → String.prefix "--" arg = false →
              hydra_formatted_args argv !! i = Some arg).
Proof.
  unfold hydra_formatted_args. split; [apply length_fmap|]. split.
  - rewrite <- list_fmap_compose. rewrite <- (list_fmap_id argv) at 2.
    apply list_fmap_ext. intros _ s _. apply hydra_formatted_arg_dashes.
  - intros i arg Hi Hp. rewrite list_lookup_fmap, Hi. cbn.
    unfold hydra_formatted_arg. by rewrite Hp.
Qed.

(** ** Encoding the dev questions and passages *)

Lemma py_range0_pos (stop step : Z) :
  0 < step →
  py_range0 stop step = Ok ((fun i => i * step) <$> seqZ 0 ((stop + step - 1) / step)).
Proof. intros H. unfold py_range0. repeat case_decide; try lia. done. Qed.


Lemma chunk_count_zero (n : nat) (s : Z) :
  0 < s → 0 = (Z.of_nat n + s - 1) / s → n = 0%nat.
Proof.
  intros Hs H. destruct n as [|n]; [done|]. exfalso.
  assert (0 < (Z.of_nat (S n) + s - 1) / s); [|lia].
  apply Z.div_str_pos. lia.
Qed.

Lemma chunk_count_step (n k : nat) (s : Z) :
  0 < s → Z.of_nat (S k) = (Z.of_nat n + s - 1) / s →
  Z.of_nat k = (Z.of_nat (n - Z.to_nat s) + s - 1) / s.
Proof.
  intros Hs Hk. destruct (decide (Z.of_nat n < s)) as [Hlt|Hge].
  - assert (n ≠ 0%nat).
    { intros Hn. rewrite Hn in Hk. change (Z.of_nat 0) with 0 in Hk.
      rewrite Z.div_small in Hk by lia. lia. }
    assert (Z.of_nat (S k) = 1).
    { rewrite Hk. symmetry. apply Z.div_unique with (r := Z.of_nat n - 1); lia. }
    replace (n - Z.to_nat s)%nat with 0%nat by lia.
    change (Z.of_nat 0) with 0. rewrite Z.div_small by lia. lia.
  - replace (Z.of_nat (n - Z.to_nat s)) with (Z.of_nat n - s) by lia.
    replace (Z.of_nat n + s - 1) with (Z.of_nat n - s + s - 1 + 1 * s) in Hk by lia.
    rewrite Z.div_add in Hk by lia. lia.
Qed.

Lemma chunk_count_nat (n : nat) (s : Z) :
  0 < s → ∃ k : nat, Z.of_nat k = (Z.of_nat n + s - 1) / s.
Proof.
  intros Hs. exists (Z.to_nat ((Z.of_nat n + s - 1) / s)).
  rewrite Z2Nat.id; [done|]. apply Z.div_pos; lia.
Qed.

Section EncodeFacts.
Context {Smp Qn Cx V : Type}.
Variable create_biencoder_input2 : list Smp → Z → Z → Batch Qn Cx.
Variable question_encoder : nat → Qn → V.
Variable ctx_encoder : nat → Cx → V.
Variable cfg : Cfg.
Variable rcfg : RankCfg.

(** From the second pass on the sub-batch loop only adds passage vectors:
    those of the passages not yet sliced, whatever the slice size. *)
Lemma encode_sub_batches_rest (ds : nat) (b : Batch Qn Cx) (k : nat) :
  0 < val_av_rank_bsz rcfg →
  ∀ (a : Z) (acc : list V * list V) (j : nat),
    0 <= a → (0 < j)%nat →
    Z.of_nat k
    = (Z.of_nat (length (drop (Z.to_nat (a * val_av_rank_bsz rcfg)) (context_ids b)))
       + val_av_rank_bsz rcfg - 1) / val_av_rank_bsz rcfg →
    encode_sub_batches question_encoder ctx_encoder rcfg ds b acc j
      ((fun i => i * val_av_rank_bsz rcfg) <$> seqZ a (Z.of_nat k))
    = (acc.1,
       acc.2 ++ (ctx_encoder ds
                   <$> drop (Z.to_nat (a * val_av_rank_bsz rcfg)) (context_ids b))).
Proof.
  intros Hs. set (s := val_av_rank_bsz rcfg) in *.
  induction k as [|k IH]; intros a acc j Ha Hj Hk.
  - apply chunk_count_zero in Hk; [|done]. apply nil_length_inv in Hk.
    rewrite Hk. cbn. by rewrite app_nil_r, <- surjective_pairing.
  - rewrite seqZ_cons by lia. cbn [fmap list_fmap encode_sub_batches].
    replace (Z.pred (Z.of_nat (S k))) with (Z.of_nat k) by lia.
    rewrite (IH (Z.succ a)); [| lia | lia |].
    + unfold encode_sub_batch. rewrite (bool_decide_eq_false_2 (j = 0%nat)) by lia.
      cbn [andb fmap option_fmap option_map fst snd]. f_equal.
      rewrite <- app_assoc. f_equal. rewrite <- fmap_app. f_equal.
      unfold py_slice. fold s.
      replace (Z.to_nat (Z.succ a * s)) with (Z.to_nat (a * s) + Z.to_nat s)%nat by nia.
      rewrite <- drop_drop. apply take_drop.
    + replace (Z.to_nat (Z.succ a * s)) with (Z.to_nat (a * s) + Z.to_nat s)%nat by nia.
      rewrite <- drop_drop, length_drop. by apply chunk_count_step.
Qed.

(** The sub-batch loop of one batch adds the batch's question vectors and
    passage vectors, the same for every positive slice size. *)
Lemma encode_sub_batches_parts (ds : nat) (b : Batch Qn Cx) (acc : list V * list V) :
  0 < val_av_rank_bsz rcfg →
  ∃ starts,
    py_range0 (Z.of_nat (length (context_ids b))) (val_av_rank_bsz rcfg) = Ok starts
    ∧ encode_sub_batches question_encoder ctx_encoder rcfg ds b acc 0 starts
      = (acc.1 ++ q_part question_encoder rcfg b ds,
         acc.2 ++ ctx_part ctx_encoder rcfg b ds).
Proof.
  intros Hs. rewrite py_range0_pos by done. eexists. split; [reflexivity|].
  set (s := val_av_rank_bsz rcfg) in *.
  destruct (chunk_count_nat (length (context_ids b)) s Hs) as [k Hk].
  rewrite <- Hk. unfold q_part, ctx_part. fold s.
  destruct k as [|k].
  - apply chunk_count_zero in Hk; [|done]. apply nil_length_inv in Hk.
    rewrite Hk. cbn. rewrite drop_nil.
    destruct (dp_single_question rcfg _); cbn; by rewrite !app_nil_r, <- surjective_pairing.
  - assert (Hne : context_ids b ≠ []).
    { intros E. rewrite E in Hk. cbn in Hk. rewrite Z.div_small in Hk by lia. lia. }
    rewrite (bool_decide_eq_false_2 (context_ids b = [])) by done. cbn [orb].
    rewrite seqZ_cons by lia. cbn [fmap list_fmap encode_sub_batches].
    replace (Z.pred (Z.of_nat (S k))) with (Z.of_nat k) by lia.
    rewrite (encode_sub_batches_rest ds b k Hs 1); [| lia | lia |].
    + change (Z.succ 0) with 1. rewrite Z.mul_1_l. fold s.
      unfold encode_sub_batch, dp_single_question.
      rewrite (bool_decide_eq_true_2 (0%nat = 0%nat)) by done. cbn [andb].
      destruct (bool_decide (n_gpu rcfg > 1)
                && bool_decide (length (question_ids b) = 1%nat)); cbn [fst snd].
      * by rewrite app_nil_r.
      * cbn. f_equal. rewrite <- app_assoc, <- fmap_app. do 2 f_equal.
        unfold py_slice. fold s. cbn [Z.to_nat Z.mul]. rewrite drop_0. apply take_drop.
    + change (Z.succ 0) with 1. rewrite Z.mul_1_l. fold s. rewrite length_drop.
      by apply chunk_count_step.
Qed.

Lemma encode_loop_outcome (without_negatives return_samples : bool)
    (batches : list (list Smp * nat)) :
  0 < val_av_rank_bsz rcfg →
  Forall (fun sb => (sb.2 < length (dev_datasets cfg))%nat) batches →
  ∀ st,
    let P := within_cap question_encoder cfg rcfg (length (enc_q st))
                        (built_batches rcfg create_biencoder_input2 without_negatives batches) in
    encode_loop create_biencoder_input2 question_encoder ctx_encoder cfg rcfg
                without_negatives return_samples batches st
    = Ok (mkEncoded
            (enc_q st ++ flat_map (fun bd => q_part question_encoder rcfg bd.1 bd.2) P)
            (enc_ctx st ++ flat_map (fun bd => ctx_part ctx_encoder rcfg bd.1 bd.2) P)
            (enc_positive_idx st
               ++ positives_from ctx_encoder rcfg (length (enc_ctx st)) P)
            (if return_samples
             then enc_samples st ++ concat (fst <$> take (length P) batches)
             else enc_samples st)).
Proof.
  intros Hs Hds. induction Hds as [|[samples ds] batches Hd _ IH]; intros st.
  - cbn. rewrite !app_nil_r. destruct st, return_samples; cbn; by rewrite ?app_nil_r.
  - cbn [encode_loop built_batches fmap list_fmap within_cap fst snd].
    destruct (Qltb _ _).
    { cbn. rewrite !app_nil_r. destruct st, return_samples; cbn; by rewrite ?app_nil_r. }
    cbn in Hd. rewrite bool_decide_eq_false_2 by lia.
    set (b := create_biencoder_input2 samples _ _).
    destruct (encode_sub_batches_parts ds b (enc_q st, enc_ctx st) Hs)
      as (starts & -> & Hparts).
    cbn [rbind]. rewrite Hparts. cbn [fst snd].
    rewrite IH. cbn [enc_q enc_ctx enc_positive_idx enc_samples].
    rewrite !length_app. cbn [length take fmap list_fmap concat flat_map positives_from
      fst snd].
    f_equal. rewrite <- !app_assoc.
    destruct return_samples; [by rewrite <- !app_assoc|done].
Qed.

Lemma encode_run_outcome (without_negatives return_samples : bool)
    (batches : list (list Smp * nat)) :
  0 < val_av_rank_bsz rcfg →
  Forall (fun sb => (sb.2 < length (dev_datasets cfg))%nat) batches →
  encode_loop create_biencoder_input2 question_encoder ctx_encoder cfg rcfg
              without_negatives return_samples batches (mkEncoded [] [] [] [])
  = Ok (encode_outcome question_encoder ctx_encoder cfg rcfg create_biencoder_input2
                       without_negatives return_samples batches).
Proof.
  intros Hs Hds.
  rewrite (encode_loop_outcome without_negatives return_samples batches Hs Hds).
  cbn. unfold encode_outcome. by destruct return_samples.
Qed.

Lemma encode_returns_outcome (without_negatives return_samples : bool)
    (batches : list (list Smp * nat)) (st : Encoded Smp V) :
  0 < val_av_rank_bsz rcfg →
  Forall (fun sb => (sb.2 < length (dev_datasets cfg))%nat) batches →
  _encode_questions_and_passages create_biencoder_input2 question_encoder ctx_encoder
    cfg rcfg without_negatives return_samples batches = Ok st →
  st = encode_outcome question_encoder ctx_encoder cfg rcfg create_biencoder_input2
                      without_negatives return_samples batches.
Proof.
  intros Hs Hds. unfold _encode_questions_and_passages.
  rewrite encode_run_outcome by done. cbn [rbind].
  destruct (_ || _); congruence.
Qed.


Lemma positives_from_app (total : nat) (P1 P2 : list (Batch Qn Cx * nat)) :
  positives_from ctx_encoder rcfg total (P1 ++ P2)
  = positives_from ctx_encoder rcfg total P1
    ++ positives_from ctx_encoder rcfg
         (total + length (flat_map (fun bd => ctx_part ctx_encoder rcfg bd.1 bd.2) P1)) P2.
Proof.
  revert total. induction P1 as [|[b ds] P1 IH]; intros total.
  - cbn. by rewrite Nat.add_0_r.
  - cbn [app positives_from flat_map fst snd]. rewrite IH, length_app, <- app_assoc.
    by rewrite Nat.add_assoc.
Qed.

(** X5.  In the result of [_encode_questions_and_passages] the positive
    index recorded for a question points at the vector of that question's
    gold passage, and the question's own vector sits at the question's
    place among the encoded questions, for every batch that the
    data-parallel guard does not skip. *)
Theorem encode_positive_points_at_gold
    (without_negatives return_samples : bool) (batches : list (list Smp * nat))
    (st : Encoded Smp V) (P1 P2 : list (Batch Qn Cx * nat)) (b : Batch Qn Cx)
    (ds i v : nat) (q : Qn) (c : Cx) :
  0 < val_av_rank_bsz rcfg →
  Forall (fun sb => (sb.2 < length (dev_datasets cfg))%nat) batches →
  _encode_questions_and_passages create_biencoder_input2 question_encoder ctx_encoder
    cfg rcfg without_negatives return_samples batches = Ok st →
  within_cap question_encoder cfg rcfg 0
    (built_batches rcfg create_biencoder_input2 without_negatives batches)
  = P1 ++ (b, ds) :: P2 →
  dp_single_question rcfg b = false →
  question_ids b !! i = Some q →
  is_positive b !! i = Some v →
  context_ids b !! v = Some c →
  let g := (length (flat_map (fun bd => ctx_part ctx_encoder rcfg bd.1 bd.2) P1) + v)%nat in
  enc_positive_idx st !! (length (positives_from ctx_encoder rcfg 0 P1) + i)%nat = Some g
  ∧ enc_ctx st !! g = Some (ctx_encoder ds c)
  ∧ enc_q st !! (length (flat_map (fun bd => q_part question_encoder rcfg bd.1 bd.2) P1) + i)%nat
    = Some (question_encoder ds q).
Proof.
  intros Hs Hds Hrun HP Hdp Hq Hi Hc g.
  apply encode_returns_outcome in Hrun; [|done..]. subst st.
  unfold encode_outcome. rewrite HP. cbn [enc_positive_idx enc_ctx enc_q].
  rewrite positives_from_app, !flat_map_app. cbn [positives_from flat_map fst snd].
  assert (Hne : context_ids b ≠ []) by (intros E; by rewrite E in Hc).
  split; [|split].
  - rewrite lookup_app_r by lia.
    replace (_ + i - _)%nat with i by lia.
    rewrite lookup_app_l by (rewrite length_fmap; by eapply lookup_lt_Some).
    rewrite list_lookup_fmap, Hi. cbn. done.
  - rewrite lookup_app_r by (unfold g; lia).
    replace (g - _)%nat with v by (unfold g; lia).
    unfold ctx_part. rewrite Hdp.
    rewrite lookup_app_l by (rewrite length_fmap; by eapply lookup_lt_Some).
    by rewrite list_lookup_fmap, Hc.
  - rewrite lookup_app_r by lia.
    replace (_ + i - _)%nat with i by lia.
    unfold q_part. rewrite Hdp, bool_decide_eq_false_2 by done. cbn [orb].
    rewrite lookup_app_l by (rewrite length_fmap; by eapply lookup_lt_Some).
    by rewrite list_lookup_fmap, Hq.
Qed.

Lemma length_positives_from (total : nat) (P : list (Batch Qn Cx * nat)) :
  length (positives_from ctx_encoder rcfg total P)
  = sum_list ((fun bd => length (is_positive bd.1)) <$> P).
Proof.
  revert total. induction P as [|[b ds] P IH]; intros total; [done|].
  cbn. by rewrite length_app, length_fmap, IH.
Qed.

Lemma length_q_parts_le (P : list (Batch Qn Cx * nat)) :
  (length (flat_map (fun bd => q_part question_encoder rcfg bd.1 bd.2) P)
   <= sum_list ((fun bd => length (question_ids bd.1)) <$> P))%nat.
Proof.
  induction P as [|[b ds] P IH]; [done|].
  cbn. rewrite length_app. unfold q_part at 1.
  destruct (_ || _); cbn; rewrite ?length_fmap; lia.
Qed.

Lemma length_q_parts_lt (P : list (Batch Qn Cx * nat)) :
  1 < n_gpu rcfg →
  Exists (fun bd => length (question_ids bd.1) = 1%nat) P →
  (length (flat_map (fun bd => q_part question_encoder rcfg bd.1 bd.2) P)
   < sum_list ((fun bd => length (question_ids bd.1)) <$> P))%nat.
Proof.
  intros Hg HE. induction HE as [[b ds] P H1|[b ds] P _ IH].
  - cbn in *. rewrite length_app. pose proof (length_q_parts_le P).
    unfold q_part at 1, dp_single_question.
    rewrite (bool_decide_eq_true_2 (n_gpu rcfg > 1)) by lia.
    rewrite (bool_decide_eq_true_2 (length (question_ids b) = 1%nat)) by done.
    rewrite orb_true_r. cbn. lia.
  - cbn. rewrite length_app. unfold q_part at 1.
    destruct (_ || _); cbn; rewrite ?length_fmap; lia.
Qed.

(** X6.  Under several GPUs a reached batch with exactly one question
    contributes its positive index but no question vector, so when every
    batch has one positive index per question the result of
    [_encode_questions_and_passages] holds fewer question vectors than
    positive indices, and [validate_average_rank] on any score matrix with
    one row per question vector fails its assertion. *)
Theorem encode_dp_single_question_mismatch
    (without_negatives return_samples : bool) (batches : list (list Smp * nat))
    (st : Encoded Smp V) :
  0 < val_av_rank_bsz rcfg →
  Forall (fun sb => (sb.2 < length (dev_datasets cfg))%nat) batches →
  1 < n_gpu rcfg →
  _encode_questions_and_passages create_biencoder_input2 question_encoder ctx_encoder
    cfg rcfg without_negatives return_samples batches = Ok st →
  Forall (fun bd => length (is_positive bd.1) = length (question_ids bd.1))
    (within_cap question_encoder cfg rcfg 0
       (built_batches rcfg create_biencoder_input2 without_negatives batches)) →
  Exists (fun bd => length (question_ids bd.1) = 1%nat)
    (within_cap question_encoder cfg rcfg 0
       (built_batches rcfg create_biencoder_input2 without_negatives batches)) →
  (length (enc_q st) < length (enc_positive_idx st))%nat
  ∧ ∀ torch_sort all_gather_list (scores : list (list Q)),
      length scores = length (enc_q st) →
      validate_average_rank cfg torch_sort all_gather_list scores (enc_positive_idx st)
      = Raise AssertionError.
Proof.
  intros Hs Hds Hg Hrun Hall Hex.
  apply encode_returns_outcome in Hrun; [|done..]. subst st.
  unfold encode_outcome. cbn [enc_positive_idx enc_q].
  set (P := within_cap _ _ _ _ _) in *.
  assert (Hlt : (length (flat_map (fun bd => q_part question_encoder rcfg bd.1 bd.2) P)
                 < length (positives_from ctx_encoder rcfg 0 P))%nat).
  { rewrite length_positives_from.
    replace ((fun bd : Batch Qn Cx * nat => length (is_positive bd.1)) <$> P)
      with ((fun bd : Batch Qn Cx * nat => length (question_ids bd.1)) <$> P).
    - by apply length_q_parts_lt.
    - apply Forall_fmap_ext_1. eapply Forall_impl; [exact Hall|]. by intros ? ->. }
  split; [done|]. intros torch_sort all_gather_list scores Hlen.
  unfold validate_average_rank. rewrite bool_decide_eq_false_2 by lia. done.
Qed.

Lemma Qltb_ge (a b : Q) : Qltb a b = false ↔ (b <= a)%Q.
Proof. unfold Qltb. by rewrite negb_false_iff, Qle_bool_iff. Qed.

Lemma within_cap_bound (B : nat) (bs : list (Batch Qn Cx * nat)) :
  Forall (fun bd => (length (question_ids bd.1) <= B)%nat) bs →
  ∀ n, within_cap question_encoder cfg rcfg n bs ≠ [] →
    (inject_Z (Z.of_nat (n + length (flat_map (fun bd => q_part question_encoder rcfg bd.1 bd.2)
                                      (within_cap question_encoder cfg rcfg n bs))))
     <= inject_Z (val_av_rank_max_qs rcfg) / inject_Z (world_size_or_1 cfg)
        + inject_Z (Z.of_nat B))%Q.
Proof.
  induction 1 as [|[b ds] bs Hb _ IH]; intros n Hne; [done|].
  cbn [within_cap] in *. destruct (Qltb _ _) eqn:Hcap; [done|].
  apply Qltb_ge in Hcap. cbn [flat_map fst snd]. rewrite length_app.
  destruct (within_cap question_encoder cfg rcfg
              (n + length (q_part question_encoder rcfg b ds)) bs) as [|bd P'] eqn:HP.
  - cbn [flat_map length]. rewrite Nat.add_0_r, Nat2Z.inj_add, inject_Z_plus.
    apply Qplus_le_compat; [done|]. rewrite <- Zle_Qle. apply inj_le.
    cbn in Hb. unfold q_part. destruct (_ || _); cbn; rewrite ?length_fmap; lia.
  - rewrite Nat.add_assoc. specialize (IH (n + length (q_part question_encoder rcfg b ds))%nat).
    rewrite HP in IH. by apply IH.
Qed.

Lemma within_cap_stops (bs : list (Batch Qn Cx * nat)) :
  ∀ n, (length (within_cap question_encoder cfg rcfg n bs) < length bs)%nat →
    (inject_Z (val_av_rank_max_qs rcfg) / inject_Z (world_size_or_1 cfg)
     < inject_Z (Z.of_nat (n + length (flat_map (fun bd => q_part question_encoder rcfg bd.1 bd.2)
                                        (within_cap question_encoder cfg rcfg n bs)))))%Q.
Proof.
  induction bs as [|[b ds] bs IH]; intros n Hlen; [cbn in Hlen; lia|].
  cbn [within_cap] in *. destruct (Qltb _ _) eqn:Hcap.
  - apply Qltb_lt in Hcap. cbn. by rewrite Nat.add_0_r.
  - cbn [flat_map fst snd length] in *. rewrite length_app, Nat.add_assoc.
    apply IH. lia.
Qed.

(** X7.  The question cap of [_encode_questions_and_passages] is checked
    before a batch is read, not after: the encoded questions may exceed
    [val_av_rank_max_qs / distributed_factor], by at most the questions of
    one batch, and the loop leaves batches unread only once the cap is
    exceeded. *)
Theorem encode_question_cap
    (without_negatives return_samples : bool) (batches : list (list Smp * nat))
    (st : Encoded Smp V) (B : nat) :
  0 < val_av_rank_bsz rcfg →
  Forall (fun sb => (sb.2 < length (dev_datasets cfg))%nat) batches →
  Forall (fun bd => (length (question_ids bd.1) <= B)%nat)
    (built_batches rcfg create_biencoder_input2 without_negatives batches) →
  _encode_questions_and_passages create_biencoder_input2 question_encoder ctx_encoder
    cfg rcfg without_negatives return_samples batches = Ok st →
  (inject_Z (Z.of_nat (length (enc_q st)))
   <= inject_Z (val_av_rank_max_qs rcfg) / inject_Z (world_size_or_1 cfg)
      + inject_Z (Z.of_nat B))%Q
  ∧ ((length (within_cap question_encoder cfg rcfg 0
                (built_batches rcfg create_biencoder_input2 without_negatives batches))
      < length batches)%nat →
     (inject_Z (val_av_rank_max_qs rcfg) / inject_Z (world_size_or_1 cfg)
      < inject_Z (Z.of_nat (length (enc_q st))))%Q).
Proof.
  intros Hs Hds HB Hrun.
  pose proof (encode_returns_outcome _ _ _ _ Hs Hds Hrun) as ->.
  unfold _encode_questions_and_passages in Hrun.
  rewrite encode_run_outcome in Hrun by done. cbn [rbind] in Hrun.
  destruct (bool_decide (enc_ctx _ = [])) eqn:E1; [done|].
  destruct (bool_decide (enc_q _ = [])) eqn:E2; [done|].
  apply bool_decide_eq_false in E2. clear E1 Hrun.
  unfold encode_outcome in *. cbn [enc_q] in *. split.
  - apply (within_cap_bound B _ HB 0%nat). intros E. by rewrite E in E2.
  - intros Hlen. apply (within_cap_stops _ 0%nat).
    unfold built_batches in *. by rewrite length_fmap.
Qed.

Lemma encode_loop_negative_slice (without_negatives return_samples : bool)
    (batches : list (list Smp * nat)) :
  val_av_rank_bsz rcfg < 0 →
  Forall (fun sb => (sb.2 < length (dev_datasets cfg))%nat) batches →
  ∀ st, enc_q st = [] → enc_ctx st = [] →
    ∃ st', encode_loop create_biencoder_input2 question_encoder ctx_encoder cfg rcfg
             without_negatives return_samples batches st = Ok st'
           ∧ enc_q st' = [] ∧ enc_ctx st' = [].
Proof.
  intros Hs. induction 1 as [|[samples ds] batches Hd _ IH]; intros st Hq Hc.
  - by exists st.
  - cbn [encode_loop]. destruct (Qltb _ _); [by exists st|].
    cbn in Hd. rewrite bool_decide_eq_false_2 by lia.
    unfold py_range0. rewrite decide_False, decide_True by lia.
    cbn [rbind encode_sub_batches]. apply IH; done.
Qed.

(** X8.  How [_encode_questions_and_passages] fails: with nothing to read
    [torch.cat] gets an empty list; a zero [val_av_rank_bsz] makes [range]
    raise at the first batch; a negative one encodes nothing, so
    [torch.cat] fails after the loop; a dataset index outside the
    configured dev datasets raises at the first batch. *)
Theorem encode_questions_and_passages_errors (without_negatives return_samples : bool) :
  let run := _encode_questions_and_passages create_biencoder_input2 question_encoder
               ctx_encoder cfg rcfg without_negatives return_samples in
  let cap := (inject_Z (val_av_rank_max_qs rcfg) / inject_Z (world_size_or_1 cfg))%Q in
  run [] = Raise (RuntimeError "torch.cat(): expected a non-empty list of Tensors")
  ∧ (∀ samples ds rest,
       val_av_rank_bsz rcfg = 0 → (0 <= cap)%Q → (ds < length (dev_datasets cfg))%nat →
       run ((samples, ds) :: rest) = Raise (ValueError "range() arg 3 must not be zero"))
  ∧ (∀ batches,
       val_av_rank_bsz rcfg < 0 →
       Forall (fun sb => (sb.2 < length (dev_datasets cfg))%nat) batches →
       run batches = Raise (RuntimeError "torch.cat(): expected a non-empty list of Tensors"))
  ∧ (∀ samples ds rest,
       (0 <= cap)%Q → (length (dev_datasets cfg) <= ds)%nat →
       run ((samples, ds) :: rest) = Raise IndexError).
Proof.
  intros run cap. subst run. unfold _encode_questions_and_passages.
  split; [done|]. split; [|split].
  - intros samples ds rest Hz Hcap Hd. cbn [encode_loop enc_q length].
    apply Qltb_ge in Hcap. change (inject_Z (Z.of_nat 0)) with 0%Q. fold cap.
    rewrite Hcap, bool_decide_eq_false_2 by lia.
    unfold py_range0. by rewrite decide_True.
  - intros batches Hs Hds.
    destruct (encode_loop_negative_slice without_negatives return_samples batches Hs Hds
                (mkEncoded [] [] [] [])) as (st' & -> & Hq & Hc); [done..|].
    cbn [rbind]. by rewrite Hc.
  - intros samples ds rest Hcap Hd. cbn [encode_loop enc_q length].
    apply Qltb_ge in Hcap. change (inject_Z (Z.of_nat 0)) with 0%Q. fold cap.
    by rewrite Hcap, bool_decide_eq_true_2.
Qed.
End EncodeFacts.


Lemma encode_positive_points_at_gold_witness :
  let st := mkEncoded (Smp := nat * list nat)
              [1; 2; 3] [10; 11; 12; 20; 21; 30; 31] [0; 3; 5]%nat [] in
  enc_positive_idx st !! 2%nat = Some 5%nat
  ∧ enc_ctx st !! 5%nat = Some 30
  ∧ enc_q st !! 2%nat = Some 3.
Proof.
  apply (encode_positive_points_at_gold SampleRank.create_input
           SampleRank.q_enc SampleRank.ctx_enc Sample.cfg (SampleRank.rank_cfg 2 1)
           false false SampleRank.batches _
           [(SampleRank.create_input [(1, [10; 11; 12]); (2, [20; 21])]%nat 1 1, 0%nat)]
           [] (SampleRank.create_input [(3, [30; 31])]%nat 1 1) 0 0 0 3 30)%nat.
  - reflexivity.
  - repeat constructor.
  - reflexivity.
  - reflexivity.
  - reflexivity.
  - reflexivity.
  - reflexivity.
  - reflexivity.
Defined.

Lemma encode_dp_single_question_mismatch_witness :
  let st := mkEncoded (Smp := nat * list nat)
              [1; 2] [10; 11; 12; 20; 21] [0; 3; 5]%nat [] in
  _encode_questions_and_passages SampleRank.create_input SampleRank.q_enc
    SampleRank.ctx_enc Sample.cfg (SampleRank.rank_cfg 2 2) false false
    SampleRank.batches = Ok st
  ∧ (length (enc_q st) < length (enc_positive_idx st))%nat
  ∧ ∀ torch_sort all_gather_list (scores : list (list Q)),
      length scores = length (enc_q st) →
      validate_average_rank Sample.cfg torch_sort all_gather_list scores
        (enc_positive_idx st) = Raise AssertionError.
Proof.
  intros st. split; [reflexivity|].
  apply (encode_dp_single_question_mismatch SampleRank.create_input
           SampleRank.q_enc SampleRank.ctx_enc Sample.cfg (SampleRank.rank_cfg 2 2)
           false false SampleRank.batches st).
  - reflexivity.
  - repeat constructor.
  - reflexivity.
  - reflexivity.
  - repeat constructor.
  - apply Exists_cons_tl, Exists_cons_hd. reflexivity.
Defined.

Lemma encode_question_cap_witness :
  let st := mkEncoded (Smp := nat * list nat)
              [1; 2; 3] [10; 11; 12; 20; 21; 30; 31] [0; 3; 5]%nat [] in
  (inject_Z (Z.of_nat (length (enc_q st)))
   <= inject_Z (val_av_rank_max_qs (SampleRank.rank_cfg 2 1))
        / inject_Z (world_size_or_1 Sample.cfg) + inject_Z (Z.of_nat 2))%Q
  ∧ ((length (within_cap SampleRank.q_enc Sample.cfg (SampleRank.rank_cfg 2 1) 0
                (built_batches (SampleRank.rank_cfg 2 1) SampleRank.create_input false
                   SampleRank.batches))
      < length SampleRank.batches)%nat →
     (inject_Z (val_av_rank_max_qs (SampleRank.rank_cfg 2 1))
        / inject_Z (world_size_or_1 Sample.cfg)
      < inject_Z (Z.of_nat (length (enc_q st))))%Q).
Proof.
  apply (encode_question_cap SampleRank.create_input
           SampleRank.q_enc SampleRank.ctx_enc Sample.cfg (SampleRank.rank_cfg 2 1)
           false false SampleRank.batches _ 2%nat).
  - reflexivity.
  - repeat constructor.
  - repeat constructor.
  - reflexivity.
Defined.

(** ** What a validation call leaves behind *)

Lemma checkpoint_name_nonempty (cfg : Cfg) (epoch : Z) (best : bool) :
  checkpoint_name cfg epoch best ≠ "".
Proof.
  unfold checkpoint_name. destruct best; cbn [negb]; by apply append_nonempty_r.
Qed.

Lemma validate_and_save_raises cfg torch_sort dev epoch iteration all_passages save e t :
  validation_measures cfg torch_sort dev epoch all_passages = Raise e →
  validate_and_save cfg torch_sort dev epoch iteration all_passages save t
  = (Raise e,
     mkTrainer (start_epoch t) (start_batch t) (scheduler_state t)
               (best_after_reset cfg epoch t) (best_cp_name t)
               (biencoder_state t) (optimizer_state t) (validations_run t)
               (trace t ++ [ValidationRun epoch iteration save])).
Proof.
  intros Hm. unfold validate_and_save, best_after_reset, set_best_validation_result, bind, emit,
    modify, lift, when, ret.
  rewrite Hm. by destruct (bool_decide (epoch = _)).
Qed.

Lemma validate_and_save_no_save cfg torch_sort dev epoch iteration all_passages save
    metrics v t :
  validation_measures cfg torch_sort dev epoch all_passages = Ok (metrics, v) →
  rank_in_m1_0 cfg && save = false →
  validate_and_save cfg torch_sort dev epoch iteration all_passages save t
  = (Ok metrics,
     mkTrainer (start_epoch t) (start_batch t) (scheduler_state t)
               (best_after_reset cfg epoch t) (best_cp_name t)
               (biencoder_state t) (optimizer_state t) (validations_run t)
               (trace t ++ [ValidationRun epoch iteration save])).
Proof.
  intros Hm Hs. unfold validate_and_save, best_after_reset, set_best_validation_result, bind, emit,
    modify, lift, when, ret.
  rewrite Hm, Hs. by destruct (bool_decide (epoch = _)).
Qed.

Lemma validate_and_save_saving cfg torch_sort dev epoch iteration all_passages
    metrics v d t :
  validation_measures cfg torch_sort dev epoch all_passages = Ok (metrics, v) →
  rank_in_m1_0 cfg = true →
  output_dir cfg = Some d →
  let found := best_model_found_cond cfg v (best_after_reset cfg epoch t) in
  let written := negb (save_best_only (train cfg)) || found in
  let cp := path_join d (checkpoint_name cfg epoch (save_best_only (train cfg) && found)) in
  validate_and_save cfg torch_sort dev epoch iteration all_passages true t
  = (Ok metrics,
     mkTrainer (start_epoch t) (start_batch t) (scheduler_state t)
               (if found then Some v else best_after_reset cfg epoch t)
               (if found then Some cp else best_cp_name t)
               (biencoder_state t) (optimizer_state t) (validations_run t)
               (trace t ++ ValidationRun epoch iteration true
                  :: (if written
                      then (if save_separate_models (train cfg)
                            then [EncoderSaved
                                    (path_join d ("dpr_question_encoder_epoch_" +:+ str epoch));
                                  EncoderSaved
                                    (path_join d ("dpr_passage_encoder_epoch_" +:+ str epoch))]
                            else [])
                           ++ [TokenizerSaved; CheckpointSaved cp epoch iteration]
                      else [])
                  ++ (if found
                      then [LogInfo ("New Best validation checkpoint " +:+ cp)]
                      else []))).
Proof.
  intros Hm Hr Hd found written cp.
  assert (Hcp : bool_decide (cp = "") = false).
  { apply bool_decide_eq_false_2, path_join_nonempty, checkpoint_name_nonempty. }
  unfold validate_and_save, _save_checkpoint, in_output_dir, set_best_validation_result,
    set_best_cp_name, bind, emit, modify, lift, when, get, ret, log_event.
  rewrite Hm, Hr, Hd. cbn [andb].
  subst written cp. unfold checkpoint_name in *. revert Hcp. subst found.
  unfold best_after_reset.
  destruct (bool_decide (epoch = _)); cbn [best_validation_result];
    destruct (best_model_found_cond _ _ _);
    destruct (save_best_only (train cfg));
    destruct (save_separate_models (train cfg));
    cbn [negb andb orb trace start_epoch start_batch scheduler_state best_cp_name
         best_validation_result biencoder_state optimizer_state validations_run
         truthy_str default];
    intros Hcp; rewrite ?Hcp;
    cbn [negb andb orb trace start_epoch start_batch scheduler_state best_cp_name
         best_validation_result biencoder_state optimizer_state validations_run
         truthy_str default];
    rewrite <- ?app_assoc; reflexivity.
Qed.

Lemma checkpoints_saved_app (l1 l2 : list Event) :
  checkpoints_saved (l1 ++ l2) = checkpoints_saved l1 ++ checkpoints_saved l2.
Proof. apply omap_app. Qed.

Lemma optimizer_steps_app (l1 l2 : list Event) :
  optimizer_steps (l1 ++ l2) = (optimizer_steps l1 + optimizer_steps l2)%nat.
Proof. unfold optimizer_steps. by rewrite omap_app, length_app. Qed.

Lemma train_steps_app (l1 l2 : list Event) :
  train_steps (l1 ++ l2) = train_steps l1 ++ train_steps l2.
Proof. apply omap_app. Qed.

Lemma schedulers_built_app (l1 l2 : list Event) :
  schedulers_built (l1 ++ l2) = schedulers_built l1 ++ schedulers_built l2.
Proof. apply omap_app. Qed.

Lemma epochs_started_app (l1 l2 : list Event) :
  epochs_started (l1 ++ l2) = epochs_started l1 ++ epochs_started l2.
Proof. apply omap_app. Qed.

(** X9.  A call of [validate_and_save] with [save=False], or on a worker
    whose [local_rank] is neither -1 nor 0, adds its own entry to the log and
    nothing else: no checkpoint, no new best checkpoint name.  The tracked
    best value changes only by the reset at [val_av_rank_start_epoch].  No
    output directory is needed, and the result or the exception is that of
    the measurements. *)
Theorem validate_and_save_without_saving (cfg : Cfg) (torch_sort : list Q → list nat)
    (dev : DevRun) (epoch iteration : Z) (all_passages : list (Z * string))
    (save : bool) (t : Trainer) :
  rank_in_m1_0 cfg && save = false →
  let r := validate_and_save cfg torch_sort dev epoch iteration all_passages save t in
  r.1 = match validation_measures cfg torch_sort dev epoch all_passages with
        | Ok mv => Ok mv.1
        | Raise e => Raise e
        end
  ∧ r.2 = mkTrainer (start_epoch t) (start_batch t) (scheduler_state t)
            (if bool_decide (epoch = val_av_rank_start_epoch cfg) then None
             else best_validation_result t)
            (best_cp_name t) (biencoder_state t) (optimizer_state t)
            (validations_run t) (trace t ++ [ValidationRun epoch iteration save])
  ∧ checkpoints_saved (trace r.2) = checkpoints_saved (trace t).
Proof.
  intros Hs r. subst r.
  destruct (validation_measures cfg torch_sort dev epoch all_passages)
    as [[metrics v]|e] eqn:Hm.
  - rewrite (validate_and_save_no_save _ _ _ _ _ _ _ _ _ _ Hm Hs).
    cbn [fst snd trace]. rewrite checkpoints_saved_app. cbn. by rewrite app_nil_r.
  - rewrite (validate_and_save_raises _ _ _ _ _ _ _ _ _ Hm).
    cbn [fst snd trace]. rewrite checkpoints_saved_app. cbn. by rewrite app_nil_r.
Qed.

Lemma validate_and_save_without_saving_witness :
  let r := validate_and_save Sample.cfg_two_workers argsort (Sample.dev_run 5 [2; 1]%Q)
             0 2 [] true Sample.trainer in
  r.1 = match validation_measures Sample.cfg_two_workers argsort
                (Sample.dev_run 5 [2; 1]%Q) 0 [] with
        | Ok mv => Ok mv.1
        | Raise e => Raise e
        end
  ∧ r.2 = mkTrainer 0 0 None None None ∅ ∅ 0 [ValidationRun 0 2 true]
  ∧ checkpoints_saved (trace r.2) = [].
Proof.
  apply (validate_and_save_without_saving Sample.cfg_two_workers argsort
           (Sample.dev_run 5 [2; 1]%Q) 0 2 [] true Sample.trainer).
  reflexivity.
Defined.

(** X10.  When [validate_and_save] may save (save requested, rank -1 or 0,
    an output directory), it writes at most one checkpoint, stamped with the
    epoch and iteration of the call.  Without [save_best_only] it writes
    one at every call, under the per-epoch name; with [save_best_only] it
    writes one only when a new best is found, always under the [_best.cp]
    name.  The best checkpoint name is the file just written exactly when
    a new best is found. *)
Theorem validate_and_save_checkpoint_choice (cfg : Cfg) (torch_sort : list Q → list nat)
    (dev : DevRun) (epoch iteration : Z) (all_passages : list (Z * string))
    (metrics : gmap string Q) (v : Q) (d : string) (t : Trainer) :
  validation_measures cfg torch_sort dev epoch all_passages = Ok (metrics, v) →
  rank_in_m1_0 cfg = true →
  output_dir cfg = Some d →
  let r := validate_and_save cfg torch_sort dev epoch iteration all_passages true t in
  let found :=
    best_model_found_cond cfg v
      (if bool_decide (epoch = val_av_rank_start_epoch cfg) then None
       else best_validation_result t) in
  let cp :=
    path_join d (if save_best_only (train cfg)
                 then checkpoint_file_name cfg +:+ "_best.cp"
                 else checkpoint_file_name cfg +:+ "." +:+ str epoch) in
  r.1 = Ok metrics
  ∧ checkpoints_saved (trace r.2)
    = checkpoints_saved (trace t)
      ++ (if negb (save_best_only (train cfg)) || found
          then [(cp, epoch, iteration)] else [])
  ∧ best_cp_name r.2 = (if found then Some cp else best_cp_name t)
  ∧ best_validation_result r.2
    = (if found then Some v
       else if bool_decide (epoch = val_av_rank_start_epoch cfg) then None
            else best_validation_result t).
Proof.
  intros Hm Hr Hd r found cp. subst r.
  rewrite (validate_and_save_saving _ _ _ _ _ _ _ _ _ _ Hm Hr Hd).
  fold (best_after_reset cfg epoch t) in *. fold found.
  cbn [fst snd trace best_cp_name best_validation_result].
  clearbody found. subst cp. unfold checkpoint_name.
  split; [done|]. split; [|split].
  - rewrite checkpoints_saved_app. f_equal.
    change (ValidationRun epoch iteration true :: ?l)
      with ([ValidationRun epoch iteration true] ++ l).
    rewrite !checkpoints_saved_app.
    destruct (save_best_only (train cfg)), found, (save_separate_models (train cfg)); done.
  - by destruct (save_best_only (train cfg)), found.
  - done.
Qed.

Lemma validate_and_save_checkpoint_choice_witness :
  let r := validate_and_save Sample.cfg argsort (Sample.dev_run 5 [2; 1]%Q)
             0 2 [] true Sample.trainer in
  (∃ metrics, r.1 = Ok metrics)
  ∧ checkpoints_saved (trace r.2) = [("out/dpr_biencoder.0", 0, 2)]
  ∧ best_cp_name r.2 = Some "out/dpr_biencoder.0"
  ∧ best_validation_result r.2 = Some 5%Q.
Proof.
  intros r.
  destruct (validate_and_save_checkpoint_choice Sample.cfg argsort
              (Sample.dev_run 5 [2; 1]%Q) 0 2 [] _ 5%Q "out" Sample.trainer
              eq_refl eq_refl eq_refl) as (H1 & H2 & H3 & H4).
  split; [eexists; exact H1|]. split; [exact H2|]. split; [exact H3|exact H4].
Defined.

(** X11.  With a tracked best value other than zero in place,
    [validate_and_save] keeps the extremum: the new value replaces the
    tracked one exactly when it is strictly smaller (strictly larger under
    [higher_is_better]); a tie or a worse value leaves both the tracked
    value and the best checkpoint name as they were. *)
Theorem validate_and_save_tracks_extremum (cfg : Cfg) (torch_sort : list Q → list nat)
    (dev : DevRun) (epoch iteration : Z) (all_passages : list (Z * string))
    (metrics : gmap string Q) (v b : Q) (d : string) (t : Trainer) :
  validation_measures cfg torch_sort dev epoch all_passages = Ok (metrics, v) →
  rank_in_m1_0 cfg = true →
  output_dir cfg = Some d →
  epoch ≠ val_av_rank_start_epoch cfg →
  best_validation_result t = Some b →
  ¬ (b == 0)%Q →
  let t' :=
    (validate_and_save cfg torch_sort dev epoch iteration all_passages true t).2 in
  let better :=
    if higher_is_better (train cfg) then Qltb b v else Qltb v b in
  best_validation_result t' = Some (if better then v else b)
  ∧ (better = false → best_cp_name t' = best_cp_name t)
  ∧ (better = true → ∃ cp, best_cp_name t' = Some cp
                            ∧ (cp, epoch, iteration) ∈ checkpoints_saved (trace t')).
Proof.
  intros Hm Hr Hd He Hb Hb0 t' better. subst t'.
  rewrite (validate_and_save_saving _ _ _ _ _ _ _ _ _ _ Hm Hr Hd).
  unfold best_after_reset. rewrite bool_decide_eq_false_2 by done. rewrite Hb.
  cbn [snd trace best_cp_name best_validation_result].
  assert (Hf : best_model_found_cond cfg v (Some b) = better).
  { pose proof (best_model_found_strict cfg v b Hb0) as Hs. subst better.
    destruct (higher_is_better (train cfg)).
    - destruct (Qltb b v) eqn:E.
      + apply Hs. by apply Qltb_lt.
      + apply not_true_is_false. intros H. apply Hs, Qltb_lt in H. congruence.
    - destruct (Qltb v b) eqn:E.
      + apply Hs. by apply Qltb_lt.
      + apply not_true_is_false. intros H. apply Hs, Qltb_lt in H. congruence. }
  rewrite Hf. split; [by destruct better|]. split.
  - by intros ->.
  - intros ->. eexists. split; [done|]. rewrite orb_true_r.
    rewrite checkpoints_saved_app. apply elem_of_app. right.
    change (ValidationRun epoch iteration true :: ?l) with ([ValidationRun epoch iteration true] ++ l).
    rewrite !checkpoints_saved_app. apply elem_of_app. right.
    apply elem_of_app. left. apply elem_of_app. right. cbn. apply list_elem_of_here.
Qed.

Lemma validate_and_save_tracks_extremum_witness :
  let t := mkTrainer 0 0 None (Some 3%Q) (Some "out/dpr_biencoder.0") ∅ ∅ 0 [] in
  let t' := (validate_and_save Sample.cfg argsort (Sample.dev_run 5 [2; 1]%Q)
               1 2 [] true t).2 in
  best_validation_result t' = Some 3%Q
  ∧ (false = false → best_cp_name t' = Some "out/dpr_biencoder.0")
  ∧ (false = true → ∃ cp, best_cp_name t' = Some cp
                           ∧ (cp, 1, 2) ∈ checkpoints_saved (trace t')).
Proof.
  intros t.
  eapply (validate_and_save_tracks_extremum Sample.cfg argsort
           (Sample.dev_run 5 [2; 1]%Q) 1 2 [] _ 5%Q 3%Q "out" t).
  - reflexivity.
  - reflexivity.
  - reflexivity.
  - discriminate.
  - reflexivity.
  - discriminate.
Defined.

(** ** Checkpoint files *)

Lemma prefix_slash_append (n x y : string) :
  String.prefix "/" x = String.prefix "/" y →
  String.prefix "/" (n +:+ x) = String.prefix "/" (n +:+ y).
Proof.
  intros H. destruct n as [|c n]; [exact H|].
  change (String c n +:+ x) with (String c (n +:+ x)).
  change (String c n +:+ y) with (String c (n +:+ y)).
  cbn [String.prefix]. destruct (Ascii.ascii_dec _ c); [|done].
  by destruct (n +:+ x), (n +:+ y).
Qed.

Lemma path_join_inj (a b1 b2 : string) :
  String.prefix "/" b1 = String.prefix "/" b2 →
  path_join a b1 = path_join a b2 → b1 = b2.
Proof.
  unfold path_join. intros <-. destruct (String.prefix "/" b1); [done|].
  case_bool_decide; [done|].
  destruct (String.prefix "/" (String.rev a)); intros Ha.
  - by apply (inj (String.append a)) in Ha.
  - apply (inj (String.append a)) in Ha. by apply (inj (String.append "/")) in Ha.
Qed.

Lemma save_checkpoint_result cfg epoch offset sep best d t :
  output_dir cfg = Some d →
  (_save_checkpoint cfg epoch offset sep best t).1
  = Ok (path_join d (checkpoint_name cfg epoch best)).
Proof.
  intros Hd. unfold _save_checkpoint, checkpoint_name, in_output_dir, bind, emit, modify,
    lift, ret. rewrite Hd. by destruct sep, best.
Qed.

(** X12.  [_save_checkpoint] needs an output directory: without one it
    raises on the first path it builds and writes nothing.  With one, it
    returns the path of the file it wrote; the per-epoch files of two
    different epochs are different files, and a per-epoch file is never the
    [_best.cp] file. *)
Theorem save_checkpoint_file_names (cfg : Cfg) (e1 e2 o1 o2 : Z) (s1 s2 : bool)
    (t1 t2 : Trainer) :
  (output_dir cfg = None →
     ∀ best, _save_checkpoint cfg e1 o1 s1 best t1 = (Raise TypeError, t1))
  ∧ (∀ d best, output_dir cfg = Some d →
       ∃ cp t', _save_checkpoint cfg e1 o1 s1 best t1 = (Ok cp, t')
                ∧ checkpoints_saved (trace t')
                  = checkpoints_saved (trace t1) ++ [(cp, e1, o1)])
  ∧ (∀ cp, (_save_checkpoint cfg e1 o1 s1 false t1).1 = Ok cp →
           (_save_checkpoint cfg e2 o2 s2 false t2).1 = Ok cp → e1 = e2)
  ∧ (∀ cp, (_save_checkpoint cfg e1 o1 s1 false t1).1 = Ok cp →
           (_save_checkpoint cfg e2 o2 s2 true t2).1 ≠ Ok cp).
Proof.
  split; [|split; [|split]].
  - intros Hd best. unfold _save_checkpoint, in_output_dir, bind, emit, modify, lift, ret.
    rewrite Hd. by destruct s1, best.
  - intros d best Hd. unfold _save_checkpoint, in_output_dir, bind, emit, modify, lift, ret.
    rewrite Hd. destruct s1, best; cbn -[checkpoints_saved path_join String.append];
      eexists _, _; (split; [reflexivity|]);
      unfold log_event; cbn [trace]; rewrite !checkpoints_saved_app; cbn;
      by rewrite ?app_nil_r.
  - intros cp H1 H2. destruct (output_dir cfg) as [d|] eqn:Hd.
    + rewrite (save_checkpoint_result _ _ _ _ _ d) in H1 by done.
      rewrite (save_checkpoint_result _ _ _ _ _ d) in H2 by done.
      rewrite <- H2 in H1. injection H1 as H1.
      apply path_join_inj in H1.
      * unfold checkpoint_name in H1. cbn [negb] in H1.
        apply (inj (String.append _)) in H1. apply (inj (String.append ".")) in H1.
        symmetry. by apply (inj pretty) in H1.
      * unfold checkpoint_name. cbn [negb]. by apply prefix_slash_append.
    + unfold _save_checkpoint, in_output_dir, bind, emit, modify, lift, ret in H1.
      rewrite Hd in H1. by destruct s1.
  - intros cp H1 H2. destruct (output_dir cfg) as [d|] eqn:Hd.
    + rewrite (save_checkpoint_result _ _ _ _ _ d) in H1 by done.
      rewrite (save_checkpoint_result _ _ _ _ _ d) in H2 by done.
      rewrite <- H2 in H1. injection H1 as H1.
      apply path_join_inj in H1.
      * unfold checkpoint_name in H1. cbn [negb] in H1.
        apply (inj (String.append _)) in H1. discriminate.
      * unfold checkpoint_name. cbn [negb]. by apply prefix_slash_append.
    + unfold _save_checkpoint, in_output_dir, bind, emit, modify, lift, ret in H1.
      rewrite Hd in H1. by destruct s1.
Qed.

(** ** The dev measures *)

Lemma world_size_or_1_nonzero (cfg : Cfg) : world_size_or_1 cfg ≠ 0.
Proof.
  unfold world_size_or_1. destruct (distributed_world_size cfg); [|done].
  by case_decide.
Qed.

(** X13.  [validate_nll] divides by the number of dev batches and by
    [batches * dev_batch_size * distributed_factor]: it raises
    ZeroDivisionError when the dev iterator yields nothing or the dev
    batch size is zero, and otherwise returns exactly four metrics, the
    sample count being that of full batches on every worker. *)
Theorem validate_nll_outcome (cfg : Cfg) (batches : list (Q * Z)) :
  let total_samples :=
    Z.of_nat (length batches) * dev_batch_size (train cfg) * world_size_or_1 cfg in
  (batches = [] ∨ dev_batch_size (train cfg) = 0 →
     validate_nll cfg batches = Raise ZeroDivisionError)
  ∧ (batches ≠ [] → dev_batch_size (train cfg) ≠ 0 →
     ∃ m, validate_nll cfg batches = Ok m
          ∧ dom m = ({[ "Dev NLL loss"; "Dev Total Samples";
                        "Dev Total Correct Predictions";
                        "Dev Correct Predictions Ratio" ]} : gset string)
          ∧ m !! "Dev Total Samples" = Some (inject_Z total_samples)
          ∧ m !! "Dev Total Correct Predictions"
            = Some (inject_Z (Zsum (snd <$> batches)))
          ∧ m !! "Dev Correct Predictions Ratio"
            = Some (inject_Z (Zsum (snd <$> batches)) / inject_Z total_samples)%Q).
Proof.
  intros total_samples. split.
  - intros [->|Hz]; [done|]. unfold validate_nll.
    destruct batches as [|b batches]; [done|].
    rewrite py_truediv_nonzero by (cbn [length]; lia). cbn [rbind].
    rewrite Hz, Z.mul_0_r, Z.mul_0_l. done.
  - intros Hne Hz. unfold validate_nll.
    assert (Hlen : Z.of_nat (length batches) ≠ 0) by (destruct batches; [done|cbn; lia]).
    pose proof (world_size_or_1_nonzero cfg) as Hw.
    rewrite py_truediv_nonzero by done. cbn [rbind].
    rewrite py_truediv_nonzero by (subst total_samples; nia). cbn [rbind].
    eexists. split; [reflexivity|]. split; [|done].
    rewrite !dom_insert_L, dom_empty_L. set_solver.
Qed.

Lemma rank_positions_bounded (P : nat) (indices : list (list nat))
    (positive_idx ranks : list nat) :
  Forall (fun indices_i => length indices_i = P) indices →
  Forall3 (fun indices_i idx g => indices_i !! g = Some idx) indices positive_idx ranks →
  length ranks = length indices
  ∧ 0 <= Zsum (Z.of_nat <$> ranks) <= Z.of_nat (length indices) * (Z.of_nat P - 1).
Proof.
  intros HP H3. induction H3 as [|ind idx g inds idxs gs Hg _ IH]; [done|].
  apply Forall_cons in HP as [HP1 HP]. destruct (IH HP) as [IHl IHs].
  apply lookup_lt_Some in Hg. cbn [length fmap list_fmap]. unfold Zsum in *. cbn [foldr].
  split; [by f_equal|]. nia.
Qed.

(** X14.  On a single worker, with [torch.sort] meeting its contract and
    every gold index inside its row, [validate_average_rank] returns a
    zero-based rank: at least 0 and at most the number of passages minus
    one. *)
Theorem average_rank_bounds (cfg : Cfg) (torch_sort : list Q → list nat)
    (all_gather_list : Z * Z → list (Z * Z)) (scores : list (list Q))
    (positive_idx : list nat) (P : nat) :
  world_size_or_1 cfg <= 1 →
  scores ≠ [] →
  Forall2 (fun row idx => argsort_desc row (torch_sort row) ∧ (idx < length row)%nat
                          ∧ length row = P) scores positive_idx →
  ∃ r, validate_average_rank cfg torch_sort all_gather_list scores positive_idx = Ok r
       ∧ (0 <= r)%Q ∧ (r <= inject_Z (Z.of_nat P - 1))%Q.
Proof.
  intros Hw Hne H2.
  assert (Hlen : length scores = length positive_idx) by (by eapply Forall2_length).
  assert (Hind : Forall2 (fun indices_i idx => NoDup indices_i ∧ idx ∈ indices_i)
                   (torch_sort <$> scores) positive_idx).
  { apply Forall2_fmap_l. eapply Forall2_impl; [exact H2|].
    intros row idx (Hs & Hi & _). split; [by eapply argsort_desc_NoDup|].
    by apply (argsort_desc_elem row). }
  assert (HP : Forall (fun indices_i => length indices_i = P) (torch_sort <$> scores)).
  { apply Forall_fmap. eapply Forall2_Forall_l; [exact H2|].
    apply Forall_true. intros row idx (Hs & _ & <-). by apply argsort_desc_length. }
  destruct (rank_loop_positions _ _ 0 Hind) as (ranks & H3 & Hloop).
  destruct (rank_positions_bounded P _ _ _ HP H3) as (_ & Hlo & Hhi).
  rewrite length_fmap in Hhi.
  unfold validate_average_rank.
  rewrite bool_decide_eq_true_2 by (by rewrite Hlen). cbn [negb].
  rewrite Hloop. cbn [rbind]. rewrite decide_False by lia. rewrite Z.add_0_l.
  assert (Hn : 0 < Z.of_nat (length scores)) by (destruct scores; [done|cbn; lia]).
  rewrite py_truediv_nonzero by lia.
  eexists. split; [reflexivity|]. split.
  - apply Qle_shift_div_l; [change 0%Q with (inject_Z 0); by rewrite <- Zlt_Qlt|].
    rewrite Qmult_0_l. change 0%Q with (inject_Z 0). by rewrite <- Zle_Qle.
  - apply Qle_shift_div_r; [change 0%Q with (inject_Z 0); by rewrite <- Zlt_Qlt|].
    rewrite <- inject_Z_mult, <- Zle_Qle. lia.
Qed.

Lemma average_rank_bounds_witness :
  ∃ r, validate_average_rank Sample.cfg argsort (fun own => [own])
         [[3; 1; 2]%Q; [1; 2; 3]%Q] [1; 0]%nat = Ok r
       ∧ (0 <= r)%Q ∧ (r <= inject_Z (Z.of_nat 3 - 1))%Q.
Proof.
  apply (average_rank_bounds Sample.cfg argsort (fun own => [own])
           [[3; 1; 2]%Q; [1; 2; 3]%Q] [1; 0]%nat 3).
  - vm_compute. discriminate.
  - discriminate.
  - constructor; [|constructor; [|constructor]];
      (split; [apply argsort_is_argsort_desc|split; [cbn; lia|reflexivity]]).
Defined.

Lemma rank_loop_missing (i1 i2 : list (list nat)) (bad : list nat) (p1 p2 : list nat)
    (idx : nat) (r0 : Z) :
  Forall2 (fun indices_i idx => NoDup indices_i ∧ idx ∈ indices_i) i1 p1 →
  idx ∉ bad →
  rank_loop (i1 ++ bad :: i2) (p1 ++ idx :: p2) r0
  = Raise (RuntimeError "a Tensor with several or no elements cannot be converted to Scalar").
Proof.
  intros H2 Hbad. revert r0. induction H2 as [|ind i inds ps [Hnd Hi] _ IH]; intros r0.
  - cbn. unfold gold_idx, nonzero. by rewrite nonzero_from_absent.
  - cbn [app rank_loop]. apply list_elem_of_lookup in Hi as [g Hg].
    rewrite (gold_idx_position _ _ g) by done. cbn [rbind]. apply IH.
Qed.

(** X15.  How [validate_average_rank] fails: a count of question vectors
    other than the count of gold indices trips the assertion; on a single
    worker no questions at all means a division by zero; and a gold index
    outside its question's row of sorted indices makes [.item()] raise on an
    empty tensor, at the first such question. *)
Theorem average_rank_errors (cfg : Cfg) (torch_sort : list Q → list nat)
    (all_gather_list : Z * Z → list (Z * Z)) :
  (∀ scores positive_idx,
     length scores ≠ length positive_idx →
     validate_average_rank cfg torch_sort all_gather_list scores positive_idx
     = Raise AssertionError)
  ∧ (world_size_or_1 cfg <= 1 →
     validate_average_rank cfg torch_sort all_gather_list [] [] = Raise ZeroDivisionError)
  ∧ (∀ s1 s2 row p1 p2 idx,
       Forall2 (fun row idx => argsort_desc row (torch_sort row) ∧ (idx < length row)%nat)
               s1 p1 →
       length s2 = length p2 →
       argsort_desc row (torch_sort row) → (length row <= idx)%nat →
       validate_average_rank cfg torch_sort all_gather_list
         (s1 ++ row :: s2) (p1 ++ idx :: p2)
       = Raise (RuntimeError
                  "a Tensor with several or no elements cannot be converted to Scalar")).
Proof.
  split; [|split].
  - intros scores positive_idx Hlen. unfold validate_average_rank.
    rewrite bool_decide_eq_false_2 by lia. done.
  - intros Hw. unfold validate_average_rank. cbn. by rewrite decide_False by lia.
  - intros s1 s2 row p1 p2 idx H2 Hl2 Hrow Hidx. unfold validate_average_rank.
    rewrite bool_decide_eq_true_2.
    2:{ rewrite !length_app. cbn [length]. apply Forall2_length in H2. lia. }
    cbn [negb]. rewrite fmap_app, fmap_cons.
    rewrite rank_loop_missing; [done| |].
    + apply Forall2_fmap_l. eapply Forall2_impl; [exact H2|].
      intros r i (Hs & Hi). split; [by eapply argsort_desc_NoDup|].
      by apply (argsort_desc_elem r).
    + rewrite (argsort_desc_elem row) by done. lia.
Qed.

(** ** One epoch *)

Lemma produces_ret {A} (a : A) t (Q : A → list Event → Trainer → Prop) :
  Q a [] t → produces (ret a) t Q.
Proof. intros HQ. exists a, t, []. by rewrite app_nil_r. Qed.

Lemma produces_lift {A} (r : result A) a t (Q : A → list Event → Trainer → Prop) :
  r = Ok a → Q a [] t → produces (lift r) t Q.
Proof. intros -> HQ. exists a, t, []. by rewrite app_nil_r. Qed.

Lemma produces_emit e t (Q : unit → list Event → Trainer → Prop) :
  (∀ t', best_cp_name t' = best_cp_name t → Q tt [e] t') →
  produces (emit e) t Q.
Proof. intros HQ. exists tt, (log_event e t), [e]. split; [done|]. split; [done|]. by apply HQ. Qed.

Lemma produces_emit_frame e t (Q : unit → list Event → Trainer → Prop) :
  (∀ t', best_cp_name t' = best_cp_name t → start_epoch t' = start_epoch t →
         scheduler_state t' = scheduler_state t → Q tt [e] t') →
  produces (emit e) t Q.
Proof. intros HQ. exists tt, (log_event e t), [e]. split; [done|]. split; [done|]. by apply HQ. Qed.

Lemma produces_get t (Q : Trainer → list Event → Trainer → Prop) :
  Q t [] t → produces get t Q.
Proof. intros HQ. exists t, t, []. by rewrite app_nil_r. Qed.

Lemma produces_when_emit (b : bool) e t (Q : unit → list Event → Trainer → Prop) :
  (∀ t', best_cp_name t' = best_cp_name t → Q tt (if b then [e] else []) t') →
  produces (when b (emit e)) t Q.
Proof.
  intros HQ. destruct b; [by apply produces_emit|]. apply produces_ret. by apply HQ.
Qed.

Lemma produces_bind {A B} (m : M A) (k : A → M B) t
    (Q : B → list Event → Trainer → Prop) :
  produces m t (fun a es t1 => produces (k a) t1 (fun b es' t2 => Q b (es ++ es') t2)) →
  produces (bind m k) t Q.
Proof.
  intros (a & t1 & es & Hm & Ht1 & b & t2 & es' & Hk & Ht2 & HQ).
  exists b, t2, (es ++ es'). unfold bind. rewrite Hm, Hk. split; [done|].
  split; [|done]. by rewrite Ht2, Ht1, app_assoc.
Qed.

Lemma produces_weaken {A} (m : M A) t (Q Q' : A → list Event → Trainer → Prop) :
  produces m t Q → (∀ a es t', Q a es t' → Q' a es t') → produces m t Q'.
Proof. intros (a & t' & es & ? & ? & ?) HQ. exists a, t', es. eauto. Qed.

Lemma produces_next_dev_run env t (Q : DevRun → list Event → Trainer → Prop) :
  (∀ t', best_cp_name t' = best_cp_name t → Q (dev_runs env (validations_run t)) [] t') →
  produces (next_dev_run env) t Q.
Proof.
  intros HQ. eexists _, _, []. split; [reflexivity|]. cbn [trace].
  split; [by rewrite app_nil_r|]. by apply HQ.
Qed.

(** A validation call inside the batch loop: one entry in the log, the
    best checkpoint name untouched. *)
Lemma produces_validate_in_loop cfg torch_sort dev epoch iteration all_passages t
    (Q : gmap string Q → list Event → Trainer → Prop) :
  is_ok (validation_measures cfg torch_sort dev epoch all_passages) = true →
  (∀ m t', best_cp_name t' = best_cp_name t →
           Q m [ValidationRun epoch iteration false] t') →
  produces (validate_and_save cfg torch_sort dev epoch iteration all_passages false) t Q.
Proof.
  intros Hok HQ.
  destruct (validation_measures cfg torch_sort dev epoch all_passages)
    as [[m v]|] eqn:Hm; [|done].
  eexists _, _, _. split.
  - apply (validate_and_save_no_save _ _ _ _ _ _ _ _ _ _ Hm). apply andb_false_r.
  - cbn [trace best_cp_name]. split; [done|]. by apply HQ.
Qed.

(** The validation call at the end of an epoch. *)
Lemma produces_validate_at_end cfg torch_sort dev epoch iteration all_passages t
    (Q : gmap string Q → list Event → Trainer → Prop) :
  is_ok (validation_measures cfg torch_sort dev epoch all_passages) = true →
  (rank_in_m1_0 cfg = true → is_Some (output_dir cfg)) →
  (∀ m v t' es (written : bool) cp,
     validation_measures cfg torch_sort dev epoch all_passages = Ok (m, v) →
     optimizer_steps es = 0%nat → train_steps es = [] →
     schedulers_built es = [] → epochs_started es = [] →
     checkpoints_saved es = (if written then [(cp, epoch, iteration)] else []) →
     (written = true →
      rank_in_m1_0 cfg = true
      ∧ ∃ d, output_dir cfg = Some d
             ∧ cp = path_join d (checkpoint_name cfg epoch (save_best_only (train cfg)))) →
     (rank_in_m1_0 cfg = true → save_best_only (train cfg) = false → written = true) →
     Q m es t') →
  produces (validate_and_save cfg torch_sort dev epoch iteration all_passages true) t Q.
Proof.
  intros Hok Hdir HQ.
  destruct (validation_measures cfg torch_sort dev epoch all_passages)
    as [[m v]|] eqn:Hm; [|done].
  destruct (rank_in_m1_0 cfg) eqn:Hr.
  - destruct Hdir as [d Hd]; [done|].
    eexists _, _, _. split; [by apply (validate_and_save_saving _ _ _ _ _ _ _ _ d _ Hm)|].
    cbn [trace]. split; [done|].
    set (found := best_model_found_cond _ _ _).
    apply (HQ m v _ _ (negb (save_best_only (train cfg)) || found)
              (path_join d (checkpoint_name cfg epoch (save_best_only (train cfg) && found))));
      [done|..].
    + by destruct (negb _ || found), found, (save_separate_models (train cfg)).
    + by destruct (negb _ || found), found, (save_separate_models (train cfg)).
    + by destruct (negb _ || found), found, (save_separate_models (train cfg)).
    + by destruct (negb _ || found), found, (save_separate_models (train cfg)).
    + by destruct (negb _ || found), found, (save_separate_models (train cfg)).
    + intros Hw. split; [done|]. exists d. split; [done|].
      by destruct (save_best_only (train cfg)), found.
    + by intros _ ->.
  - eexists _, _, _. split.
    { apply (validate_and_save_no_save _ _ _ _ _ _ _ _ _ _ Hm). by rewrite Hr. }
    cbn [trace]. split; [done|].
    by apply (HQ m v _ _ false "").
Qed.

Lemma multiples_upto (acc : Z) (n : nat) :
  0 < acc →
  Z.of_nat (length (filter (fun k => k mod acc = 0) (seqZ 1 (Z.of_nat n))))
  = Z.of_nat n / acc.
Proof.
  intros Hacc. induction n as [|n IH].
  - cbn. by rewrite Z.div_0_l by lia.
  - rewrite Nat2Z.inj_succ.
    replace (Z.succ (Z.of_nat n)) with (Z.of_nat n + 1) by lia.
    rewrite seqZ_app by lia.
    rewrite filter_app, length_app, Nat2Z.inj_add, IH.
    replace (seqZ (1 + Z.of_nat n) 1) with ([Z.of_nat n + 1]).
    2:{ rewrite seqZ_cons by lia. cbn. f_equal. lia. }
    rewrite filter_cons, filter_nil.
    pose proof (Z.div_mod (Z.of_nat n) acc ltac:(lia)) as Hn.
    pose proof (Z.mod_pos_bound (Z.of_nat n) acc Hacc) as Hb.
    case_decide as Hm; cbn [length].
    + apply Z.div_unique with (r := 0); [lia|].
      apply Z.mod_divide in Hm as [q Hq]; [|lia].
      set (d := Z.of_nat n / acc) in *. change (Z.of_nat 1) with 1.
      assert (q = d + 1) as -> by nia. lia.
    + apply Z.div_unique with (r := Z.of_nat n mod acc + 1); [|lia].
      destruct (decide (Z.of_nat n mod acc + 1 = acc)) as [E|]; [|lia].
      exfalso. apply Hm.
      replace (Z.of_nat n + 1) with ((Z.of_nat n / acc + 1) * acc) by lia.
      by rewrite Z.mod_mul by lia.
Qed.

Section TrainEpoch.
Variables (cfg : Cfg) (env : Env).
Hypothesis Hdir : rank_in_m1_0 cfg = true → is_Some (output_dir cfg).
Hypothesis Hacc : gradient_accumulation_steps (train cfg) ≠ 0.
Hypothesis Hlog : log_batch_step (train cfg) ≠ 0.
Hypothesis Hroll : train_rolling_loss_step (train cfg) ≠ 0.
Hypothesis Hdev : ∀ n epoch all_passages,
  is_ok (validation_measures cfg (torch_sort env) (dev_runs env n) epoch all_passages)
  = true.

Lemma loop_outcome_cons (epoch i : Z) s steps vars vars1 t t5 vars' pre es' es t' :
  es = pre ++ es' →
  epoch_loss vars1 = (epoch_loss vars + step_loss s)%Q →
  epoch_correct_predictions vars1 = epoch_correct_predictions vars + step_correct s →
  last_data_iteration vars1 = data_iteration s →
  best_cp_name t5 = best_cp_name t →
  optimizer_steps pre
  = (if bool_decide ((i + 1) mod gradient_accumulation_steps (train cfg) = 0)
     then 1%nat else 0%nat) →
  train_steps pre = [(epoch, data_iteration s)] →
  checkpoints_saved pre = [] → schedulers_built pre = [] → epochs_started pre = [] →
  loop_outcome cfg epoch (i + 1) steps vars1 t5 vars' es' t' →
  loop_outcome cfg epoch i (s :: steps) vars t vars' es t'.
Proof.
  intros -> Hl1 Hc1 Hd1 Hb5 Ho1 Hts1 Hcs1 Hsb1 Hep1
    (Hl & Hc & Hd & Ho & Hts & Hcs & Hsb & Hep & Hb).
  unfold loop_outcome.
  rewrite optimizer_steps_app, train_steps_app, checkpoints_saved_app,
    schedulers_built_app, epochs_started_app.
  rewrite Ho1, Hts1, Hcs1, Hsb1, Hep1, Ho, Hts, Hcs, Hsb, Hep, Hb, Hb5, Hl, Hc, Hd,
    Hl1, Hc1, Hd1.
  split; [done|]. split.
  { rewrite fmap_cons. unfold Zsum. cbn [foldr]. lia. }
  split.
  { rewrite fmap_cons, last_cons. by destruct (last (data_iteration <$> steps)). }
  split; [|done].
  cbn [length]. rewrite Nat2Z.inj_succ, (seqZ_cons (i + 1)) by lia.
  replace (Z.pred (Z.succ (Z.of_nat (length steps)))) with (Z.of_nat (length steps)) by lia.
  replace (Z.succ (i + 1)) with (i + 1 + 1) by lia.
  cbn [fmap list_fmap]. rewrite filter_cons.
  case_bool_decide; [rewrite decide_True by done|rewrite decide_False by done]; done.
Qed.

Lemma train_loop_produces eval_step epoch all_passages steps :
  eval_step ≠ 0 →
  ∀ i vars t,
    produces (train_loop cfg env epoch eval_step all_passages i steps vars) t
             (loop_outcome cfg epoch i steps vars t).
Proof.
  intros Hes. induction steps as [|s steps IH]; intros i vars t.
  - apply produces_ret. unfold loop_outcome. cbn. by rewrite Z.add_0_r.
  - cbn [train_loop]. rewrite !py_mod_nonzero by done.
    apply produces_bind, produces_emit. intros t1 Ht1.
    apply produces_bind, (produces_lift _ _ _ _ eq_refl).
    apply produces_bind, produces_when_emit. intros t2 Ht2.
    apply produces_bind, (produces_lift _ _ _ _ eq_refl).
    apply produces_bind, produces_when_emit. intros t3 Ht3.
    apply produces_bind, (produces_lift _ _ _ _ eq_refl).
    apply produces_bind, produces_when_emit. intros t4 Ht4.
    apply produces_bind, (produces_lift _ _ _ _ eq_refl).
    apply produces_bind.
    destruct (bool_decide (data_iteration s mod eval_step = 0)
              && eval_during_epoch (train cfg)); cbn [when].
    + apply produces_bind, produces_next_dev_run. intros t5 Ht5.
      apply produces_bind, produces_validate_in_loop; [apply Hdev|]. intros m t6 Ht6.
      apply produces_ret.
      eapply produces_weaken; [apply IH|].
      intros vars' es' t' Hout.
      eapply (loop_outcome_cons _ _ _ _ _ _ _ _ _
                ([TrainStep epoch (data_iteration s)]
                 ++ (if bool_decide ((i + 1) mod gradient_accumulation_steps (train cfg) = 0)
                     then [OptimizerStep] else [])
                 ++ (if bool_decide (i mod log_batch_step (train cfg) = 0)
                     then [LogInfo "Epoch step"] else [])
                 ++ (if bool_decide ((i + 1) mod train_rolling_loss_step (train cfg) = 0)
                     then [LogInfo "Avg. loss per last batches"] else [])
                 ++ [ValidationRun epoch (data_iteration s) false])); [..|exact Hout];
        [cbn [app]; rewrite <- ?app_assoc; reflexivity|done|done|done|congruence|..];
        rewrite ?optimizer_steps_app, ?train_steps_app, ?checkpoints_saved_app,
          ?schedulers_built_app, ?epochs_started_app;
        repeat case_bool_decide; done.
    + apply produces_ret.
      eapply produces_weaken; [apply IH|].
      intros vars' es' t' Hout.
      eapply (loop_outcome_cons _ _ _ _ _ _ _ _ _
                ([TrainStep epoch (data_iteration s)]
                 ++ (if bool_decide ((i + 1) mod gradient_accumulation_steps (train cfg) = 0)
                     then [OptimizerStep] else [])
                 ++ (if bool_decide (i mod log_batch_step (train cfg) = 0)
                     then [LogInfo "Epoch step"] else [])
                 ++ (if bool_decide ((i + 1) mod train_rolling_loss_step (train cfg) = 0)
                     then [LogInfo "Avg. loss per last batches"] else [])
                 ++ [])); [..|exact Hout];
        [cbn [app]; rewrite <- ?app_assoc; reflexivity|done|done|done|congruence|..];
        rewrite ?optimizer_steps_app, ?train_steps_app, ?checkpoints_saved_app,
          ?schedulers_built_app, ?epochs_started_app;
        repeat case_bool_decide; done.
Qed.

Lemma train_epoch_produces eval_step epoch all_passages t :
  eval_step ≠ 0 →
  produces (_train_epoch cfg env epoch eval_step all_passages) t
    (fun metrics es _ => epoch_outcome cfg env epoch all_passages metrics es).
Proof.
  intros Hes. unfold _train_epoch.
  apply produces_bind.
  eapply produces_weaken; [by apply train_loop_produces|].
  intros vars es1 t1 (Hl & _ & Hd & Ho & Hts & Hcs & Hsb & Hep & _).
  cbn [epoch_loss last_data_iteration] in Hl, Hd.
  change (default 0 (last (data_iteration <$> epoch_steps env epoch)))
    with (final_iteration (epoch_steps env epoch)) in Hd.
  apply produces_bind, produces_emit. intros t2 _.
  apply produces_bind, produces_next_dev_run. intros t3 _.
  apply produces_bind, produces_validate_at_end; [apply Hdev|exact Hdir|].
  intros m v t4 es2 written cp Hm Ho2 Hts2 Hsb2 Hep2 Hcs2 Hw1 Hw2.
  apply produces_ret. unfold epoch_outcome.
  rewrite !optimizer_steps_app, !train_steps_app, !checkpoints_saved_app,
    !schedulers_built_app, !epochs_started_app.
  rewrite Ho, Hts, Hcs, Hsb, Hep, Ho2, Hts2, Hcs2, Hsb2, Hep2, Hl, Hd. cbn.
  rewrite !Nat.add_0_r, !app_nil_r.
  split; [by eexists _, _, _|]. do 4 (split; [done|]).
  exists written, cp. by rewrite <- Hd.
Qed.

(** X16.  In one epoch [_train_epoch] runs the forward pass of every batch
    the iterator yields and takes one optimizer step for every full group
    of [gradient_accumulation_steps] batches: with [n] batches that is
    [n // gradient_accumulation_steps] steps, so the batches left over at
    the end of the epoch take none in it. *)
Theorem train_epoch_optimizer_steps (eval_step epoch : Z)
    (all_passages : list (Z * string)) (t : Trainer) :
  eval_step ≠ 0 →
  0 < gradient_accumulation_steps (train cfg) →
  ∃ metrics t' es,
    _train_epoch cfg env epoch eval_step all_passages t = (Ok metrics, t')
    ∧ trace t' = trace t ++ es
    ∧ train_steps es = (fun s => (epoch, data_iteration s)) <$> epoch_steps env epoch
    ∧ Z.of_nat (optimizer_steps es)
      = Z.of_nat (length (epoch_steps env epoch)) / gradient_accumulation_steps (train cfg).
Proof.
  intros Hes Hpos.
  destruct (train_epoch_produces eval_step epoch all_passages t Hes)
    as (metrics & t' & es & Hrun & Htr & _ & Ho & Hts & _).
  exists metrics, t', es. split; [done|]. split; [done|]. split; [done|].
  rewrite Ho. by apply multiples_upto.
Qed.

(** X17.  The metrics [_train_epoch] returns are those of the validation at
    the end of the epoch with three entries set on top: Iteration, the
    iterator's counter at the last batch (0 without batches); Epoch; and
    Train loss, the sum of the batch losses divided by the iterator's
    [max_iterations] (not by the number of batches seen), or 0 when
    [max_iterations] is not positive. *)
Theorem train_epoch_metrics (eval_step epoch : Z)
    (all_passages : list (Z * string)) (t : Trainer) :
  eval_step ≠ 0 →
  ∃ metrics t' dev val_metrics v,
    _train_epoch cfg env epoch eval_step all_passages t = (Ok metrics, t')
    ∧ validation_measures cfg (torch_sort env) dev epoch all_passages
      = Ok (val_metrics, v)
    ∧ metrics !! "Iteration" = Some (inject_Z (final_iteration (epoch_steps env epoch)))
    ∧ metrics !! "Epoch" = Some (inject_Z epoch)
    ∧ metrics !! "Train loss"
      = Some (if decide (get_max_iterations (source_batches env) > 0)
              then (foldl Qplus 0 (step_loss <$> epoch_steps env epoch)
                    / inject_Z (get_max_iterations (source_batches env)))%Q
              else 0%Q)
    ∧ ∀ k, k ≠ "Iteration" → k ≠ "Epoch" → k ≠ "Train loss" →
           metrics !! k = val_metrics !! k.
Proof.
  intros Hes.
  destruct (train_epoch_produces eval_step epoch all_passages t Hes)
    as (metrics & t' & es & Hrun & _ & (dev & val_metrics & v & Hm & ->) & _).
  eexists _, t', dev, val_metrics, v. split; [exact Hrun|]. split; [done|].
  split; [by rewrite !lookup_insert_ne, lookup_insert_eq by done|].
  split; [by rewrite lookup_insert_ne, lookup_insert_eq by done|].
  split; [by rewrite lookup_insert_eq|].
  intros k H1 H2 H3. by rewrite !lookup_insert_ne by done.
Qed.

(** X18.  [_train_epoch] writes at most one checkpoint, at its end, and
    exactly one on the saving worker without [save_best_only].  That
    checkpoint carries the epoch and, as offset, the iterator's counter at
    the last batch; so [_load_saved_state] on it sets the start epoch to the
    same epoch again whenever that counter is not zero, and to the next
    epoch only when it is zero. *)
Theorem train_epoch_checkpoint_resume (eval_step epoch : Z)
    (all_passages : list (Z * string)) (t : Trainer) :
  eval_step ≠ 0 →
  ∃ metrics t' es (written : bool) cp,
    _train_epoch cfg env epoch eval_step all_passages t = (Ok metrics, t')
    ∧ trace t' = trace t ++ es
    ∧ checkpoints_saved es
      = (if written then [(cp, epoch, final_iteration (epoch_steps env epoch))] else [])
    ∧ (rank_in_m1_0 cfg = true → save_best_only (train cfg) = false → written = true)
    ∧ (written = true →
       rank_in_m1_0 cfg = true
       ∧ ∃ d, output_dir cfg = Some d
              ∧ cp = path_join d (checkpoint_name cfg epoch (save_best_only (train cfg))))
    ∧ ∀ cfg' scheduler t0,
        ignore_checkpoint_offset cfg' = false →
        start_epoch
          (_load_saved_state cfg'
             (checkpoint_state t' scheduler epoch (final_iteration (epoch_steps env epoch)))
             t0).2
        = (if bool_decide (final_iteration (epoch_steps env epoch) = 0)
           then epoch + 1 else epoch).
Proof.
  intros Hes.
  destruct (train_epoch_produces eval_step epoch all_passages t Hes)
    as (metrics & t' & es & Hrun & Htr & _ & _ & _ & _ & _ & written & cp & Hcs & Hw1 & Hw2).
  exists metrics, t', es, written, cp.
  split; [done|]. split; [done|]. split; [done|]. split; [done|]. split; [done|].
  intros cfg' scheduler t0 Hoff.
  unfold _load_saved_state, checkpoint_state, bind, modify, when, ret.
  cbn [cp_epoch cp_offset model_dict optimizer_dict scheduler_dict].
  rewrite Hoff.
  destruct (ignore_checkpoint_optimizer cfg'), (truthy_dict (optimizer_state t')),
    (truthy_dict scheduler); reflexivity.
Qed.
End TrainEpoch.

Lemma train_epoch_optimizer_steps_witness :
  let env := Sample.env [2] (fun _ => Sample.dev_run 1 [2; 1]%Q) in
  ∃ metrics t' es,
    _train_epoch Sample.cfg env 0 1 [] Sample.trainer = (Ok metrics, t')
    ∧ trace t' = trace Sample.trainer ++ es
    ∧ train_steps es = (fun s => (0, data_iteration s)) <$> epoch_steps env 0
    ∧ Z.of_nat (optimizer_steps es)
      = Z.of_nat (length (epoch_steps env 0))
        / gradient_accumulation_steps (train Sample.cfg).
Proof.
  intros env.
  apply (train_epoch_optimizer_steps Sample.cfg env);
    first [ exact sample_dev_runs_ok | discriminate | reflexivity
          | intros _; eexists; reflexivity ].
Defined.

Lemma train_epoch_metrics_witness :
  let env := Sample.env [2] (fun _ => Sample.dev_run 1 [2; 1]%Q) in
  ∃ metrics t' dev val_metrics v,
    _train_epoch Sample.cfg env 0 1 [] Sample.trainer = (Ok metrics, t')
    ∧ validation_measures Sample.cfg (torch_sort env) dev 0 [] = Ok (val_metrics, v)
    ∧ metrics !! "Iteration" = Some (inject_Z (final_iteration (epoch_steps env 0)))
    ∧ metrics !! "Epoch" = Some (inject_Z 0)
    ∧ metrics !! "Train loss"
      = Some (if decide (get_max_iterations (source_batches env) > 0)
              then (foldl Qplus 0 (step_loss <$> epoch_steps env 0)
                    / inject_Z (get_max_iterations (source_batches env)))%Q
              else 0%Q)
    ∧ ∀ k, k ≠ "Iteration" → k ≠ "Epoch" → k ≠ "Train loss" →
           metrics !! k = val_metrics !! k.
Proof.
  intros env.
  apply (train_epoch_metrics Sample.cfg env);
    first [ exact sample_dev_runs_ok | discriminate | reflexivity
          | intros _; eexists; reflexivity ].
Defined.

Lemma train_epoch_checkpoint_resume_witness :
  let env := Sample.env [2] (fun _ => Sample.dev_run 1 [2; 1]%Q) in
  ∃ metrics t' es (written : bool) cp,
    _train_epoch Sample.cfg env 0 1 [] Sample.trainer = (Ok metrics, t')
    ∧ trace t' = trace Sample.trainer ++ es
    ∧ checkpoints_saved es
      = (if written then [(cp, 0, final_iteration (epoch_steps env 0))] else [])
    ∧ (rank_in_m1_0 Sample.cfg = true → save_best_only (train Sample.cfg) = false →
       written = true)
    ∧ (written = true →
       rank_in_m1_0 Sample.cfg = true
       ∧ ∃ d, output_dir Sample.cfg = Some d
              ∧ cp = path_join d (checkpoint_name Sample.cfg 0
                                    (save_best_only (train Sample.cfg))))
    ∧ ∀ cfg' scheduler t0,
        ignore_checkpoint_offset cfg' = false →
        start_epoch
          (_load_saved_state cfg'
             (checkpoint_state t' scheduler 0 (final_iteration (epoch_steps env 0))) t0).2
        = (if bool_decide (final_iteration (epoch_steps env 0) = 0) then 0 + 1 else 0).
Proof.
  intros env.
  apply (train_epoch_checkpoint_resume Sample.cfg env);
    first [ exact sample_dev_runs_ok | discriminate | reflexivity
          | intros _; eexists; reflexivity ].
Defined.

(** ** The whole run *)

Lemma bind_ok {A B} (m : M A) (k : A → M B) t a t1 :
  m t = (Ok a, t1) → bind m k t = k a t1.
Proof. intros Hm. unfold bind. by rewrite Hm. Qed.

Lemma bind_raise {A B} (m : M A) (k : A → M B) t e t1 :
  m t = (Raise e, t1) → bind m k t = (Raise e, t1).
Proof. intros Hm. unfold bind. by rewrite Hm. Qed.

Lemma silent_nil : silent [].
Proof. by repeat split. Qed.

Lemma silent_app (l1 l2 : list Event) : silent l1 → silent l2 → silent (l1 ++ l2).
Proof.
  intros (H1 & H2 & H3 & H4 & H5) (K1 & K2 & K3 & K4 & K5). unfold silent.
  rewrite optimizer_steps_app, train_steps_app, checkpoints_saved_app, epochs_started_app,
    validation_runs_app, H1, H2, H3, H4, H5, K1, K2, K3, K4, K5. done.
Qed.

Section RunTrain.
Variables (cfg : Cfg) (env : Env).

(** Reading the customer chunks, when it succeeds. *)
Lemma customer_chunks_read (t : Trainer) :
  (truthy_str (customer_chunks cfg) = true → customer_chunk_files env ≠ []) →
  ∃ t1 pre1,
    (if truthy_str (customer_chunks cfg)
     then emit (LogInfo "Reading customer chunks") ;;;
          if bool_decide (customer_chunk_files env = [])
          then raise (ValueError ("File descriptor " +:+ default "" (customer_chunks cfg)
                                    +:+ " is not configured."))
          else ret (customer_passages env)
     else ret []) t
    = (Ok (if truthy_str (customer_chunks cfg) then customer_passages env else []), t1)
    ∧ trace t1 = trace t ++ pre1 ∧ best_cp_name t1 = best_cp_name t
    ∧ start_epoch t1 = start_epoch t ∧ scheduler_state t1 = scheduler_state t
    ∧ schedulers_built pre1 = [] ∧ silent pre1.
Proof.
  intros Hchunks. destruct (truthy_str (customer_chunks cfg)) eqn:Hc.
  - rewrite (bool_decide_eq_false_2 (customer_chunk_files env = [])) by auto.
    eexists _, [_]. split; [reflexivity|]. by repeat split.
  - eexists _, []. split; [reflexivity|]. rewrite app_nil_r. by repeat split.
Qed.

(** Up to the scheduler: the passages, the iteration count, the scheduler. *)
Lemma run_train_prelude (t : Trainer) :
  (truthy_str (customer_chunks cfg) = true → customer_chunk_files env ≠ []) →
  get_max_iterations (source_batches env) ≠ 0 →
  gradient_accumulation_steps (train cfg) ≠ 0 →
  (∀ st, scheduler_state t = Some st → truthy_dict st = true →
         is_Some (st !! "last_epoch")) →
  let updates_per_epoch :=
    get_max_iterations (source_batches env) / gradient_accumulation_steps (train cfg) in
  ∃ all_passages t2 pre,
    run_train cfg env t
    = bind (lift (py_ceil_div updates_per_epoch (eval_per_epoch (train cfg))))
           (run_epochs cfg env all_passages (start_epoch t)) t2
    ∧ trace t2 = trace t ++ pre
    ∧ best_cp_name t2 = best_cp_name t
    ∧ all_passages = (if truthy_str (customer_chunks cfg)
                      then customer_passages env else [])
    ∧ schedulers_built pre
      = [(warmup_steps (train cfg),
          updates_per_epoch * num_train_epochs (train cfg), steps_shift t)]
    ∧ silent pre.
Proof.
  intros Hchunks Hmax Hacc Hsched upe.
  unfold run_train.
  rewrite (bool_decide_eq_false_2 (get_max_iterations (source_batches env) = 0)) by done.
  rewrite py_floordiv_nonzero by done. fold upe.
  destruct (customer_chunks_read t Hchunks)
    as (t1 & pre1 & Hrun1 & Htr1 & Hb1 & Hse1 & Hss1 & Hsb1 & Hs1).
  rewrite (bind_ok _ _ _ _ _ Hrun1). cbv beta zeta.
  erewrite bind_ok by reflexivity. cbv beta.
  erewrite bind_ok by reflexivity. cbv beta.
  erewrite bind_ok by reflexivity. cbv beta.
  cbn [scheduler_state start_epoch log_event]. rewrite Hss1, Hse1.
  assert (Hsch : ∃ t3,
    (match scheduler_state t with
     | Some st =>
         if truthy_dict st
         then shift <- lift (getitemZ st "last_epoch") ;;
              emit (SchedulerBuilt (warmup_steps (train cfg))
                      (upe * num_train_epochs (train cfg)) shift)
         else emit (SchedulerBuilt (warmup_steps (train cfg))
                      (upe * num_train_epochs (train cfg)) 0)
     | None => emit (SchedulerBuilt (warmup_steps (train cfg))
                       (upe * num_train_epochs (train cfg)) 0)
     end) (log_event (LogInfo ("  Total iterations per epoch="
                                 +:+ str (get_max_iterations (source_batches env)))) t1)
    = (Ok tt, t3)
    ∧ trace t3 = trace t1 ++ [LogInfo ("  Total iterations per epoch="
                                        +:+ str (get_max_iterations (source_batches env)));
                              SchedulerBuilt (warmup_steps (train cfg))
                                (upe * num_train_epochs (train cfg)) (steps_shift t)]
    ∧ best_cp_name t3 = best_cp_name t1).
  { unfold steps_shift. destruct (scheduler_state t) as [st|] eqn:Hst.
    - destruct (truthy_dict st) eqn:Htr.
      + destruct (Hsched st eq_refl Htr) as [shift Hshift].
        unfold getitemZ. rewrite Hshift. eexists. split; [reflexivity|].
        cbn. rewrite <- app_assoc. done.
      + eexists. split; [reflexivity|]. cbn. rewrite <- app_assoc. done.
    - eexists. split; [reflexivity|]. cbn. rewrite <- app_assoc. done. }
  destruct Hsch as (t3 & Hrun3 & Htr3 & Hb3).
  rewrite (bind_ok _ _ _ _ _ Hrun3). cbv beta.
  eexists _, t3, _. split; [reflexivity|].
  split; [by rewrite Htr3, Htr1, <- app_assoc|].
  split; [congruence|]. split; [done|].
  rewrite schedulers_built_app, Hsb1. split; [done|].
  apply silent_app; [done|]. by repeat split.
Qed.

(** X19.  What stops [run_train] before the first epoch: customer chunks
    configured but no file found for them (ValueError, before the data is
    even counted); a stored scheduler state without [last_epoch]
    (KeyError, no scheduler built); and [eval_per_epoch = 0]
    (ZeroDivisionError, after the scheduler is built).  In each case no
    epoch is started, no batch is trained on and nothing is validated or
    saved. *)
Theorem run_train_setup_errors (t : Trainer) :
  (truthy_str (customer_chunks cfg) = true → customer_chunk_files env = [] →
     fails (run_train cfg env) t
       (ValueError ("File descriptor " +:+ default "" (customer_chunks cfg)
                      +:+ " is not configured."))
       (fun es => es = [LogInfo "Reading customer chunks"]))
  ∧ ((truthy_str (customer_chunks cfg) = true → customer_chunk_files env ≠ []) →
     get_max_iterations (source_batches env) ≠ 0 →
     gradient_accumulation_steps (train cfg) ≠ 0 →
     ∀ st, scheduler_state t = Some st → truthy_dict st = true →
           st !! "last_epoch" = None →
           fails (run_train cfg env) t (KeyError "last_epoch")
             (fun es => schedulers_built es = [] ∧ silent es))
  ∧ ((truthy_str (customer_chunks cfg) = true → customer_chunk_files env ≠ []) →
     get_max_iterations (source_batches env) ≠ 0 →
     gradient_accumulation_steps (train cfg) ≠ 0 →
     (∀ st, scheduler_state t = Some st → truthy_dict st = true →
            is_Some (st !! "last_epoch")) →
     eval_per_epoch (train cfg) = 0 →
     fails (run_train cfg env) t ZeroDivisionError
       (fun es => length (schedulers_built es) = 1%nat ∧ silent es)).
Proof.
  split; [|split].
  - intros Hc Hf. unfold run_train. rewrite Hc, Hf. eexists _, _.
    split; [reflexivity|]. by split.
  - intros Hchunks Hmax Hacc st Hst Htr Hlast.
    unfold fails, run_train.
    rewrite (bool_decide_eq_false_2 (get_max_iterations (source_batches env) = 0)) by done.
    rewrite py_floordiv_nonzero by done.
    destruct (customer_chunks_read t Hchunks)
      as (t1 & pre1 & Hrun1 & Htr1 & Hb1 & Hse1 & Hss1 & Hsb1 & Hs1).
    rewrite (bind_ok _ _ _ _ _ Hrun1). cbv beta zeta.
    erewrite bind_ok by reflexivity. cbv beta.
    erewrite bind_ok by reflexivity. cbv beta.
    erewrite bind_ok by reflexivity. cbv beta.
    cbn [scheduler_state start_epoch log_event]. rewrite Hss1, Hst, Htr.
    unfold getitemZ. rewrite Hlast.
    eexists _, _. split; [reflexivity|]. unfold log_event. cbn [trace].
    rewrite Htr1, <- app_assoc.
    split; [reflexivity|]. rewrite schedulers_built_app, Hsb1.
    split; [done|]. apply silent_app; [done|]. by repeat split.
  - intros Hchunks Hmax Hacc Hsched Hepe.
    destruct (run_train_prelude t Hchunks Hmax Hacc Hsched)
      as (ap & t2 & pre & Hrun & Htr & _ & _ & Hsb & Hs).
    unfold fails. rewrite Hrun, Hepe. exists t2, pre. split; [reflexivity|].
    split; [done|]. by rewrite Hsb.
Qed.
End RunTrain.

Section RunEpochs.
Variables (cfg : Cfg) (env : Env).
Hypothesis Hdir : rank_in_m1_0 cfg = true → is_Some (output_dir cfg).
Hypothesis Hacc : gradient_accumulation_steps (train cfg) ≠ 0.
Hypothesis Hlog : log_batch_step (train cfg) ≠ 0.
Hypothesis Hroll : train_rolling_loss_step (train cfg) ≠ 0.
Hypothesis Hdev : ∀ n epoch all_passages,
  is_ok (validation_measures cfg (torch_sort env) (dev_runs env n) epoch all_passages)
  = true.

Lemma epoch_loop_produces eval_step all_passages epochs :
  eval_step ≠ 0 →
  ∀ t,
    produces (epoch_loop cfg env eval_step all_passages epochs) t
      (fun _ es _ =>
         epochs_started es = epochs
         ∧ schedulers_built es = []
         ∧ train_steps es
           = concat ((fun e => (fun s => (e, data_iteration s)) <$> epoch_steps env e)
                       <$> epochs)
         ∧ optimizer_steps es
           = sum_list
               ((fun e =>
                   length (filter
                             (fun k => k mod gradient_accumulation_steps (train cfg) = 0)
                             (seqZ 1 (Z.of_nat (length (epoch_steps env e))))))
                  <$> epochs)
         ∧ (rank_in_m1_0 cfg = false → checkpoints_saved es = [])
         ∧ (rank_in_m1_0 cfg = true → save_best_only (train cfg) = false →
            ∀ d, output_dir cfg = Some d →
                 checkpoints_saved es
                 = (fun e => (path_join d (checkpoint_name cfg e false), e,
                              final_iteration (epoch_steps env e))) <$> epochs)
         ∧ (length (checkpoints_saved es) <= length epochs)%nat).
Proof.
  intros Hes. induction epochs as [|e epochs IH]; intros t; cbn [epoch_loop].
  - apply produces_ret. repeat split; done.
  - apply produces_bind, produces_emit. intros t1 _.
    apply produces_bind.
    eapply produces_weaken; [by apply train_epoch_produces|].
    intros metrics es1 t2 (_ & Ho & Hts & Hsb & Hep & written & cp & Hcs & Hw1 & Hw2).
    apply produces_bind, produces_emit. intros t3 _.
    eapply produces_weaken; [apply IH|].
    intros _ es2 t4 (Kep & Ksb & Kts & Ko & Kc1 & Kc2 & Kc3).
    rewrite !epochs_started_app, !schedulers_built_app, !train_steps_app,
      !optimizer_steps_app, !checkpoints_saved_app.
    rewrite Ho, Hts, Hsb, Hep, Hcs, Kep, Ksb, Kts, Ko. cbn.
    split; [done|]. split; [done|]. split; [done|]. split; [lia|].
    split; [|split].
    + intros Hr. rewrite (Kc1 Hr). destruct written; [|done].
      destruct (Hw1 eq_refl) as [Hr' _]. congruence.
    + intros Hr Hb d Hd. rewrite (Kc2 Hr Hb d Hd), (Hw2 Hr Hb).
      destruct (Hw1 (Hw2 Hr Hb)) as (_ & d' & Hd' & ->).
      rewrite Hb. cbn. repeat f_equal. congruence.
    + rewrite length_app. destruct written; cbn; lia.
Qed.

Lemma run_epochs_produces all_passages first_epoch eval_step t :
  eval_step ≠ 0 →
  let epochs := seqZ first_epoch (num_train_epochs (train cfg) - first_epoch) in
  produces (run_epochs cfg env all_passages first_epoch eval_step) t
    (fun _ es _ =>
       epochs_started es = epochs
       ∧ schedulers_built es = []
       ∧ train_steps es
         = concat ((fun e => (fun s => (e, data_iteration s)) <$> epoch_steps env e)
                     <$> epochs)
       ∧ optimizer_steps es
         = sum_list
             ((fun e =>
                 length (filter
                           (fun k => k mod gradient_accumulation_steps (train cfg) = 0)
                           (seqZ 1 (Z.of_nat (length (epoch_steps env e))))))
                <$> epochs)
       ∧ (rank_in_m1_0 cfg = false → checkpoints_saved es = [])
       ∧ (rank_in_m1_0 cfg = true → save_best_only (train cfg) = false →
          ∀ d, output_dir cfg = Some d →
               checkpoints_saved es
               = (fun e => (path_join d (checkpoint_name cfg e false), e,
                            final_iteration (epoch_steps env e))) <$> epochs)
       ∧ (length (checkpoints_saved es) <= length epochs)%nat).
Proof.
  intros Hes epochs. unfold run_epochs. fold epochs.
  apply produces_bind.
  eapply produces_weaken; [by apply epoch_loop_produces|].
  intros _ es1 t1 (Kep & Ksb & Kts & Ko & Kc1 & Kc2 & Kc3).
  assert (Hend : ∀ ev : list Event,
    epochs_started ev = [] → schedulers_built ev = [] → train_steps ev = [] →
    optimizer_steps ev = 0%nat → checkpoints_saved ev = [] →
    epochs_started (es1 ++ ev) = epochs
    ∧ schedulers_built (es1 ++ ev) = []
    ∧ train_steps (es1 ++ ev)
      = concat ((fun e => (fun s => (e, data_iteration s)) <$> epoch_steps env e)
                  <$> epochs)
    ∧ optimizer_steps (es1 ++ ev)
      = sum_list
          ((fun e =>
              length (filter
                        (fun k => k mod gradient_accumulation_steps (train cfg) = 0)
                        (seqZ 1 (Z.of_nat (length (epoch_steps env e))))))
             <$> epochs)
    ∧ (rank_in_m1_0 cfg = false → checkpoints_saved (es1 ++ ev) = [])
    ∧ (rank_in_m1_0 cfg = true → save_best_only (train cfg) = false →
       ∀ d, output_dir cfg = Some d →
            checkpoints_saved (es1 ++ ev)
            = (fun e => (path_join d (checkpoint_name cfg e false), e,
                         final_iteration (epoch_steps env e))) <$> epochs)
    ∧ (length (checkpoints_saved (es1 ++ ev)) <= length epochs)%nat).
  { intros ev H1 H2 H3 H4 H5.
    rewrite !epochs_started_app, !schedulers_built_app, !train_steps_app,
      !optimizer_steps_app, !checkpoints_saved_app.
    rewrite H1, H2, H3, H4, H5, !app_nil_r, Nat.add_0_r. done. }
  destruct (rank_in_m1_0 cfg) eqn:Hr; cbn [when].
  - apply produces_bind, produces_get.
    apply produces_emit. intros t2 _. cbn [app]. by apply Hend.
  - apply produces_ret. by apply Hend.
Qed.
End RunEpochs.

Lemma Zsum_const (c : Z) {A} (l : list A) :
  Zsum ((fun _ => c) <$> l) = c * Z.of_nat (length l).
Proof. induction l as [|x l IH]; unfold Zsum in *; cbn [fmap list_fmap foldr length]; lia. Qed.

Lemma optimizer_steps_per_epoch (acc : Z) (env : Env) (epochs : list Z) :
  0 < acc →
  Z.of_nat (sum_list ((fun e => length (filter (fun k => k mod acc = 0)
                                          (seqZ 1 (Z.of_nat (length (epoch_steps env e))))))
                        <$> epochs))
  = Zsum ((fun e => Z.of_nat (length (epoch_steps env e)) / acc) <$> epochs).
Proof.
  intros Hacc. induction epochs as [|e epochs IH]; [done|].
  rewrite !fmap_cons. unfold Zsum in *. cbn [foldr].
  change (sum_list (?x :: ?l)) with (x + sum_list l)%nat.
  rewrite Nat2Z.inj_add, IH, multiples_upto by done. done.
Qed.

Section WholeRun.
Variables (cfg : Cfg) (env : Env) (t : Trainer).
Local Abbreviation max_iterations := (get_max_iterations (source_batches env)).
Local Abbreviation updates_per_epoch :=
  (max_iterations / gradient_accumulation_steps (train cfg)).
Local Abbreviation eval_step := (- (- updates_per_epoch / eval_per_epoch (train cfg))).
Local Abbreviation epochs :=
  (seqZ (start_epoch t) (num_train_epochs (train cfg) - start_epoch t)).
Hypothesis Hdir : rank_in_m1_0 cfg = true → is_Some (output_dir cfg).
Hypothesis Hacc : 0 < gradient_accumulation_steps (train cfg).
Hypothesis Hlog : log_batch_step (train cfg) ≠ 0.
Hypothesis Hroll : train_rolling_loss_step (train cfg) ≠ 0.
Hypothesis Hepe : eval_per_epoch (train cfg) ≠ 0.
Hypothesis Hmax : max_iterations ≠ 0.
Hypothesis Hes : eval_step ≠ 0.
Hypothesis Hchunks :
  truthy_str (customer_chunks cfg) = true → customer_chunk_files env ≠ [].
Hypothesis Hsched :
  ∀ st, scheduler_state t = Some st → truthy_dict st = true →
        is_Some (st !! "last_epoch").
Hypothesis Hdev : ∀ n epoch all_passages,
  is_ok (validation_measures cfg (torch_sort env) (dev_runs env n) epoch all_passages)
  = true.

Lemma run_train_produces :
  produces (run_train cfg env) t
    (fun _ es _ =>
       schedulers_built es
       = [(warmup_steps (train cfg),
           updates_per_epoch * num_train_epochs (train cfg), steps_shift t)]
       ∧ epochs_started es = epochs
       ∧ train_steps es
         = concat ((fun e => (fun s => (e, data_iteration s)) <$> epoch_steps env e)
                     <$> epochs)
       ∧ Z.of_nat (optimizer_steps es)
         = Zsum ((fun e => Z.of_nat (length (epoch_steps env e))
                           / gradient_accumulation_steps (train cfg)) <$> epochs)
       ∧ (rank_in_m1_0 cfg = false → checkpoints_saved es = [])
       ∧ (rank_in_m1_0 cfg = true → save_best_only (train cfg) = false →
          ∀ d, output_dir cfg = Some d →
               checkpoints_saved es
               = (fun e => (path_join d (checkpoint_name cfg e false), e,
                            final_iteration (epoch_steps env e))) <$> epochs)
       ∧ (length (checkpoints_saved es) <= length epochs)%nat).
Proof.
  assert (Hacc' : gradient_accumulation_steps (train cfg) ≠ 0) by lia.
  destruct (run_train_prelude cfg env t Hchunks Hmax Hacc' Hsched)
    as (ap & t2 & pre & Hrun & Htr & _ & _ & Hsb & (Hs1 & Hs2 & Hs3 & Hs4 & _)).
  rewrite py_ceil_div_nonzero in Hrun by done.
  rewrite (bind_ok _ _ _ eval_step t2 eq_refl) in Hrun.
  destruct (run_epochs_produces cfg env Hdir Hacc' Hlog Hroll Hdev ap (start_epoch t)
              eval_step t2 Hes)
    as ([] & t' & es & Hrun' & Htr' & Kep & Ksb & Kts & Ko & Kc1 & Kc2 & Kc3).
  exists tt, t', (pre ++ es). split; [by rewrite Hrun|].
  split; [by rewrite Htr', Htr, app_assoc|].
  rewrite schedulers_built_app, epochs_started_app, train_steps_app, optimizer_steps_app,
    checkpoints_saved_app.
  rewrite Hsb, Ksb, Hs1, Hs2, Hs3, Hs4, Kep, Kts, Ko. cbn [app Nat.add].
  split; [done|]. split; [done|]. split; [done|].
  split; [by apply optimizer_steps_per_epoch|]. done.
Qed.

(** X20.  A run of [run_train] that goes through builds the scheduler
    once, for [max_iterations // gradient_accumulation_steps] updates times
    the configured number of epochs, whatever the epoch it resumes at, and
    shifted by the stored [last_epoch] if a scheduler state was loaded.  It
    starts the epochs from [start_epoch] to the last, and takes one
    optimizer step per full group of accumulated batches in each.  On a
    fresh run whose every epoch yields [max_iterations] batches the steps
    taken are exactly the scheduler's total. *)
Theorem run_train_scheduler_and_steps :
  ∃ t' es,
    run_train cfg env t = (Ok tt, t')
    ∧ trace t' = trace t ++ es
    ∧ schedulers_built es
      = [(warmup_steps (train cfg),
          updates_per_epoch * num_train_epochs (train cfg), steps_shift t)]
    ∧ epochs_started es = epochs
    ∧ Z.of_nat (optimizer_steps es)
      = Zsum ((fun e => Z.of_nat (length (epoch_steps env e))
                        / gradient_accumulation_steps (train cfg)) <$> epochs)
    ∧ ((∀ e, Z.of_nat (length (epoch_steps env e)) = max_iterations) →
       start_epoch t = 0 → 0 <= num_train_epochs (train cfg) →
       Z.of_nat (optimizer_steps es)
       = updates_per_epoch * num_train_epochs (train cfg)).
Proof.
  destruct run_train_produces as ([] & t' & es & Hrun & Htr & Hsb & Hep & _ & Ho & _).
  exists t', es. do 5 (split; [done|]).
  intros Hfull Hstart Hnum. rewrite Ho.
  rewrite (list_fmap_ext _ (fun _ => updates_per_epoch) epochs).
  - rewrite Zsum_const, length_seqZ, Hstart. f_equal. lia.
  - intros i e _. cbn. by rewrite Hfull.
Qed.

(** X21.  Over a whole run, checkpoints are written at the ends of epochs
    only: never on a worker whose rank is neither -1 nor 0, at most one per
    epoch otherwise, and without [save_best_only] exactly one per epoch,
    named by its epoch and stamped with the iterator's counter at the
    epoch's last batch.  Every batch of every epoch is trained on, in
    order. *)
Theorem run_train_checkpoints :
  ∃ t' es,
    run_train cfg env t = (Ok tt, t')
    ∧ trace t' = trace t ++ es
    ∧ train_steps es
      = concat ((fun e => (fun s => (e, data_iteration s)) <$> epoch_steps env e)
                  <$> epochs)
    ∧ (rank_in_m1_0 cfg = false → checkpoints_saved es = [])
    ∧ (rank_in_m1_0 cfg = true → save_best_only (train cfg) = false →
       ∀ d, output_dir cfg = Some d →
            checkpoints_saved es
            = (fun e => (path_join d (checkpoint_file_name cfg +:+ "." +:+ str e), e,
                         final_iteration (epoch_steps env e))) <$> epochs)
    ∧ (length (checkpoints_saved es) <= length epochs)%nat.
Proof.
  destruct run_train_produces
    as ([] & t' & es & Hrun & Htr & _ & _ & Hts & _ & Hc1 & Hc2 & Hc3).
  exists t', es. do 4 (split; [done|]). split; [|done].
  intros Hr Hb d Hd. by rewrite (Hc2 Hr Hb d Hd).
Qed.
End WholeRun.

Lemma run_train_scheduler_and_steps_witness :
  let env := Sample.env [2] (fun _ => Sample.dev_run 1 [2; 1]%Q) in
  ∃ t' es,
    run_train Sample.cfg env Sample.trainer = (Ok tt, t')
    ∧ trace t' = trace Sample.trainer ++ es
    ∧ schedulers_built es = [(0, 2 / 1 * 2, steps_shift Sample.trainer)]
    ∧ epochs_started es = seqZ 0 (2 - 0)
    ∧ Z.of_nat (optimizer_steps es)
      = Zsum ((fun e => Z.of_nat (length (epoch_steps env e)) / 1) <$> seqZ 0 (2 - 0))
    ∧ ((∀ e, Z.of_nat (length (epoch_steps env e)) = 2) →
       0 = 0 → 0 <= 2 → Z.of_nat (optimizer_steps es) = 2 / 1 * 2).
Proof.
  intros env.
  apply (run_train_scheduler_and_steps Sample.cfg env Sample.trainer);
    first [ exact sample_dev_runs_ok | discriminate | reflexivity
          | intros _; eexists; reflexivity ].
Defined.

Lemma run_train_checkpoints_witness :
  let env := Sample.env [2] (fun _ => Sample.dev_run 1 [2; 1]%Q) in
  ∃ t' es,
    run_train Sample.cfg env Sample.trainer = (Ok tt, t')
    ∧ trace t' = trace Sample.trainer ++ es
    ∧ train_steps es
      = concat ((fun e => (fun s => (e, data_iteration s)) <$> epoch_steps env e)
                  <$> seqZ 0 (2 - 0))
    ∧ (rank_in_m1_0 Sample.cfg = false → checkpoints_saved es = [])
    ∧ (rank_in_m1_0 Sample.cfg = true → save_best_only (train Sample.cfg) = false →
       ∀ d, output_dir Sample.cfg = Some d →
            checkpoints_saved es
            = (fun e => (path_join d (checkpoint_file_name Sample.cfg +:+ "." +:+ str e), e,
                         final_iteration (epoch_steps env e))) <$> seqZ 0 (2 - 0))
    ∧ (length (checkpoints_saved es) <= length (seqZ 0 (2 - 0)))%nat.
Proof.
  intros env.
  apply (run_train_checkpoints Sample.cfg env Sample.trainer);
    first [ exact sample_dev_runs_ok | discriminate | reflexivity
          | intros _; eexists; reflexivity ].
Defined.

(** X22.  With fewer batches per epoch than [gradient_accumulation_steps]
    (and at least one), [run_train] computes zero updates per epoch and an
    evaluation step of zero, and the first batch of the first epoch ends
    in a ZeroDivisionError at [data_iteration % eval_step]: after its
    forward pass, with no optimizer step taken, nothing validated and
    nothing saved. *)
Theorem run_train_too_few_batches (cfg : Cfg) (env : Env) (t : Trainer)
    (s : Step) (steps : list Step) :
  0 < get_max_iterations (source_batches env) < gradient_accumulation_steps (train cfg) →
  eval_per_epoch (train cfg) ≠ 0 →
  log_batch_step (train cfg) ≠ 0 →
  train_rolling_loss_step (train cfg) ≠ 0 →
  (truthy_str (customer_chunks cfg) = true → customer_chunk_files env ≠ []) →
  (∀ st, scheduler_state t = Some st → truthy_dict st = true →
         is_Some (st !! "last_epoch")) →
  start_epoch t < num_train_epochs (train cfg) →
  epoch_steps env (start_epoch t) = s :: steps →
  fails (run_train cfg env) t ZeroDivisionError
    (fun es =>
       schedulers_built es = [(warmup_steps (train cfg), 0, steps_shift t)]
       ∧ epochs_started es = [start_epoch t]
       ∧ train_steps es = [(start_epoch t, data_iteration s)]
       ∧ optimizer_steps es = 0%nat
       ∧ validation_runs es = []
       ∧ checkpoints_saved es = []).
Proof.
  intros Hfew Hepe Hlog Hroll Hchunks Hsched Hstart Hsteps.
  destruct (run_train_prelude cfg env t Hchunks) as
    (ap & t2 & pre & Hrun & Htr & _ & _ & Hsb & (Hs1 & Hs2 & Hs3 & Hs4 & Hs5));
    [lia|lia|done|].
  rewrite Z.div_small in Hrun, Hsb by lia.
  rewrite py_ceil_div_nonzero in Hrun by done.
  change (- 0) with 0 in Hrun. rewrite Z.div_0_l in Hrun by done.
  change (- 0) with 0 in Hrun.
  rewrite (bind_ok _ _ _ 0 t2 eq_refl) in Hrun.
  unfold run_epochs in Hrun. rewrite seqZ_cons in Hrun by lia.
  cbn [epoch_loop] in Hrun. unfold _train_epoch in Hrun. rewrite Hsteps in Hrun.
  cbn [train_loop] in Hrun.
  rewrite (py_mod_nonzero (0 + 1) (gradient_accumulation_steps (train cfg))),
    (py_mod_nonzero 0 (log_batch_step (train cfg))),
    (py_mod_nonzero (0 + 1) (train_rolling_loss_step (train cfg))) in Hrun by lia.
  change (py_mod (data_iteration s) 0) with (@Raise Z ZeroDivisionError) in Hrun.
  change (0 + 1) with 1 in Hrun.
  rewrite Z.mod_1_l, Z.mod_0_l in Hrun by lia.
  unfold fails. rewrite Hrun. clear Hrun.
  unfold bind, emit, modify, lift, when, ret.
  rewrite (bool_decide_eq_false_2 (1 = 0)), (bool_decide_eq_true_2 (0 = 0)) by done.
  destruct (bool_decide (1 `mod` train_rolling_loss_step (train cfg) = 0));
    eexists _, _; (split; [reflexivity|]); unfold log_event; cbn [trace];
    rewrite Htr, <- !app_assoc; (split; [reflexivity|]);
    rewrite !schedulers_built_app, !epochs_started_app, !train_steps_app,
      !optimizer_steps_app, !validation_runs_app, !checkpoints_saved_app,
      Hsb, Hs1, Hs2, Hs3, Hs4, Hs5, Z.mul_0_l; done.
Qed.

Lemma run_train_too_few_batches_witness :
  fails (run_train (Sample.cfg_with 0 None 30 ["nq_dev"] false false
                      (Sample.train_cfg 4 true))
                   (Sample.env [2] (fun _ => Sample.dev_run 1 [2; 1]%Q)))
        Sample.trainer ZeroDivisionError
    (fun es =>
       schedulers_built es = [(0, 0, 0)]
       ∧ epochs_started es = [0]
       ∧ train_steps es = [(0, 1)]
       ∧ optimizer_steps es = 0%nat
       ∧ validation_runs es = []
       ∧ checkpoints_saved es = []).
Proof.
  apply (run_train_too_few_batches
           (Sample.cfg_with 0 None 30 ["nq_dev"] false false (Sample.train_cfg 4 true))
           (Sample.env [2] (fun _ => Sample.dev_run 1 [2; 1]%Q)) Sample.trainer
           {| data_iteration := 1; step_loss := 2; step_correct := 1 |}
           [ {| data_iteration := 2; step_loss := 1; step_correct := 2 |} ]);
    first [ discriminate | reflexivity | (cbn; lia) ].
Defined.

(** ** The pooled batch of [_calc_loss], continued *)

Section PooledBatch.
Context {V : Type}.
Implicit Types (w me : Payload V) (world ws : list (Payload V)).

Lemma lookup_concat_at {X} (f : Payload V → list X) world i w j (x : X) :
  world !! i = Some w → f w !! j = Some x →
  concat (f <$> world) !! (sum_list_with (fun w => length (f w)) (take i world) + j)%nat
  = Some x.
Proof.
  revert i. induction world as [|w0 world IH]; intros i Hi Hj; [done|].
  destruct i as [|i]; cbn in *.
  - simplify_eq. rewrite lookup_app_l; [done|]. by eapply lookup_lt_Some.
  - rewrite lookup_app_r by lia.
    replace (length (f w0) + _ + j - length (f w0))%nat
      with (sum_list_with (fun w => length (f w)) (take i world) + j)%nat by lia.
    by apply IH.
Qed.

Lemma lookup_rebase_positive_from base world i w j p :
  world !! i = Some w → p_positive_idx w !! j = Some p →
  rebase_positive_from base world
    !! (sum_list_with (fun w => length (p_positive_idx w)) (take i world) + j)%nat
  = Some (p + (base + offset world i))%nat.
Proof.
  revert base i. induction world as [|w0 world IH]; intros base i Hi Hj; [done|].
  destruct i as [|i]; cbn [rebase_positive_from take sum_list_with] in *.
  - cbn in Hi. simplify_eq. unfold offset. cbn. rewrite Nat.add_0_r.
    rewrite lookup_app_l by (unfold shift_by; rewrite length_fmap; by eapply lookup_lt_Some).
    unfold shift_by. by rewrite list_lookup_fmap, Hj.
  - cbn in Hi. rewrite lookup_app_r by (unfold shift_by; rewrite length_fmap; lia).
    unfold shift_by at 1. rewrite length_fmap.
    replace (length (p_positive_idx w0) + _ + j - length (p_positive_idx w0))%nat
      with (sum_list_with (fun w => length (p_positive_idx w)) (take i world) + j)%nat
      by lia.
    rewrite (IH _ i) by done. f_equal. unfold offset. cbn. lia.
Qed.

Lemma existsb_detached (f : Payload V → Tensor V) d ws :
  existsb requires_grad ((fun w => to_device d (detached_cpu_copy (f w))) <$> ws) = false.
Proof. by induction ws. Qed.

(** What the distributed branch builds when every worker's submission
    comes back in rank order. *)
Lemma calc_loss_inputs_pooled (cfg : Cfg) me
    (all_gather_list : Payload V → list (Payload V)) (k : Z) world (r : nat) :
  distributed_world_size cfg = Some k → 1 < k →
  local_rank cfg = Z.of_nat r → world !! r = Some me →
  all_gather_list (sent me) = sent <$> world →
  ∃ a, _calc_loss_inputs cfg (p_q_vector me) (p_ctx_vectors me) (p_positive_idx me)
                         (p_hard_negatives_idxs me) all_gather_list = Ok a
       ∧ rows (global_q_vector a) = concat ((fun w => rows (p_q_vector w)) <$> world)
       ∧ rows (global_ctxs_vector a) = concat ((fun w => rows (p_ctx_vectors w)) <$> world)
       ∧ positive_idx_per_question a = rebase_positive_from 0 world.
Proof.
  intros Hk Hk1 Hr Hme Hg.
  unfold _calc_loss_inputs, world_size_or_1. rewrite Hk.
  destruct (decide (k = 0)) as [|_]; [lia|].
  destruct (decide (k > 1)) as [_|]; [|lia].
  unfold _calc_loss_pool.
  change (payload_to_send _ _ _ _) with (sent me). rewrite Hg.
  destruct (pool_loop_slots cfg me 0 (sent <$> world) empty_pool) as [Hq Hc].
  assert (Hown : ∀ j w, world !! j = Some w →
                   Z.of_nat (0 + j) = local_rank cfg → w = me).
  { intros j w Hj Hjr. cbn in Hjr. assert (j = r) as -> by lia. congruence. }
  destruct (pool_loop_indices cfg me 0 world empty_pool Hown) as (_ & Hp & _).
  cbn zeta in Hp. cbn [empty_pool pool_q pool_ctxs app] in Hq, Hc.
  cbn [empty_pool pool_positive total_ctxs app] in Hp.
  rewrite Hq, Hc, Hp.
  destruct (slots_around_own cfg me 0 (take r world) (drop (S r) world)) as [Sq Sc].
  { rewrite length_take_le; [by rewrite Hr|]. apply lookup_lt_Some in Hme. lia. }
  rewrite (take_drop_middle world r me Hme) in Sq, Sc.
  destruct (cat_nonempty (imap (fun j => q_slot cfg me (0 + j)) (sent <$> world)))
    as (gq & -> & Hgq & _); [rewrite Sq; by destruct (take r world)|].
  destruct (cat_nonempty (imap (fun j => ctx_slot cfg me (0 + j)) (sent <$> world)))
    as (gc & -> & Hgc & _); [rewrite Sc; by destruct (take r world)|].
  cbn [rbind]. eexists. split; [reflexivity|].
  cbn [global_q_vector global_ctxs_vector positive_idx_per_question].
  split; [|split; [|done]].
  - rewrite Hgq, Sq. f_equal.
    rewrite <- (take_drop_middle world r me Hme) at 3.
    rewrite !fmap_app, !fmap_cons, <- !list_fmap_compose. reflexivity.
  - rewrite Hgc, Sc. f_equal.
    rewrite <- (take_drop_middle world r me Hme) at 3.
    rewrite !fmap_app, !fmap_cons, <- !list_fmap_compose. reflexivity.
Qed.

(** X23.  In the pooled batch that [_calc_loss] hands to the loss function,
    every question still meets its own gold passage: if the workers before
    worker [i] each have one positive index per question, then the [j]-th
    question of worker [i] sits at row [q_offset + j] of the global
    queries, and the positive index at that same position of the global
    list is the row of the global passages that holds the passage the
    worker's local index pointed at. *)
Theorem calc_loss_positive_alignment (cfg : Cfg) me
    (all_gather_list : Payload V → list (Payload V)) (k : Z) world (r i j p : nat)
    w (q v : V) :
  distributed_world_size cfg = Some k → 1 < k →
  local_rank cfg = Z.of_nat r → world !! r = Some me →
  all_gather_list (sent me) = sent <$> world →
  Forall (fun w' => length (p_positive_idx w') = size0 (p_q_vector w')) (take i world) →
  world !! i = Some w →
  rows (p_q_vector w) !! j = Some q →
  p_positive_idx w !! j = Some p →
  rows (p_ctx_vectors w) !! p = Some v →
  ∃ a g,
    _calc_loss_inputs cfg (p_q_vector me) (p_ctx_vectors me) (p_positive_idx me)
                      (p_hard_negatives_idxs me) all_gather_list = Ok a
    ∧ rows (global_q_vector a) !! (q_offset world i + j)%nat = Some q
    ∧ positive_idx_per_question a !! (q_offset world i + j)%nat = Some g
    ∧ rows (global_ctxs_vector a) !! g = Some v.
Proof.
  intros Hk Hk1 Hr Hme Hg Hone Hi Hq Hp Hv.
  destruct (calc_loss_inputs_pooled cfg me all_gather_list k world r Hk Hk1 Hr Hme Hg)
    as (a & Ha & Hrq & Hrc & Hpos).
  exists a, (p + offset world i)%nat. split; [done|].
  assert (Hoff : q_offset world i
                 = sum_list_with (fun w => length (p_positive_idx w)) (take i world)).
  { unfold q_offset. induction Hone as [|w' l Hw' _ IH]; [done|]. cbn. by rewrite IH, Hw'. }
  split; [|split].
  - rewrite Hrq. by apply (lookup_concat_at (fun w => rows (p_q_vector w)) world i w).
  - rewrite Hpos, Hoff. by rewrite (lookup_rebase_positive_from 0 world i w j p).
  - rewrite Hrc. by apply (lookup_concat_offset world i w).
Qed.


Lemma slots_all_remote (cfg : Cfg) me ws :
  (∀ j, (j < length ws)%nat → Z.of_nat j ≠ local_rank cfg) →
  imap (fun j => q_slot cfg me (0 + j)) (sent <$> ws)
  = (fun w => to_device (device (p_q_vector me)) (detached_cpu_copy (p_q_vector w))) <$> ws
  ∧ imap (fun j => ctx_slot cfg me (0 + j)) (sent <$> ws)
    = (fun w => to_device (device (p_q_vector me)) (detached_cpu_copy (p_ctx_vectors w)))
        <$> ws.
Proof.
  intros Hall. split.
  - rewrite imap_fmap, <- (imap_const _ ws). apply imap_ext. intros j w Hj.
    unfold q_slot, compose. cbn. rewrite decide_True; [done|].
    apply Hall. by eapply lookup_lt_Some.
  - rewrite imap_fmap, <- (imap_const _ ws). apply imap_ext. intros j w Hj.
    unfold ctx_slot, compose. cbn. rewrite decide_True; [done|].
    apply Hall. by eapply lookup_lt_Some.
Qed.

(** X24.  [_calc_loss] recognises the calling worker's own slot by
    [i != cfg.local_rank] alone.  In distributed mode with a [local_rank]
    that is no position of the gathered list (such as -1), every slot is
    filled from the gathered copies: the pooled vectors and indices are
    the same as ever, but no row of them carries gradient, and the result
    of [torch.cat] does not require grad.  With nothing gathered,
    [torch.cat] raises. *)
Theorem calc_loss_without_own_slot (cfg : Cfg) me
    (all_gather_list : Payload V → list (Payload V)) (k : Z) world :
  distributed_world_size cfg = Some k → 1 < k →
  all_gather_list (sent me) = sent <$> world →
  (∀ j, (j < length world)%nat → Z.of_nat j ≠ local_rank cfg) →
  let inputs :=
    _calc_loss_inputs cfg (p_q_vector me) (p_ctx_vectors me) (p_positive_idx me)
                      (p_hard_negatives_idxs me) all_gather_list in
  let pool :=
    _calc_loss_pool cfg (p_q_vector me) (p_ctx_vectors me) (p_positive_idx me)
                    (p_hard_negatives_idxs me) all_gather_list in
  (world = [] →
   inputs = Raise (RuntimeError "torch.cat(): expected a non-empty list of Tensors"))
  ∧ (world ≠ [] →
     ∃ a, inputs = Ok a
          ∧ rows (global_q_vector a) = concat ((fun w => rows (p_q_vector w)) <$> world)
          ∧ rows (global_ctxs_vector a)
            = concat ((fun w => rows (p_ctx_vectors w)) <$> world)
          ∧ positive_idx_per_question a = rebased_positive world
          ∧ requires_grad (global_q_vector a) = false
          ∧ requires_grad (global_ctxs_vector a) = false)
  ∧ grad_rows (pool_q pool)
    = replicate (sum_list_with (fun w => size0 (p_q_vector w)) world) false
  ∧ grad_rows (pool_ctxs pool)
    = replicate (sum_list_with (fun w => size0 (p_ctx_vectors w)) world) false.
Proof.
  intros Hk Hk1 Hg Hall inputs pool.
  assert (Hpool : pool_q pool
                  = (fun w => to_device (device (p_q_vector me))
                                (detached_cpu_copy (p_q_vector w))) <$> world
                  ∧ pool_ctxs pool
                    = (fun w => to_device (device (p_q_vector me))
                                  (detached_cpu_copy (p_ctx_vectors w))) <$> world
                  ∧ pool_positive pool = rebased_positive world).
  { subst pool. unfold _calc_loss_pool.
    change (payload_to_send _ _ _ _) with (sent me). rewrite Hg.
    destruct (pool_loop_slots cfg me 0 (sent <$> world) empty_pool) as [Hq Hc].
    destruct (slots_all_remote cfg me world Hall) as [Sq Sc].
    assert (Hown : ∀ j w, world !! j = Some w →
                     Z.of_nat (0 + j) = local_rank cfg → w = me).
    { intros j w Hj Hjr. exfalso. apply (Hall j); [by eapply lookup_lt_Some|done]. }
    destruct (pool_loop_indices cfg me 0 world empty_pool Hown) as (_ & Hp & _).
    cbn zeta in Hp. cbn [empty_pool pool_q pool_ctxs pool_positive total_ctxs app] in *.
    rewrite Hq, Hc, Hp, Sq, Sc. split; [done|]. split; [done|].
    by rewrite rebase_positive_from_imap. }
  destruct Hpool as (Hq & Hc & Hp).
  assert (Hin : inputs
                = rbind (cat (pool_q pool)) (fun gq =>
                  rbind (cat (pool_ctxs pool)) (fun gc =>
                  Ok (mkLossInputs gq gc (pool_positive pool)
                                   (pool_hard_negatives pool))))).
  { subst inputs pool. unfold _calc_loss_inputs, world_size_or_1. rewrite Hk.
    destruct (decide (k = 0)) as [|_]; [lia|].
    by destruct (decide (k > 1)) as [_|]; [|lia]. }
  split; [|split; [|split]].
  - intros ->. rewrite Hin, Hq. done.
  - intros Hne. rewrite Hin.
    destruct (cat_nonempty (pool_q pool)) as (gq & -> & Hgq & Hgrq);
      [rewrite Hq; by destruct world|].
    destruct (cat_nonempty (pool_ctxs pool)) as (gc & -> & Hgc & Hgrc);
      [rewrite Hc; by destruct world|].
    cbn [rbind]. eexists. split; [reflexivity|].
    cbn [global_q_vector global_ctxs_vector positive_idx_per_question].
    rewrite Hgq, Hgc, Hgrq, Hgrc, Hq, Hc, !existsb_detached, <- !list_fmap_compose.
    done.
  - rewrite Hq. apply grad_rows_detached.
  - rewrite Hc. apply grad_rows_detached.
Qed.
End PooledBatch.

Lemma calc_loss_positive_alignment_witness :
  ∃ a g,
    _calc_loss_inputs Sample.cfg_two_workers (p_q_vector Sample.w1)
      (p_ctx_vectors Sample.w1) (p_positive_idx Sample.w1)
      (p_hard_negatives_idxs Sample.w1) Sample.gather = Ok a
    ∧ rows (global_q_vector a) !! (q_offset Sample.world 1 + 0)%nat = Some 200%nat
    ∧ positive_idx_per_question a !! (q_offset Sample.world 1 + 0)%nat = Some g
    ∧ rows (global_ctxs_vector a) !! g = Some 21%nat.
Proof.
  apply (calc_loss_positive_alignment Sample.cfg_two_workers Sample.w1 Sample.gather
           2 Sample.world 1 1 0 1 Sample.w1 200%nat 21%nat);
    first [ reflexivity | (repeat constructor) ].
Defined.

Lemma calc_loss_without_own_slot_witness :
  let cfg := Sample.cfg_with (-1) (Some 2) 30 ["nq_dev"] false false
               (Sample.train_cfg 1 true) in
  let pool := _calc_loss_pool cfg (p_q_vector Sample.w1) (p_ctx_vectors Sample.w1)
                (p_positive_idx Sample.w1) (p_hard_negatives_idxs Sample.w1)
                Sample.gather in
  grad_rows (pool_q pool) = replicate 3 false
  ∧ grad_rows (pool_ctxs pool) = replicate 5 false.
Proof.
  intros cfg pool.
  apply (calc_loss_without_own_slot cfg Sample.w1 Sample.gather 2 Sample.world);
    first [ reflexivity | (intros j _; cbn; lia) ].
Defined.

(** ** Starting up *)

Lemma load_saved_state_effect (cfg : Cfg) (s : CheckpointState) (t : Trainer) :
  let t' := (_load_saved_state cfg s t).2 in
  trace t' = trace t
  ∧ best_cp_name t' = best_cp_name t
  ∧ best_validation_result t' = best_validation_result t
  ∧ start_epoch t'
    = (if ignore_checkpoint_offset cfg then 0
       else if bool_decide (cp_offset s = 0) then cp_epoch s + 1 else cp_epoch s)
  ∧ scheduler_state t'
    = (if negb (ignore_checkpoint_optimizer cfg) && truthy_dict (scheduler_dict s)
       then Some (scheduler_dict s) else scheduler_state t).
Proof.
  unfold _load_saved_state, bind, modify, when, ret.
  destruct (ignore_checkpoint_offset cfg), (ignore_checkpoint_optimizer cfg),
    (truthy_dict (optimizer_dict s)), (truthy_dict (scheduler_dict s)); done.
Qed.



(** X26.  Resuming: a trainer constructed from a checkpoint and then run.
    The first epoch trained is the checkpoint's epoch, or the one after it
    when the checkpoint's offset is 0, or epoch 0 under
    [ignore_checkpoint_offset]; the scheduler is built for the full number
    of updates all the same, shifted by the checkpoint's [last_epoch]
    unless [ignore_checkpoint_optimizer] is set or the stored scheduler
    state is empty.  A checkpoint at or past the last epoch leaves nothing
    to train: the run goes through without a batch or a checkpoint. *)
Theorem resumed_run (cfg : Cfg) (env : Env) (log : list Event) (s : CheckpointState) :
  let t := BiEncoderTrainer_init cfg env log in
  let max_iterations := get_max_iterations (source_batches env) in
  let updates_per_epoch := max_iterations / gradient_accumulation_steps (train cfg) in
  let first_epoch :=
    if ignore_checkpoint_offset cfg then 0
    else if bool_decide (cp_offset s = 0) then cp_epoch s + 1 else cp_epoch s in
  let shift :=
    if negb (ignore_checkpoint_optimizer cfg) && truthy_dict (scheduler_dict s)
    then default 0 (scheduler_dict s !! "last_epoch") else 0 in
  saved_state env = Some s →
  (rank_in_m1_0 cfg = true → is_Some (output_dir cfg)) →
  0 < gradient_accumulation_steps (train cfg) →
  log_batch_step (train cfg) ≠ 0 →
  train_rolling_loss_step (train cfg) ≠ 0 →
  eval_per_epoch (train cfg) ≠ 0 →
  max_iterations ≠ 0 →
  - (- updates_per_epoch / eval_per_epoch (train cfg)) ≠ 0 →
  (truthy_str (customer_chunks cfg) = true → customer_chunk_files env ≠ []) →
  (ignore_checkpoint_optimizer cfg = false → truthy_dict (scheduler_dict s) = true →
   is_Some (scheduler_dict s !! "last_epoch")) →
  (∀ n epoch all_passages,
     is_ok (validation_measures cfg (torch_sort env) (dev_runs env n) epoch all_passages)
     = true) →
  ∃ t' es,
    run_train cfg env t = (Ok tt, t')
    ∧ trace t' = (log ++ [TrainerConstructed]) ++ es
    ∧ biencoder_state t = model_dict s
    ∧ schedulers_built es
      = [(warmup_steps (train cfg),
          updates_per_epoch * num_train_epochs (train cfg), shift)]
    ∧ epochs_started es = seqZ first_epoch (num_train_epochs (train cfg) - first_epoch)
    ∧ (num_train_epochs (train cfg) <= first_epoch →
       train_steps es = [] ∧ checkpoints_saved es = []).
Proof.
  intros t max_iterations updates_per_epoch first_epoch shift
    Hsaved Hdir Hacc Hlog Hroll Hepe Hmax Hes Hchunks Hlast Hdev.
  assert (Ht : t = (_load_saved_state cfg s
                      (mkTrainer 0 0 None None None (init_biencoder_state env)
                         (init_optimizer_state env) 0 (log ++ [TrainerConstructed]))).2).
  { subst t. unfold BiEncoderTrainer_init. by rewrite Hsaved. }
  destruct (load_saved_state_effect cfg s
              (mkTrainer 0 0 None None None (init_biencoder_state env)
                 (init_optimizer_state env) 0 (log ++ [TrainerConstructed])))
    as (Htr & _ & _ & Hse & Hss).
  rewrite <- Ht in Htr, Hse, Hss. cbn [trace scheduler_state] in Htr, Hss.
  assert (Hshift : steps_shift t = shift).
  { unfold steps_shift. rewrite Hss. subst shift.
    destruct (ignore_checkpoint_optimizer cfg); cbn [negb andb]; [done|].
    destruct (truthy_dict (scheduler_dict s)) eqn:E; cbn; by rewrite ?E. }
  assert (Hsched : ∀ st, scheduler_state t = Some st → truthy_dict st = true →
                         is_Some (st !! "last_epoch")).
  { intros st. rewrite Hss.
    destruct (ignore_checkpoint_optimizer cfg) eqn:Ei; cbn [negb andb]; [done|].
    destruct (truthy_dict (scheduler_dict s)) eqn:E; [|done].
    intros [= <-] _. by apply Hlast. }
  destruct (run_train_produces cfg env t Hdir Hacc Hlog Hroll Hepe Hmax Hes Hchunks
              Hsched Hdev)
    as ([] & t' & es & Hrun & Htr' & Hsb & Hep & Hts & _ & _ & _ & Hlen).
  exists t', es. split; [done|]. split; [by rewrite Htr', Htr|].
  split.
  { rewrite Ht. unfold _load_saved_state, bind, modify, when, ret.
    by destruct (ignore_checkpoint_offset cfg), (ignore_checkpoint_optimizer cfg),
      (truthy_dict (optimizer_dict s)), (truthy_dict (scheduler_dict s)). }
  split; [by rewrite Hsb, Hshift|].
  rewrite Hse in Hep, Hts, Hlen. fold first_epoch in Hep, Hts, Hlen.
  split; [done|].
  intros Hpast. rewrite seqZ_nil in Hts, Hlen by lia.
  split; [done|]. apply nil_length_inv. cbn in Hlen. lia.
Qed.

Lemma resumed_run_witness :
  let env :=
    {| wandb_api_key := Some "key"; saved_state := Some Sample.checkpoint;
       init_biencoder_state := ∅; init_optimizer_state := ∅;
       customer_chunk_files := []; customer_passages := [];
       source_batches := [2];
       epoch_steps := fun _ => Sample.steps;
       dev_runs := fun _ => Sample.dev_run 1 [2; 1]%Q; torch_sort := argsort |} in
  ∃ t' es,
    run_train Sample.cfg env (BiEncoderTrainer_init Sample.cfg env []) = (Ok tt, t')
    ∧ trace t' = ([] ++ [TrainerConstructed]) ++ es
    ∧ biencoder_state (BiEncoderTrainer_init Sample.cfg env [])
      = model_dict Sample.checkpoint
    ∧ schedulers_built es = [(0, 2 / 1 * 2, 100)]
    ∧ epochs_started es = seqZ (3 + 1) (2 - (3 + 1))
    ∧ (2 <= 3 + 1 → train_steps es = [] ∧ checkpoints_saved es = []).
Proof.
  intros env.
  apply (resumed_run Sample.cfg env [] Sample.checkpoint);
    first [ exact sample_dev_runs_ok | discriminate | reflexivity
          | (intros _; eexists; reflexivity) | (intros _ _; eexists; reflexivity) ].
Defined.
